(** * academic-mcp: the PDF acquisition-and-extraction pipeline

    A shallow embedding of [src/index.ts] (the tool-call handler) and of the
    [PDFUtils] class it drives, followed by theorems about filename
    resolution, signature validation, the download state machine, page
    extraction, chunking, and storage bookkeeping.

    Modelling conventions.
    - A JavaScript string is a [string]; all literals of the source are
      ASCII, and a character stands for one code unit.
    - A JavaScript number that holds a page number, a chunk size, a count
      or a timestamp is a [Z]; a coordinate on a page is a [float], with
      the arithmetic of IEEE 754 doubles.  An optional argument is an
      [option].
    - A [Buffer] is a [list byte].
    - The file system maps the path of a directory to the table of its
      files (name to contents).  A directory that is absent from the map
      cannot be read or written.  The directory at [dir/name] is an entry
      of the directory [dir]: a listing shows it, and it cannot be read,
      written or unlinked as a file.
    - What the program obtains from outside (HTTP responses, the clock, the
      PDF parser, the JSON serializer, the search clients) is a field of
      [Env]; every theorem holds for every [Env].  The [tick] of a [World]
      numbers the external interactions, so that the same request may be
      answered differently each time it is made.
    - A loop or recursion that the source does not bound takes a [fuel]
      argument and answers [OutOfFuel] when it is exhausted. *)

From Stdlib Require Import ZArith QArith Floats Ascii String List Lia.
From Stdlib.Init Require Import Byte.
From stdpp Require Import base option list sorting gmap strings pretty.

Set Warnings "-register-all,-abstract-large-number".

Local Open Scope string_scope.
Local Open Scope Z_scope.

(** ** JavaScript string primitives used by the source *)

Module Js.

(** [rest] when [s = pat ++ rest]. *)
Fixpoint strip_prefix (pat s : string) : option string :=
  match pat, s with
  | EmptyString, _ => Some s
  | String a pat', String b s' =>
      if Ascii.eqb a b then strip_prefix pat' s' else None
  | String _ _, EmptyString => None
  end.

(** [s.includes(sub)] *)
Fixpoint includes (s sub : string) : bool :=
  match strip_prefix sub s with
  | Some _ => true
  | None =>
      match s with
      | EmptyString => false
      | String _ s' => includes s' sub
      end
  end.

(** [s.endsWith(suf)]: some tail of [s] is [suf]. *)
Fixpoint endsWith (s suf : string) : bool :=
  if String.eqb s suf then true
  else match s with
       | EmptyString => false
       | String _ s' => endsWith s' suf
       end.

(** [s.split(sep)] for a one-character separator. *)
Fixpoint split (sep : ascii) (s : string) : list string :=
  match s with
  | EmptyString => [EmptyString]
  | String c s' =>
      if Ascii.eqb c sep then EmptyString :: split sep s'
      else match split sep s' with
           | h :: t => String c h :: t
           | [] => [String c EmptyString]
           end
  end.

(** [s.replace(pat, rep)] with a string pattern: the first occurrence only. *)
Fixpoint replace_first (pat rep s : string) : string :=
  match strip_prefix pat s with
  | Some rest => rep +:+ rest
  | None =>
      match s with
      | EmptyString => EmptyString
      | String c s' => String c (replace_first pat rep s')
      end
  end.

(** [s.replace(/[class]/g, c)]: every character of the class becomes [c]. *)
Fixpoint replace_chars (in_class : ascii -> bool) (c : ascii) (s : string) : string :=
  match s with
  | EmptyString => EmptyString
  | String a s' =>
      String (if in_class a then c else a) (replace_chars in_class c s')
  end.

(** [s.replace(/suf$/, '')] for a literal suffix. *)
Fixpoint strip_suffix (suf s : string) : string :=
  if String.eqb s suf then EmptyString
  else match s with
       | EmptyString => EmptyString
       | String c s' => String c (strip_suffix suf s')
       end.

Definition between (lo hi : N) (c : ascii) : bool :=
  ((lo <=? N_of_ascii c) && (N_of_ascii c <=? hi))%N.

Definition is_alnum (c : ascii) : bool :=
  between 97 122 c || between 65 90 c || between 48 57 c.

(** The complement of the class [[^a-zA-Z0-9._-]]. *)
Definition is_filename_char (c : ascii) : bool :=
  is_alnum c || Ascii.eqb c "." || Ascii.eqb c "_" || Ascii.eqb c "-".

(** [\w] and [\s]; of the white space of ECMAScript, the code units below
    256 are 9 to 13, 32 and 160. *)
Definition is_word_char (c : ascii) : bool := is_alnum c || Ascii.eqb c "_".

Definition is_space (c : ascii) : bool :=
  between 9 13 c || Ascii.eqb c " " || N.eqb (N_of_ascii c) 160.

Fixpoint trim_start (s : string) : string :=
  match s with
  | String c s' => if is_space c then trim_start s' else s
  | EmptyString => EmptyString
  end.

(** [s.trim()] *)
Definition trim (s : string) : string :=
  String.rev (trim_start (String.rev (trim_start s))).

(** The longest prefix without a slash: the capture group [([^\/]+)]. *)
Fixpoint take_until_slash (s : string) : string :=
  match s with
  | EmptyString => EmptyString
  | String c s' =>
      if Ascii.eqb c "/" then EmptyString else String c (take_until_slash s')
  end.

(** [s.match(/arxiv\.org\/pdf\/([^\/]+)/)?.[1]]: the capture of the leftmost
    match, if there is one. *)
Fixpoint match_arxiv_pdf (s : string) : option string :=
  let here :=
    match strip_prefix "arxiv.org/pdf/" s with
    | Some rest =>
        match take_until_slash rest with
        | EmptyString => None
        | id => Some id
        end
    | None => None
    end in
  match here with
  | Some id => Some id
  | None =>
      match s with
      | EmptyString => None
      | String _ s' => match_arxiv_pdf s'
      end
  end.

(** [o || d] on a string that may be [undefined]: the empty string is falsy. *)
Definition or_else (o : option string) (d : string) : string :=
  match o with
  | Some EmptyString | None => d
  | Some s => s
  end.

(** [if (s)] on a string that may be [undefined] or [null]. *)
Definition truthy (o : option string) : option string :=
  match o with
  | Some EmptyString | None => None
  | Some s => Some s
  end.

(** The line feed character. *)
Definition nl : string := String (ascii_of_nat 10) EmptyString.

(** [buffer.toString('ascii', start, stop)]: Node clears the highest bit of
    every byte before it decodes. *)
Definition toString_ascii (buffer : list byte) (start stop : nat) : string :=
  string_of_list_ascii
    (map (fun b => ascii_of_N (N.land (Byte.to_N b) 127))
       (take (stop - start) (drop start buffer))).

End Js.

(** ** The file system (module [fs] and [path] of Node) *)

Module Fs.

Abbreviation Dir := (gmap string (list byte)).
Abbreviation Disk := (gmap string (gmap string (list byte))).

(** A path is cut at its last slash; [None] when it has no slash. *)
Fixpoint cut (p : string) : option string * string :=
  match p with
  | EmptyString => (None, EmptyString)
  | String c p' =>
      match cut p' with
      | (Some d, b) => (Some (String c d), b)
      | (None, b) =>
          if Ascii.eqb c "/" then (Some EmptyString, b) else (None, String c b)
      end
  end.

Definition dirname (p : string) : string := default "." (fst (cut p)).
Definition basename (p : string) : string := snd (cut p).

(** [path.join(dir, name)] for a normalised [dir] and a single component. *)
Definition join (dir name : string) : string := dir +:+ "/" +:+ name.

Fixpoint no_slash (name : string) : bool :=
  match name with
  | EmptyString => true
  | String c name' => negb (Ascii.eqb c "/") && no_slash name'
  end.

(** Whether there is a directory at [p]. *)
Definition is_directory (p : string) (d : Disk) : bool :=
  match d !! p with
  | Some _ => true
  | None => false
  end.

Definition readFileSync (p : string) (d : Disk) : string + list byte :=
  if is_directory p d then inl "EISDIR: illegal operation on a directory, read"
  else
    match d !! dirname p ≫= (fun entries : Dir => entries !! basename p) with
    | Some data => inr data
    | None => inl ("ENOENT: no such file or directory, open '" +:+ p +:+ "'")
    end.

Definition existsSync (p : string) (d : Disk) : bool :=
  is_directory p d ||
  match readFileSync p d with
  | inr _ => true
  | inl _ => false
  end.

Definition writeFileSync (p : string) (data : list byte) (d : Disk) : string + Disk :=
  if is_directory p d
  then inl ("EISDIR: illegal operation on a directory, open '" +:+ p +:+ "'")
  else
    match d !! dirname p with
    | Some entries => inr (<[dirname p := <[basename p := data]> entries]> d)
    | None => inl ("ENOENT: no such file or directory, open '" +:+ p +:+ "'")
    end.

(** [unlinkSync] removes a file; it refuses a directory. *)
Definition unlinkSync (p : string) (d : Disk) : string + Disk :=
  if is_directory p d
  then inl ("EISDIR: illegal operation on a directory, unlink '" +:+ p +:+ "'")
  else
    match d !! dirname p with
    | Some entries =>
        match entries !! basename p with
        | Some _ => inr (<[dirname p := delete (basename p) entries]> d)
        | None => inl ("ENOENT: no such file or directory, unlink '" +:+ p +:+ "'")
        end
    | None => inl ("ENOENT: no such file or directory, unlink '" +:+ p +:+ "'")
    end.

(** The name under which the directory at [key] is an entry of [dir], when
    it is one: [key] is [dir], a slash and a single component. *)
Definition subdirectory_name (dir key : string) : option string :=
  match Js.strip_prefix (dir +:+ "/") key with
  | Some name => if no_slash name then Some name else None
  | None => None
  end.

Definition subdirectories (dir : string) (d : Disk) : list string :=
  omap (fun entry : string * Dir => subdirectory_name dir (fst entry)) (map_to_list d).

(** [readdirSync] lists the subdirectories and the files of [dir].  The
    order of a listing is the system's; here the subdirectories come
    first. *)
Definition readdirSync (dir : string) (d : Disk) : string + list string :=
  match d !! dir with
  | Some entries => inr (subdirectories dir d ++ map fst (map_to_list entries))%list
  | None => inl ("ENOENT: no such file or directory, scandir '" +:+ dir +:+ "'")
  end.

(** The name of a directory entry is a single path component. *)
Definition names_wf (entries : Dir) : Prop :=
  forall name data, entries !! name = Some data -> no_slash name = true.

(** The files of a directory; none when it does not exist. *)
Definition entries_of (dir : string) (d : Disk) : Dir := default ∅ (d !! dir).

(** The names that a listing of the directory shows. *)
Definition files_in (dir : string) (d : Disk) : list string :=
  match readdirSync dir d with
  | inr names => names
  | inl _ => []
  end.

End Fs.


(** ** Values exchanged with the outside *)

(** The outcome of a call: a value, an exception with its message, or no
    answer within the fuel given. *)
Inductive res (A : Type) : Type :=
  | Ret (a : A)
  | Throw (message : string)
  | OutOfFuel.
Arguments Ret {A} a.
Arguments Throw {A} message.
Arguments OutOfFuel {A}.

(** A value handed to [JSON.stringify]. *)
Inductive json : Type :=
  | JNull
  | JBool (b : bool)
  | JNumber (n : Z)
  | JString (s : string)
  | JArray (items : list json)
  | JObject (fields : list (string * json)).

(** An item of [page.getTextContent().items]: a text run with the sixth
    component of its transform when it has one, or marked content, which
    has no [str]. *)
Inductive TextContentItem : Type :=
  | TextItem (str : string) (transform5 : option float)
  | MarkedContent.

Record PDFDocument : Type := { pages : list (list TextContentItem) }.

Definition numPages (doc : PDFDocument) : Z := Z.of_nat (length (pages doc)).

(** A paper as [ArxivClient.searchPapers] returns it; the handler copies
    these fields. *)
Record ArxivPaper : Type := {
  a_title : json; a_authors : json; a_abstract : json; a_published : json;
  a_categories : json; a_pdfUrl : json; a_htmlUrl : json }.

Record ScholarPaper : Type := {
  s_title : string; s_authors : list string; s_abstract : string;
  s_year : option Z; s_venue : string; s_citedBy : Z;
  s_url : string; s_pdfUrl : option string }.

(** An entry of the arXiv Atom feed: its links as (media type, href). *)
Abbreviation FeedEntry := (list (string * string)).

Record Env : Type := {
  (** [os.tmpdir()], without a trailing slash *)
  os_tmpdir : string;
  (** [axios.get(url, {responseType: 'arraybuffer'})]: the error message or
      the body *)
  axios_get : nat -> string -> string + list byte;
  (** [Date.now()] *)
  Date_now : nat -> Z;
  (** the arXiv query API for a [search_query]: a failure, or the parsed
      feed's [entry], which may be missing *)
  arxiv_api : nat -> string -> string + option (list FeedEntry);
  (** [new URL(url).searchParams] read for [title], [q], [query] and
      decoded; [None] when the URL does not parse or has none of them *)
  url_title_param : string -> option string;
  (** [getDocument({data}).promise] of pdfjs *)
  getDocument : list byte -> string + PDFDocument;
  (** [JSON.stringify(value, null, 2)] *)
  JSON_stringify : json -> string;
  (** [ArxivClient.searchPapers], whose source is in another file *)
  arxiv_searchPapers : nat -> string -> Z -> string -> string + list ArxivPaper;
  (** the Semantic Scholar search API for a query and a limit: a failure,
      or the papers of the answer *)
  scholar_api : nat -> string -> Z -> string + list ScholarPaper }.

Record World : Type := {
  disk : Fs.Disk;
  tick : nat;
  (** the URLs that [downloadPDF] has requested, oldest first *)
  pdf_requests : list string }.

Definition bump (w : World) : World :=
  {| disk := disk w; tick := S (tick w); pdf_requests := pdf_requests w |}.

Definition set_disk (d : Fs.Disk) (w : World) : World :=
  {| disk := d; tick := tick w; pdf_requests := pdf_requests w |}.

Definition log_request (url : string) (w : World) : World :=
  {| disk := disk w; tick := tick w; pdf_requests := pdf_requests w ++ [url] |}.

(** [n || d] on a number that may be [undefined]: zero is falsy. *)
Definition or_number (o : option Z) (d : Z) : Z :=
  match o with
  | Some 0 | None => d
  | Some n => n
  end.

(** ** class PDFUtils *)

Module PDFUtils.
Section WithEnv.
Context (E : Env).

Definition downloadsDir : string := Fs.join (os_tmpdir E) "science_mcp_downloads".

(** The constructor: create the downloads directory unless it exists. *)
Definition constructor (d : Fs.Disk) : Fs.Disk :=
  match d !! downloadsDir with
  | Some _ => d
  | None => <[downloadsDir := ∅]> d
  end.

(** The signature test that [isValidPDF] applies to the bytes it read. *)
Definition has_pdf_signature (buffer : list byte) : bool :=
  (4 <=? Z.of_nat (length buffer)) && String.eqb (Js.toString_ascii buffer 0 4) "%PDF".

(** [isValidPDF]; the world it leaves is returned with the answer. *)
Definition isValidPDF (filepath : string) (w : World) : bool * World :=
  match Fs.readFileSync filepath (disk w) with
  | inr buffer => (has_pdf_signature buffer, w)
  | inl _ => (false, w)
  end.

Definition paywalledDomains : list string :=
  [ "scholar.google.com"; "sciencedirect.com"; "ieee.org"; "acm.org";
    "springer.com"; "wiley.com"; "tandfonline.com"; "sagepub.com";
    "taylorfrancis.com"; "emerald.com"; "jstor.org" ].

Definition isPaywalledSource (url : string) : bool :=
  existsb (fun domain => Js.includes url domain) paywalledDomains.

Definition is_underscore_or_hyphen (c : ascii) : bool :=
  Ascii.eqb c "_" || Ascii.eqb c "-".

Definition extractTitleFromUrl (url : string) (filename : option string) : option string :=
  let from_filename :=
    match Js.truthy filename with
    | Some f =>
        let cleanFilename :=
          Js.replace_chars is_underscore_or_hyphen " " (Js.strip_suffix ".pdf" f) in
        if 10 <? Z.of_nat (String.length cleanFilename) then Some cleanFilename else None
    | None => None
    end in
  match from_filename with
  | Some t => Some t
  | None =>
      match Js.truthy (url_title_param E url) with
      | Some titleParam => Some titleParam
      | None =>
          let lastPart := List.last (Js.split "/" url) "" in
          if (10 <? Z.of_nat (String.length lastPart)) && negb (Js.includes lastPart ".")
          then Some (Js.replace_chars is_underscore_or_hyphen " " lastPart)
          else None
      end
  end.

Definition dquote : string := String (ascii_of_nat 34) EmptyString.

(** [entries[0].link.find(link => link.$.type === 'application/pdf')?.$.href || null] *)
Definition first_pdf_link (entries : list FeedEntry) : option string :=
  match entries with
  | links :: _ =>
      Js.truthy (snd <$> List.find (fun l => String.eqb (fst l) "application/pdf") links)
  | [] => None
  end.

Definition findPaperOnArxiv (title : string) (w : World) : option string * World :=
  let searchQuery := "ti:" +:+ dquote +:+ title +:+ dquote in
  match arxiv_api E (tick w) searchQuery with
  | inl _ => (None, bump w)
  | inr (Some entries) => (first_pdf_link entries, bump w)
  | inr None =>
      let fallbackQuery :=
        Js.trim (Js.replace_chars
                   (fun c => negb (Js.is_word_char c || Js.is_space c)) " " title) in
      let w1 := bump w in
      match arxiv_api E (tick w1) fallbackQuery with
      | inr (Some entries) => (first_pdf_link entries, bump w1)
      | inr None | inl _ => (None, bump w1)
      end
  end.

(** Lines 640-663: the name under which the download is stored. *)
Definition resolveFilename (pdfUrl : string) (filename : option string) (w : World)
  : string * World :=
  let '(named, w1) :=
    match Js.truthy filename with
    | Some f => (f, w)
    | None =>
        let urlParts := Js.split "/" pdfUrl in
        let baseFilename := List.last urlParts "" in
        if Js.includes baseFilename "arxiv.org" then
          let arxivId := Js.or_else (Js.match_arxiv_pdf pdfUrl) "unknown" in
          ("arxiv_" +:+ arxivId +:+ ".pdf", w)
        else if Js.includes baseFilename "scholar.google" then
          ("scholar_" +:+ pretty (Date_now E (tick w)) +:+ ".pdf", bump w)
        else
          match Js.replace_first ".pdf" "" baseFilename with
          | EmptyString => ("paper_" +:+ pretty (Date_now E (tick w)) +:+ ".pdf", bump w)
          | base => (base +:+ ".pdf", w)
          end
    end in
  let with_ext := if Js.endsWith named ".pdf" then named else named +:+ ".pdf" in
  (Js.replace_chars (fun c => negb (Js.is_filename_char c)) "_" with_ext, w1).

(** The [try] block of [downloadPDF].  The second component is the value of
    the variable [filename] when the block is left: the [catch] block reads
    it. *)
Definition download_try (pdfUrl : string) (filename : option string) (w : World)
  : res string * option string * World :=
  let w1 := log_request pdfUrl (bump w) in
  match axios_get E (tick w) pdfUrl with
  | inl e => (Throw e, filename, w1)
  | inr data =>
      let '(name, w2) := resolveFilename pdfUrl filename w1 in
      let filepath := Fs.join downloadsDir name in
      match Fs.writeFileSync filepath data (disk w2) with
      | inl e => (Throw e, Some name, w2)
      | inr d3 =>
          let '(valid, w3) := isValidPDF filepath (set_disk d3 w2) in
          if valid then (Ret filepath, Some name, w3)
          else
            match Fs.unlinkSync filepath (disk w3) with
            | inl e => (Throw e, Some name, w3)
            | inr d4 =>
                (Throw "Downloaded file is not a valid PDF", Some name, set_disk d4 w3)
            end
      end
  end.

Fixpoint downloadPDF (fuel : nat) (pdfUrl : string) (filename : option string)
    (isRetry : bool) (w : World) : res string * World :=
  match fuel with
  | O => (OutOfFuel, w)
  | S fuel' =>
      match download_try pdfUrl filename w with
      | (Ret filepath, _, w1) => (Ret filepath, w1)
      | (OutOfFuel, _, w1) => (OutOfFuel, w1)
      | (Throw e, filename1, w1) =>
          let failure : res string := Throw ("Failed to download PDF: " +:+ e) in
          if negb isRetry && isPaywalledSource pdfUrl then
            match Js.truthy (extractTitleFromUrl pdfUrl filename1) with
            | Some paperTitle =>
                match findPaperOnArxiv paperTitle w1 with
                | (Some arxivPdfUrl, w2) =>
                    match downloadPDF fuel' arxivPdfUrl filename1 true w2 with
                    | (Ret filepath, w3) => (Ret filepath, w3)
                    | (Throw _, w3) => (failure, w3)
                    | (OutOfFuel, w3) => (OutOfFuel, w3)
                    end
                | (None, w2) => (failure, w2)
                end
            | None => (failure, w1)
            end
          else (failure, w1)
      end
  end.

(** [pdfDocument.getPage(pageNum)] followed by [getTextContent()]. *)
Definition getPage (doc : PDFDocument) (pageNum : Z) : res (list TextContentItem) :=
  if (1 <=? pageNum) && (pageNum <=? numPages doc) then
    match pages doc !! Z.to_nat (pageNum - 1) with
    | Some items => Ret items
    | None => Throw "Invalid page request."
    end
  else Throw "Invalid page request.".

(** The inner loop over the items of a page: what is pushed on [pageText]. *)
Fixpoint pageText (items : list TextContentItem) (lastY : option float) : list string :=
  match items with
  | [] => []
  | MarkedContent :: rest => pageText rest lastY
  | TextItem text transform5 :: rest =>
      let y := default 0%float transform5 in
      let break :=
        match lastY with
        | Some l =>
            if PrimFloat.ltb 5%float (PrimFloat.abs (PrimFloat.sub y l)) then [Js.nl] else []
        | None => []
        end in
      break ++ text :: pageText rest (Some y)
  end.

Definition page_block (pageNum : Z) (items : list TextContentItem) : string :=
  "--- Page " +:+ pretty pageNum +:+ " ---" +:+ Js.nl
    +:+ String.concat " " (pageText items None).

(** The loop over the page numbers: what is pushed on [textParts]. *)
Fixpoint extract_pages (doc : PDFDocument) (pageNums : list Z) : res (list string) :=
  match pageNums with
  | [] => Ret []
  | pageNum :: rest =>
      match getPage doc pageNum with
      | Ret items =>
          match extract_pages doc rest with
          | Ret parts => Ret (page_block pageNum items :: parts)
          | other => other
          end
      | Throw e => Throw e
      | OutOfFuel => OutOfFuel
      end
  end.

(** The page numbers [start, start+1, ..., stop] that a [for] loop visits. *)
Definition page_range (start stop : Z) : list Z := seqZ start (stop - start + 1).

(** Open the file and parse it: the start of the three readers. *)
Definition load (filepath : string) (d : Fs.Disk) : res PDFDocument :=
  if negb (Fs.existsSync filepath d) then Throw ("PDF file not found: " +:+ filepath)
  else
    match Fs.readFileSync filepath d with
    | inl e => Throw e
    | inr data =>
        match getDocument E data with
        | inl e => Throw e
        | inr doc => Ret doc
        end
    end.

Definition readPDFText (filepath : string) (startPage endPage : option Z) (d : Fs.Disk)
  : res string :=
  let failed e : res string := Throw ("Failed to read PDF: " +:+ e) in
  match load filepath d with
  | Ret doc =>
      let totalPages := numPages doc in
      let start := or_number startPage 1 in
      let end_ := or_number endPage totalPages in
      match extract_pages doc (page_range start (Z.min end_ totalPages)) with
      | Ret textParts => Ret (String.concat (Js.nl +:+ Js.nl) textParts)
      | Throw e => failed e
      | OutOfFuel => OutOfFuel
      end
  | Throw e => failed e
  | OutOfFuel => OutOfFuel
  end.

(** The loop of [readPDFTextChunked], entered at [startPage]. *)
Fixpoint read_chunks (fuel : nat) (filepath : string) (chunkSize totalPages startPage : Z)
    (d : Fs.Disk) : res (list string) :=
  match fuel with
  | O => OutOfFuel
  | S fuel' =>
      if startPage <=? totalPages then
        let endPage := Z.min (startPage + chunkSize - 1) totalPages in
        match readPDFText filepath (Some startPage) (Some endPage) d with
        | Ret chunkText =>
            match read_chunks fuel' filepath chunkSize totalPages (startPage + chunkSize) d with
            | Ret chunks => Ret (chunkText :: chunks)
            | other => other
            end
        | Throw e => Throw e
        | OutOfFuel => OutOfFuel
        end
      else Ret []
  end.

Definition readPDFTextChunked (fuel : nat) (filepath : string) (chunkSize : Z) (d : Fs.Disk)
  : res (list string * Z) :=
  let failed e : res (list string * Z) := Throw ("Failed to read PDF in chunks: " +:+ e) in
  match load filepath d with
  | Ret doc =>
      let totalPages := numPages doc in
      if totalPages =? 0 then failed "Could not determine PDF page count"
      else
        match read_chunks fuel filepath chunkSize totalPages 1 d with
        | Ret chunks => Ret (chunks, totalPages)
        | Throw e => failed e
        | OutOfFuel => OutOfFuel
        end
  | Throw e => failed e
  | OutOfFuel => OutOfFuel
  end.

Definition getPDFPageCount (filepath : string) (d : Fs.Disk) : res Z :=
  match load filepath d with
  | Ret doc => Ret (numPages doc)
  | Throw e => Throw ("Failed to get PDF page count: " +:+ e)
  | OutOfFuel => OutOfFuel
  end.

Definition listDownloadedPDFs (d : Fs.Disk) : list string :=
  match Fs.readdirSync downloadsDir d with
  | inr files =>
      map (fun file => Fs.join downloadsDir file)
        (List.filter (fun file => Js.endsWith file ".pdf") files)
  | inl _ => []
  end.

(** [files.forEach(file => fs.unlinkSync(path.join(dir, file)))]: the error
    that stopped it, if any, and the disk as it is left. *)
Fixpoint unlink_each (files : list string) (d : Fs.Disk) : option string * Fs.Disk :=
  match files with
  | [] => (None, d)
  | file :: rest =>
      match Fs.unlinkSync (Fs.join downloadsDir file) d with
      | inr d' => unlink_each rest d'
      | inl e => (Some e, d)
      end
  end.

(** [cleanupDownloads]: both failures end in the [catch] block, which logs
    and returns. *)
Definition cleanupDownloads (w : World) : res unit * World :=
  match Fs.readdirSync downloadsDir (disk w) with
  | inr files =>
      let '(_, d') := unlink_each files (disk w) in (Ret tt, set_disk d' w)
  | inl _ => (Ret tt, w)
  end.

Definition getDownloadsDirectory : string := downloadsDir.


End WithEnv.
End PDFUtils.

(** ** class GoogleScholarClient *)

Module GoogleScholarClient.
Section WithEnv.
Context (E : Env).

(** [parseInt(b.year || '0') - parseInt(a.year || '0') <= 0] *)
Definition newer_first (a b : ScholarPaper) : Prop :=
  default 0 (s_year b) <= default 0 (s_year a).

#[local] Instance newer_first_dec a b : Decision (newer_first a b) := Z_le_dec _ _.

(** [papers.sort(compare)].  The sort of an array is stable: papers that
    compare equal keep the order they had.  A paper is put before the first
    paper that is not newer than it. *)
Fixpoint insert_paper (a : ScholarPaper) (sorted : list ScholarPaper) : list ScholarPaper :=
  match sorted with
  | [] => [a]
  | b :: rest =>
      if decide (newer_first a b) then a :: b :: rest else b :: insert_paper a rest
  end.

Definition sort_by_date (papers : list ScholarPaper) : list ScholarPaper :=
  foldr insert_paper [] papers.

Definition searchPapers (query : string) (maxResults : Z) (sortBy : string) (w : World)
  : list ScholarPaper * World :=
  match scholar_api E (tick w) query maxResults with
  | inr papers =>
      (if String.eqb sortBy "date" then sort_by_date papers else papers, bump w)
  | inl _ => ([], bump w)
  end.

Definition getLatestPapers (topic : string) (maxResults : Z) (w : World)
  : list ScholarPaper * World :=
  searchPapers topic maxResults "date" w.

Definition searchByTopic (topic : string) (maxResults : Z) (w : World)
  : list ScholarPaper * World :=
  searchPapers topic maxResults "relevance" w.

End WithEnv.
End GoogleScholarClient.

(** ** The tool-call handler of [setupServerHandlers] *)

Module Server.

(** The names of the [tools] array, in its order. *)
Definition tool_names : list string :=
  [ "search_arxiv_by_category"; "search_arxiv"; "search_google_scholar";
    "search_both_sources"; "download_pdf"; "read_pdf_text"; "download_and_read_pdf";
    "list_downloaded_pdfs"; "cleanup_downloads" ].

(** The arguments of a tool call, as the input schemas declare them: the
    [required] ones are present. *)
Record ToolArgs : Type := {
  category : string; query : string; pdfUrl : string; filepath : string;
  filename : option string; maxResults : option Z; sortBy : option string;
  startPage : option Z; endPage : option Z;
  chunked : option bool; chunkSize : option Z }.

(** [{content: [{type: 'text', text}], isError}] *)
Record CallToolResult : Type := { text : string; isError : bool }.

Section WithEnv.
Context (E : Env).

Definition arxiv_fields (paper : ArxivPaper) : json :=
  JObject [ ("title", a_title paper); ("authors", a_authors paper);
            ("abstract", a_abstract paper); ("published", a_published paper);
            ("categories", a_categories paper); ("pdfUrl", a_pdfUrl paper);
            ("htmlUrl", a_htmlUrl paper) ].

Definition scholar_fields (paper : ScholarPaper) : json :=
  JObject ([ ("title", JString (s_title paper));
             ("authors", JArray (map JString (s_authors paper)));
             ("abstract", JString (s_abstract paper));
             ("year", JString (from_option pretty "" (s_year paper)));
             ("venue", JString (s_venue paper));
             ("citedBy", JNumber (s_citedBy paper));
             ("url", JString (s_url paper)) ]
           ++ match s_pdfUrl paper with
              | Some u => [("pdfUrl", JString u)]
              | None => []
              end).

Definition maxTokens : Q := 15000.

(** The object that one iteration of the chunked branch serializes. *)
Definition chunked_response (filepath : string) (currentChunkSize totalPages : Z)
    (chunks : list string) : json :=
  JObject [ ("action", JString "read_pdf_text");
            ("filepath", JString filepath);
            ("chunked", JBool true);
            ("totalPages", JNumber totalPages);
            ("chunkSize", JNumber currentChunkSize);
            ("chunks", JArray (imap (fun index chunk =>
               JObject [ ("chunkIndex", JNumber (Z.of_nat index));
                         ("startPage", JNumber (Z.of_nat index * currentChunkSize + 1));
                         ("endPage", JNumber (Z.min ((Z.of_nat index + 1) * currentChunkSize)
                                                totalPages));
                         ("text", JString chunk) ]) chunks)) ].

(** [Math.max(1, Math.floor(currentChunkSize / 2))] *)
Definition shrink (currentChunkSize : Z) : Z := Z.max 1 (currentChunkSize / 2).

(** The [while (currentChunkSize > 0)] loop of the chunked branch: the text
    that an iteration returns, or [None] when the loop is left. *)
Fixpoint fit_chunks (fuel : nat) (filepath : string) (currentChunkSize : Z) (d : Fs.Disk)
  : res (option string) :=
  match fuel with
  | O => OutOfFuel
  | S fuel' =>
      if 0 <? currentChunkSize then
        match PDFUtils.readPDFTextChunked E fuel' filepath currentChunkSize d with
        | Ret (chunks, totalPages) =>
            let responseText :=
              JSON_stringify E (chunked_response filepath currentChunkSize totalPages chunks) in
            let estimatedTokens := (inject_Z (Z.of_nat (String.length responseText)) / 4)%Q in
            if Qle_bool estimatedTokens maxTokens then Ret (Some responseText)
            else fit_chunks fuel' filepath (shrink currentChunkSize) d
        | Throw _ => fit_chunks fuel' filepath (shrink currentChunkSize) d
        | OutOfFuel => OutOfFuel
        end
      else Ret None
  end.

(** The chunked branch of [read_pdf_text]. *)
Definition read_chunked (fuel : nat) (filepath : string) (chunkSize : Z) (d : Fs.Disk)
  : res string :=
  match fit_chunks fuel filepath (Z.min chunkSize 2) d with
  | Ret (Some responseText) => Ret responseText
  | Ret None =>
      match PDFUtils.readPDFText E filepath (Some 1) (Some 1) d with
      | Ret text =>
          Ret (JSON_stringify E (JObject
            [ ("action", JString "read_pdf_text");
              ("filepath", JString filepath);
              ("startPage", JNumber 1);
              ("endPage", JNumber 1);
              ("text", JString (String.substring 0 80000 text));
              ("truncated", JBool (80000 <? Z.of_nat (String.length text)));
              ("message", JString "PDF too large, showing first page only (truncated)") ]))
      | Throw e => Throw e
      | OutOfFuel => OutOfFuel
      end
  | Throw e => Throw e
  | OutOfFuel => OutOfFuel
  end.

(** The other branch of [read_pdf_text]. *)
Definition read_range (filepath : string) (startPage endPage : option Z) (d : Fs.Disk)
  : res string :=
  match PDFUtils.getPDFPageCount E filepath d with
  | Ret totalPages =>
      let effectiveStartPage := or_number startPage 1 in
      let effectiveEndPage :=
        match endPage with
        | Some 0 | None => totalPages
        | Some n => Z.min n totalPages
        end in
      match PDFUtils.readPDFText E filepath (Some effectiveStartPage) (Some effectiveEndPage) d with
      | Ret text =>
          Ret (JSON_stringify E (JObject
            [ ("action", JString "read_pdf_text");
              ("filepath", JString filepath);
              ("totalPages", JNumber totalPages);
              ("startPage", JNumber effectiveStartPage);
              ("endPage", JNumber effectiveEndPage);
              ("hasMorePages", JBool (effectiveEndPage <? totalPages));
              ("nextPageRange",
                if effectiveEndPage <? totalPages
                then JString ("startPage=" +:+ pretty (effectiveEndPage + 1) +:+ ", endPage="
                              +:+ pretty (Z.min (effectiveEndPage + 5) totalPages))
                else JNull);
              ("text", JString text) ]))
      | Throw e => Throw e
      | OutOfFuel => OutOfFuel
      end
  | Throw e => Throw e
  | OutOfFuel => OutOfFuel
  end.

Definition download_and_read (fuel : nat) (args : ToolArgs) (w : World) : res string * World :=
  let startPage := default 1 (startPage args) in
  let endPage := default 10 (endPage args) in
  match PDFUtils.downloadPDF E fuel (pdfUrl args) (filename args) false w with
  | (Ret filepath, w1) =>
      match PDFUtils.getPDFPageCount E filepath (disk w1) with
      | Ret totalPages =>
          let effectiveEndPage := Z.min endPage totalPages in
          match PDFUtils.readPDFText E filepath (Some startPage) (Some effectiveEndPage)
                  (disk w1) with
          | Ret text =>
              (Ret (JSON_stringify E (JObject
                [ ("action", JString "download_and_read_pdf");
                  ("pdfUrl", JString (pdfUrl args));
                  ("filepath", JString filepath);
                  ("totalPages", JNumber totalPages);
                  ("startPage", JNumber startPage);
                  ("endPage", JNumber effectiveEndPage);
                  ("hasMorePages", JBool (effectiveEndPage <? totalPages));
                  ("nextPageRange",
                    if effectiveEndPage <? totalPages
                    then JString ("Use read_pdf_text with startPage="
                                  +:+ pretty (effectiveEndPage + 1) +:+ " and endPage="
                                  +:+ pretty (Z.min (effectiveEndPage + 10) totalPages))
                    else JNull);
                  ("text", JString text) ])), w1)
          | Throw e => (Throw e, w1)
          | OutOfFuel => (OutOfFuel, w1)
          end
      | Throw e => (Throw e, w1)
      | OutOfFuel => (OutOfFuel, w1)
      end
  | (Throw e, w1) => (Throw e, w1)
  | (OutOfFuel, w1) => (OutOfFuel, w1)
  end.

Definition search_arxiv_with (echo : string * json) (q : string) (maxResults : Z)
    (sortBy : string) (w : World) : res string * World :=
  match arxiv_searchPapers E (tick w) q maxResults sortBy with
  | inr results =>
      (Ret (JSON_stringify E (JObject
         [ ("source", JString "ArXiv"); echo;
           ("results", JArray (map arxiv_fields results)) ])), bump w)
  | inl e => (Throw e, bump w)
  end.

Definition search_both (args : ToolArgs) (w : World) : res string * World :=
  let maxResults := default 10 (maxResults args) in
  let sortBy := default "relevance" (sortBy args) in
  let arxivSortBy := if String.eqb sortBy "date" then "submittedDate" else "relevance" in
  let arxiv := arxiv_searchPapers E (tick w) (query args) maxResults arxivSortBy in
  let '(scholarResults, w2) :=
    GoogleScholarClient.searchPapers E (query args) maxResults sortBy (bump w) in
  match arxiv with
  | inr arxivResults =>
      (Ret (JSON_stringify E (JObject
         [ ("query", JString (query args));
           ("sources", JObject
              [ ("arxiv", JObject
                   [ ("count", JNumber (Z.of_nat (length arxivResults)));
                     ("results", JArray (map arxiv_fields arxivResults)) ]);
                ("scholar", JObject
                   [ ("count", JNumber (Z.of_nat (length scholarResults)));
                     ("results", JArray (map scholar_fields scholarResults)) ]) ]) ])), w2)
  | inl e => (Throw e, w2)
  end.

(** The [switch] inside the [try] block: the text of the content on success. *)
Definition call_tool (fuel : nat) (name : string) (args : ToolArgs) (w : World)
  : res string * World :=
  if String.eqb name "search_arxiv_by_category" then
    search_arxiv_with ("category", JString (category args))
      ("cat:" +:+ category args) (default 10 (maxResults args))
      (default "submittedDate" (sortBy args)) w
  else if String.eqb name "search_arxiv" then
    search_arxiv_with ("query", JString (query args))
      (query args) (default 10 (maxResults args))
      (default "relevance" (sortBy args)) w
  else if String.eqb name "search_google_scholar" then
    let '(results, w1) :=
      GoogleScholarClient.searchPapers E (query args) (default 10 (maxResults args))
        (default "relevance" (sortBy args)) w in
    (Ret (JSON_stringify E (JObject
       [ ("source", JString "Google Scholar");
         ("query", JString (query args));
         ("results", JArray (map scholar_fields results)) ])), w1)
  else if String.eqb name "search_both_sources" then search_both args w
  else if String.eqb name "download_pdf" then
    match PDFUtils.downloadPDF E fuel (pdfUrl args) (filename args) false w with
    | (Ret filepath, w1) =>
        (Ret (JSON_stringify E (JObject
           [ ("action", JString "download_pdf");
             ("pdfUrl", JString (pdfUrl args));
             ("filepath", JString filepath);
             ("message", JString "PDF downloaded successfully") ])), w1)
    | (Throw e, w1) => (Throw e, w1)
    | (OutOfFuel, w1) => (OutOfFuel, w1)
    end
  else if String.eqb name "read_pdf_text" then
    if default false (chunked args)
    then (read_chunked fuel (filepath args) (default 10 (chunkSize args)) (disk w), w)
    else (read_range (filepath args) (startPage args) (endPage args) (disk w), w)
  else if String.eqb name "download_and_read_pdf" then download_and_read fuel args w
  else if String.eqb name "list_downloaded_pdfs" then
    let downloadedPDFs := PDFUtils.listDownloadedPDFs E (disk w) in
    (Ret (JSON_stringify E (JObject
       [ ("action", JString "list_downloaded_pdfs");
         ("downloadsDirectory", JString (PDFUtils.downloadsDir E));
         ("files", JArray (map JString downloadedPDFs));
         ("count", JNumber (Z.of_nat (length downloadedPDFs))) ])), w)
  else if String.eqb name "cleanup_downloads" then
    match PDFUtils.cleanupDownloads E w with
    | (Ret _, w1) =>
        (Ret (JSON_stringify E (JObject
           [ ("action", JString "cleanup_downloads");
             ("message", JString "All downloaded PDFs have been cleaned up") ])), w1)
    | (Throw e, w1) => (Throw e, w1)
    | (OutOfFuel, w1) => (OutOfFuel, w1)
    end
  else (Throw ("Unknown tool: " +:+ name), w).

(** The handler: the [try] block and its [catch]. *)
Definition handler (fuel : nat) (name : string) (args : ToolArgs) (w : World)
  : res CallToolResult * World :=
  match call_tool fuel name args w with
  | (Ret t, w1) => (Ret {| text := t; isError := false |}, w1)
  | (Throw e, w1) => (Ret {| text := "Error: " +:+ e; isError := true |}, w1)
  | (OutOfFuel, w1) => (OutOfFuel, w1)
  end.

End WithEnv.
End Server.

(** ** Predicates of the specification *)

(** The entries of the downloads directory. *)
Definition storage (E : Env) (w : World) : Fs.Dir :=
  Fs.entries_of (PDFUtils.downloadsDir E) (disk w).

(** Every file of the downloads directory passes the signature test. *)
Definition storage_valid (E : Env) (w : World) : Prop :=
  forall name data, storage E w !! name = Some data ->
    PDFUtils.has_pdf_signature data = true.

(** The four bytes of the ASCII signature [%PDF]. *)
Definition pdf_signature : list byte := [x25; x50; x44; x46].

(** A byte sequence begins with the ASCII signature. *)
Definition begins_with_pdf_signature (b : list byte) : Prop :=
  take 4 b = pdf_signature.

(** Every file of the downloads directory begins with the ASCII signature. *)
Definition storage_signed (E : Env) (w : World) : Prop :=
  forall name data, storage E w !! name = Some data -> begins_with_pdf_signature data.

(** The page numbers [first], [first + 1], ..., [last], counted on the
    natural numbers. *)
Definition pages_from_to (first last : Z) : list Z :=
  map Z.of_nat (seq (Z.to_nat first) (Z.to_nat (last - first + 1))).

(** The text of the pages [first .. last] of a document, as the
    specification describes a chunk: for each page in turn its heading
    [--- Page k ---], a line feed and the text of the page, the pages being
    separated by an empty line. *)
Definition pages_text (doc : PDFDocument) (first last : Z) : string :=
  String.concat (Js.nl +:+ Js.nl)
    (map (fun k =>
            "--- Page " +:+ pretty k +:+ " ---" +:+ Js.nl
            +:+ String.concat " "
                  (PDFUtils.pageText (default [] (pages doc !! Z.to_nat (k - 1))) None))
       (pages_from_to first last)).

(** The block that page [k] of a document contributes to the text. *)
Definition page_text_of (doc : PDFDocument) (k : Z) : string :=
  PDFUtils.page_block k (default [] (pages doc !! Z.to_nat (k - 1))).

(** The text of the pages [first .. last] of a document. *)
Definition range_text (doc : PDFDocument) (first last : Z) : string :=
  String.concat (Js.nl +:+ Js.nl) (map (page_text_of doc) (PDFUtils.page_range first last)).

(** Every character of a string is in a class. *)
Fixpoint string_forall (in_class : ascii -> bool) (s : string) : bool :=
  match s with
  | EmptyString => true
  | String c s' => in_class c && string_forall in_class s'
  end.

(** A name as [resolveFilename] makes them: it ends with [.pdf] and holds
    only characters of [[a-zA-Z0-9._-]]. *)
Definition resolved_name (name : string) : Prop :=
  Js.endsWith name ".pdf" = true /\ string_forall Js.is_filename_char name = true.

(** Letters, digits and the space: the characters of a plain title. *)
Definition is_title_char (c : ascii) : bool := Js.is_alnum c || Ascii.eqb c " ".


(** Between two worlds, nothing changed on disk except possibly the entry
    [name] of the downloads directory. *)
Definition only_touches (E : Env) (name : string) (w w' : World) : Prop :=
  (forall dir, dir <> PDFUtils.downloadsDir E -> disk w' !! dir = disk w !! dir)
  /\ (is_Some (disk w' !! PDFUtils.downloadsDir E)
      <-> is_Some (disk w !! PDFUtils.downloadsDir E))
  /\ (forall other, other <> name -> storage E w' !! other = storage E w !! other).

(** ** Sample data *)

Module Sample.

(** [%PDF-1.7] *)
Definition pdf_bytes : list byte := [x25; x50; x44; x46; x2d; x31; x2e; x37].

(** [<html>] *)
Definition html_bytes : list byte := [x3c; x68; x74; x6d; x6c; x3e].

Definition three_pages : PDFDocument :=
  {| pages :=
       [ [TextItem "Attention" (Some 700%float)];
         [TextItem "Is All" (Some 700%float); TextItem "You Need" (Some 680%float)];
         [MarkedContent; TextItem "References" None] ] |}.

Definition one_page : PDFDocument :=
  {| pages := [ [TextItem "Hello" (Some 700%float)] ] |}.

Definition env : Env :=
  {| os_tmpdir := "/tmp";
     axios_get := fun _ url =>
       if String.eqb url "https://example.org/paper.pdf" then inr pdf_bytes
       else if String.eqb url "https://example.org/page.html" then inr html_bytes
       else if String.eqb url "http://arxiv.org/pdf/1706.03762v7" then inr pdf_bytes
       else inl "Request failed with status code 403";
     Date_now := fun _ => 1700000000000;
     arxiv_api := fun _ _ =>
       inr (Some [ [ ("text/html", "http://arxiv.org/abs/1706.03762v7");
                     ("application/pdf", "http://arxiv.org/pdf/1706.03762v7") ] ]);
     url_title_param := fun _ => None;
     getDocument := fun data =>
       match data with
       | [x25; x50; x44; x46; x2d; x31; x2e; x37] => inr three_pages
       | [x25; x50; x44; x46] => inr one_page
       | _ => inl "Invalid PDF structure."
       end;
     JSON_stringify := fun _ => "{}";
     arxiv_searchPapers := fun _ _ _ _ => inr [];
     scholar_api := fun _ _ _ => inr [] |}.

Definition downloads : string := "/tmp/science_mcp_downloads".

Definition empty_world : World :=
  {| disk := {[ downloads := ∅ ]}; tick := 0; pdf_requests := [] |}.

Definition disk_with_paper : Fs.Disk :=
  {[ downloads := {[ "paper.pdf" := pdf_bytes; "short.pdf" := [x25; x50; x44; x46];
                     "notes.txt" := html_bytes ]} ]}.

Definition world_with_paper : World :=
  {| disk := disk_with_paper; tick := 0; pdf_requests := [] |}.

Definition read_missing_chunked : Server.ToolArgs :=
  {| Server.category := ""; Server.query := ""; Server.pdfUrl := "";
     Server.filepath := "/tmp/science_mcp_downloads/missing.pdf";
     Server.filename := None; Server.maxResults := None; Server.sortBy := None;
     Server.startPage := None; Server.endPage := None;
     Server.chunked := Some true; Server.chunkSize := None |}.

Definition paper_2017 : ScholarPaper :=
  {| s_title := "Attention Is All You Need"; s_authors := ["A. Vaswani"];
     s_abstract := ""; s_year := Some 2017; s_venue := "NeurIPS"; s_citedBy := 100000;
     s_url := "https://www.semanticscholar.org/paper/1"; s_pdfUrl := None |}.

Definition paper_undated : ScholarPaper :=
  {| s_title := "Draft"; s_authors := []; s_abstract := ""; s_year := None;
     s_venue := ""; s_citedBy := 0;
     s_url := "https://www.semanticscholar.org/paper/2"; s_pdfUrl := None |}.

Definition paper_2020 : ScholarPaper :=
  {| s_title := "Language Models are Few-Shot Learners"; s_authors := ["T. Brown"];
     s_abstract := ""; s_year := Some 2020; s_venue := "NeurIPS"; s_citedBy := 30000;
     s_url := "https://www.semanticscholar.org/paper/3";
     s_pdfUrl := Some "https://arxiv.org/pdf/2005.14165" |}.

(** As [env], with a search API that knows three papers. *)
Definition env_with_papers : Env :=
  {| os_tmpdir := os_tmpdir env;
     axios_get := axios_get env;
     Date_now := Date_now env;
     arxiv_api := arxiv_api env;
     url_title_param := url_title_param env;
     getDocument := getDocument env;
     JSON_stringify := JSON_stringify env;
     arxiv_searchPapers := arxiv_searchPapers env;
     scholar_api := fun _ _ _ => inr [paper_2017; paper_undated; paper_2020] |}.

Definition paper_2017_bis : ScholarPaper :=
  {| s_title := "Proximal Policy Optimization Algorithms"; s_authors := ["J. Schulman"];
     s_abstract := ""; s_year := Some 2017; s_venue := ""; s_citedBy := 20000;
     s_url := "https://www.semanticscholar.org/paper/4"; s_pdfUrl := None |}.

Definition paper_2017_ter : ScholarPaper :=
  {| s_title := "Mask R-CNN"; s_authors := ["K. He"];
     s_abstract := ""; s_year := Some 2017; s_venue := "ICCV"; s_citedBy := 30000;
     s_url := "https://www.semanticscholar.org/paper/5"; s_pdfUrl := None |}.

(** As [env], with a search API that knows three papers of one year. *)
Definition env_same_year : Env :=
  {| os_tmpdir := os_tmpdir env;
     axios_get := axios_get env;
     Date_now := Date_now env;
     arxiv_api := arxiv_api env;
     url_title_param := url_title_param env;
     getDocument := getDocument env;
     JSON_stringify := JSON_stringify env;
     arxiv_searchPapers := arxiv_searchPapers env;
     scholar_api := fun _ _ _ =>
       inr [paper_2017; paper_2020; paper_2017_bis; paper_2017_ter] |}.

(** A world without the downloads directory. *)
Definition bare_world : World := {| disk := ∅; tick := 0; pdf_requests := [] |}.

(** [%PDF-1.7] with the highest bit of each of the first four bytes set:
    none of the four is an ASCII character. *)
Definition high_bit_bytes : list byte := [xa5; xd0; xc4; xc6; x2d; x31; x2e; x37].

(** As [env], with a server that answers every request with
    [high_bit_bytes]. *)
Definition env_high_bit : Env :=
  {| os_tmpdir := os_tmpdir env;
     axios_get := fun _ _ => inr high_bit_bytes;
     Date_now := Date_now env;
     arxiv_api := arxiv_api env;
     url_title_param := url_title_param env;
     getDocument := getDocument env;
     JSON_stringify := JSON_stringify env;
     arxiv_searchPapers := arxiv_searchPapers env;
     scholar_api := scholar_api env |}.

(** A world whose downloads directory holds one file, of those bytes. *)
Definition world_with_scan : World :=
  {| disk := {[ downloads := {[ "scan.pdf" := high_bit_bytes ]} ]};
     tick := 0; pdf_requests := [] |}.

(** As [disk_with_paper], with a subdirectory [archive] in the downloads
    directory. *)
Definition disk_with_archive : Fs.Disk :=
  <[ "/tmp/science_mcp_downloads/archive" := ∅ ]> disk_with_paper.

Definition world_with_archive : World :=
  {| disk := disk_with_archive; tick := 0; pdf_requests := [] |}.

End Sample.


(** ** Facts about paths and the file system *)

Module FsFacts.

Lemma cut_no_slash name :
  Fs.no_slash name = true -> Fs.cut name = (None, name).
Proof.
  induction name as [|c name IH]; simpl; [done|].
  intros [Hc Hname]%andb_true_iff. rewrite (IH Hname).
  by destruct (Ascii.eqb c "/").
Qed.

Lemma cut_join dir name :
  Fs.no_slash name = true -> Fs.cut (Fs.join dir name) = (Some dir, name).
Proof.
  intros Hname. unfold Fs.join.
  induction dir as [|c dir IH].
  - change (Fs.cut (String "/" name) = (Some "", name)). simpl.
    by rewrite (cut_no_slash _ Hname).
  - change (Fs.cut (String c (dir +:+ "/" +:+ name)) = (Some (String c dir), name)).
    simpl. by rewrite IH.
Qed.

Lemma dirname_join dir name :
  Fs.no_slash name = true -> Fs.dirname (Fs.join dir name) = dir.
Proof. intros H. unfold Fs.dirname. by rewrite (cut_join _ _ H). Qed.

Lemma basename_join dir name :
  Fs.no_slash name = true -> Fs.basename (Fs.join dir name) = name.
Proof. intros H. unfold Fs.basename. by rewrite (cut_join _ _ H). Qed.

Lemma entries_of_insert dir entries (d : Fs.Disk) :
  Fs.entries_of dir (<[dir := entries]> d) = entries.
Proof. unfold Fs.entries_of. by rewrite lookup_insert_eq. Qed.

Lemma entries_of_insert_ne dir dir' entries (d : Fs.Disk) :
  dir <> dir' -> Fs.entries_of dir' (<[dir := entries]> d) = Fs.entries_of dir' d.
Proof. intros H. unfold Fs.entries_of. by rewrite lookup_insert_ne. Qed.

Lemma is_directory_None p (d : Fs.Disk) :
  Fs.is_directory p d = false <-> d !! p = None.
Proof. unfold Fs.is_directory. destruct (d !! p); split; congruence. Qed.

Lemma append_same_inv (s t : string) : s +:+ t = s -> t = "".
Proof.
  induction s as [|c s IH]; [done|].
  change (String c (s +:+ t) = String c s -> t = ""). intros [= H]. auto.
Qed.

(** The path of an entry is not the path of its directory. *)
Lemma join_ne dir name : Fs.join dir name <> dir.
Proof. unfold Fs.join. intros H. by apply append_same_inv in H. Qed.

Lemma is_directory_insert dir name entries (d : Fs.Disk) :
  Fs.is_directory (Fs.join dir name) (<[dir := entries]> d)
  = Fs.is_directory (Fs.join dir name) d.
Proof.
  unfold Fs.is_directory. rewrite lookup_insert_ne; [done|].
  intros H. by apply (join_ne dir name).
Qed.

(** Reading a file of a directory through its joined path. *)
Lemma readFileSync_join dir name (d : Fs.Disk) data :
  Fs.no_slash name = true ->
  Fs.is_directory (Fs.join dir name) d = false ->
  Fs.readFileSync (Fs.join dir name) d = inr data <->
  Fs.entries_of dir d !! name = Some data.
Proof.
  intros H Hfile. unfold Fs.readFileSync, Fs.entries_of.
  rewrite Hfile, (dirname_join _ _ H), (basename_join _ _ H).
  destruct (d !! dir) as [entries|] eqn:Hdir; simpl.
  - destruct (entries !! name); split; congruence.
  - rewrite lookup_empty. split; congruence.
Qed.

Lemma readFileSync_directory p (d : Fs.Disk) :
  Fs.is_directory p d = true ->
  Fs.readFileSync p d = inl "EISDIR: illegal operation on a directory, read".
Proof. intros H. unfold Fs.readFileSync. by rewrite H. Qed.

(** What can be read is a file, not a directory. *)
Lemma readFileSync_file p (d : Fs.Disk) data :
  Fs.readFileSync p d = inr data -> Fs.is_directory p d = false.
Proof. unfold Fs.readFileSync. by destruct (Fs.is_directory p d). Qed.

Lemma existsSync_read p (d : Fs.Disk) data :
  Fs.readFileSync p d = inr data -> Fs.existsSync p d = true.
Proof. intros H. unfold Fs.existsSync. rewrite H. apply orb_true_r. Qed.

Lemma writeFileSync_join dir name data (d : Fs.Disk) :
  Fs.no_slash name = true ->
  Fs.is_directory (Fs.join dir name) d = false ->
  Fs.writeFileSync (Fs.join dir name) data d =
    match d !! dir with
    | Some entries => inr (<[dir := <[name := data]> entries]> d)
    | None => inl ("ENOENT: no such file or directory, open '" +:+ Fs.join dir name +:+ "'")
    end.
Proof.
  intros H Hfile. unfold Fs.writeFileSync.
  by rewrite Hfile, (dirname_join _ _ H), (basename_join _ _ H).
Qed.

Lemma writeFileSync_directory p data (d : Fs.Disk) :
  Fs.is_directory p d = true ->
  Fs.writeFileSync p data d
  = inl ("EISDIR: illegal operation on a directory, open '" +:+ p +:+ "'").
Proof. intros H. unfold Fs.writeFileSync. by rewrite H. Qed.

Lemma unlinkSync_join dir name entries (d : Fs.Disk) :
  Fs.no_slash name = true ->
  Fs.is_directory (Fs.join dir name) d = false ->
  d !! dir = Some entries -> is_Some (entries !! name) ->
  Fs.unlinkSync (Fs.join dir name) d = inr (<[dir := delete name entries]> d).
Proof.
  intros H Hfile Hdir [data Hname]. unfold Fs.unlinkSync.
  by rewrite Hfile, (dirname_join _ _ H), (basename_join _ _ H), Hdir, Hname.
Qed.

Lemma unlinkSync_directory p (d : Fs.Disk) :
  Fs.is_directory p d = true ->
  Fs.unlinkSync p d
  = inl ("EISDIR: illegal operation on a directory, unlink '" +:+ p +:+ "'").
Proof. intros H. unfold Fs.unlinkSync. by rewrite H. Qed.

(** The files among the names of a listing. *)
Lemma files_in_entries dir (d : Fs.Disk) name :
  is_Some (Fs.entries_of dir d !! name) -> name ∈ Fs.files_in dir d.
Proof.
  unfold Fs.files_in, Fs.readdirSync, Fs.entries_of.
  destruct (d !! dir) as [entries|]; simpl.
  - intros [data Hdata]. apply elem_of_app. right.
    apply list_elem_of_fmap. exists (name, data). split; [done|].
    by apply elem_of_map_to_list.
  - rewrite lookup_empty. by intros [? ?].
Qed.

End FsFacts.

(** ** Facts about the string primitives *)

Module JsFacts.

Lemma strip_prefix_app pat rest : Js.strip_prefix pat (pat +:+ rest) = Some rest.
Proof.
  induction pat as [|a pat IH]; [done|].
  change (Js.strip_prefix (String a pat) (String a (pat +:+ rest)) = Some rest).
  simpl. by rewrite Ascii.eqb_refl.
Qed.

Lemma strip_prefix_Some pat s rest :
  Js.strip_prefix pat s = Some rest -> s = pat +:+ rest.
Proof.
  revert s. induction pat as [|a pat IH]; intros s; simpl.
  - by intros [= ->].
  - destruct s as [|b s]; [done|].
    destruct (Ascii.eqb_spec a b) as [->|]; [|done].
    intros H. rewrite (IH _ H). reflexivity.
Qed.

Lemma endsWith_refl s : Js.endsWith s s = true.
Proof. destruct s; [done|]. cbn [Js.endsWith]. by rewrite String.eqb_refl. Qed.

Lemma endsWith_cons c s suf :
  Js.endsWith s suf = true -> Js.endsWith (String c s) suf = true.
Proof.
  intros H. cbn [Js.endsWith]. by destruct (String.eqb (String c s) suf).
Qed.

Lemma endsWith_app s t suf :
  Js.endsWith t suf = true -> Js.endsWith (s +:+ t) suf = true.
Proof.
  intros H. induction s as [|c s IH]; [done|].
  change (Js.endsWith (String c (s +:+ t)) suf = true).
  by apply endsWith_cons.
Qed.

(** The sanitized name is made of the characters of the class only. *)
Lemma sanitized_no_slash s :
  Fs.no_slash (Js.replace_chars (fun c => negb (Js.is_filename_char c)) "_" s) = true.
Proof.
  induction s as [|a s IH]; simpl; [done|].
  rewrite IH, andb_true_r.
  destruct (Js.is_filename_char a) eqn:Ha; simpl; [|done].
  destruct (Ascii.eqb_spec a "/") as [->|]; [|done].
  by vm_compute in Ha.
Qed.

End JsFacts.

(** ** Facts about subdirectories and listings *)

Module DirFacts.

Lemma join_prefix dir name : (dir +:+ "/") +:+ name = Fs.join dir name.
Proof.
  unfold Fs.join. induction dir as [|c dir IH]; [done|].
  change (String c ((dir +:+ "/") +:+ name) = String c (dir +:+ "/" +:+ name)).
  by rewrite IH.
Qed.

(** The subdirectories that a listing shows are the directories one
    component below. *)
Lemma elem_of_subdirectories dir (d : Fs.Disk) name :
  name ∈ Fs.subdirectories dir d <->
  Fs.no_slash name = true /\ Fs.is_directory (Fs.join dir name) d = true.
Proof.
  unfold Fs.subdirectories, Fs.subdirectory_name, Fs.is_directory.
  rewrite list_elem_of_omap. split.
  - intros ([key entries] & Hin & Hname). apply elem_of_map_to_list in Hin.
    simpl in Hname.
    destruct (Js.strip_prefix _ key) as [n|] eqn:Hstrip; [|done].
    destruct (Fs.no_slash n) eqn:Hn; [|done]. injection Hname as ->.
    apply JsFacts.strip_prefix_Some in Hstrip. rewrite join_prefix in Hstrip.
    subst key. by rewrite Hin.
  - intros [Hn Hdir].
    destruct (d !! Fs.join dir name) as [entries|] eqn:Hkey; [|done].
    exists (Fs.join dir name, entries). split; [by apply elem_of_map_to_list|].
    simpl. by rewrite <-join_prefix, JsFacts.strip_prefix_app, Hn.
Qed.

Lemma subdirectories_nil dir (d : Fs.Disk) :
  Fs.subdirectories dir d = [] <->
  forall name, Fs.no_slash name = true -> Fs.is_directory (Fs.join dir name) d = false.
Proof.
  split.
  - intros Hnil name Hname.
    destruct (Fs.is_directory (Fs.join dir name) d) eqn:Hdir; [|done].
    assert (Hin : name ∈ Fs.subdirectories dir d) by by apply elem_of_subdirectories.
    rewrite Hnil in Hin. by apply elem_of_nil in Hin.
  - intros Hnone. destruct (Fs.subdirectories dir d) as [|name rest] eqn:Hsub; [done|].
    assert (Hin : name ∈ Fs.subdirectories dir d) by (rewrite Hsub; by left).
    apply elem_of_subdirectories in Hin as [Hname Hdir].
    by rewrite (Hnone name Hname) in Hdir.
Qed.

(** Changing the files of a directory changes none of its subdirectories. *)
Lemma subdirectories_insert_nil dir entries (d : Fs.Disk) :
  Fs.subdirectories dir d = [] -> Fs.subdirectories dir (<[dir := entries]> d) = [].
Proof.
  rewrite !subdirectories_nil. intros Hnone name Hname.
  rewrite FsFacts.is_directory_insert. by apply Hnone.
Qed.

Lemma readdirSync_files dir entries (d : Fs.Disk) :
  d !! dir = Some entries -> Fs.subdirectories dir d = [] ->
  Fs.readdirSync dir d = inr (map fst (map_to_list entries)).
Proof. intros Hdir Hnone. unfold Fs.readdirSync. by rewrite Hdir, Hnone. Qed.

(** The names of a listing are single path components when those of the
    files are. *)
Lemma listing_no_slash dir (d : Fs.Disk) name :
  Fs.names_wf (Fs.entries_of dir d) ->
  name ∈ Fs.files_in dir d -> Fs.no_slash name = true.
Proof.
  intros Hwf. unfold Fs.files_in, Fs.readdirSync, Fs.entries_of in *.
  destruct (d !! dir) as [entries|]; simpl in *; [|by intros ?%elem_of_nil].
  intros [Hsub|Hfile]%elem_of_app.
  - by apply elem_of_subdirectories in Hsub as [? _].
  - apply list_elem_of_fmap in Hfile as ([n data] & -> & Hin).
    apply elem_of_map_to_list in Hin. by eapply Hwf.
Qed.

End DirFacts.

(** ** Filename resolution *)

(** C2.  For the URL [https://arxiv.org/pdf/2301.00001] and no hint, the
    resolution step answers [2301.00001.pdf], in every environment: the test
    for [arxiv.org] is made on the last path segment, here [2301.00001],
    and not on the URL, so the arXiv case is not entered and the name gets no
    [arxiv_] prefix. *)
Theorem arxiv_url_resolves_without_prefix (E : Env) (w : World) :
  PDFUtils.resolveFilename E "https://arxiv.org/pdf/2301.00001" None w
  = ("2301.00001.pdf", w).
Proof. reflexivity. Qed.

(** The arXiv case is entered when the last segment itself holds
    [arxiv.org]. *)
Example arxiv_case_needs_it_in_last_segment (E : Env) (w : World) :
  PDFUtils.resolveFilename E "https://arxiv.org/pdf/arxiv.org" None w
  = ("arxiv_arxiv.org.pdf", w).
Proof. reflexivity. Qed.

(** Whatever the URL and the hint, the resolved name ends with [.pdf] and is
    a single path component. *)
Lemma resolveFilename_safe (E : Env) url hint w :
  Fs.no_slash (fst (PDFUtils.resolveFilename E url hint w)) = true.
Proof.
  unfold PDFUtils.resolveFilename.
  destruct (match Js.truthy hint with Some f => _ | None => _ end) as [named w1].
  apply JsFacts.sanitized_no_slash.
Qed.

(** ** The PDF validator *)

(** A file that cannot be read is not valid. *)
Lemma isValidPDF_unreadable filepath w e :
  Fs.readFileSync filepath (disk w) = inl e ->
  PDFUtils.isValidPDF filepath w = (false, w).
Proof. intros H. unfold PDFUtils.isValidPDF. by rewrite H. Qed.

(** The decoding clears the highest bit: these four bytes are not ASCII,
    and pass. *)
Example signature_ignores_high_bit :
  PDFUtils.has_pdf_signature [xa5; xd0; xc4; xc6] = true.
Proof. reflexivity. Qed.

Example html_has_no_signature :
  PDFUtils.has_pdf_signature Sample.html_bytes = false.
Proof. reflexivity. Qed.

Lemma decoded_char (x : byte) (c : ascii) :
  ascii_of_N (N.land (Byte.to_N x) 127) = c <-> N.land (Byte.to_N x) 127 = N_of_ascii c.
Proof.
  split.
  - intros <-. by destruct x.
  - intros ->. apply ascii_N_embedding.
Qed.

(** The signature test, byte by byte: the codes of [%PDF] are 37, 80, 68
    and 70, and the highest bit of a byte is not looked at. *)
Lemma has_pdf_signature_bytes (buffer : list byte) :
  PDFUtils.has_pdf_signature buffer = true <->
  exists b0 b1 b2 b3 rest,
    buffer = b0 :: b1 :: b2 :: b3 :: rest
    /\ map (fun x => N.land (Byte.to_N x) 127) [b0; b1; b2; b3] = [37; 80; 68; 70]%N.
Proof.
  destruct buffer as [|b0 [|b1 [|b2 [|b3 rest]]]];
    try (split; [intros H; vm_compute in H; discriminate H
                |intros (? & ? & ? & ? & ? & [=] & _)]).
  unfold PDFUtils.has_pdf_signature, Js.toString_ascii.
  replace (4 <=? Z.of_nat (length (b0 :: b1 :: b2 :: b3 :: rest))) with true
    by (symmetry; apply Z.leb_le; simpl; lia).
  cbn [andb drop take map Nat.sub string_of_list_ascii]. rewrite String.eqb_eq. split.
  - intros [= H0 H1 H2 H3]. exists b0, b1, b2, b3, rest. split; [done|].
    apply decoded_char in H0, H1, H2, H3. cbn [map]. by rewrite H0, H1, H2, H3.
  - intros (? & ? & ? & ? & ? & [= <- <- <- <- <-] & [= H0 H1 H2 H3]).
    apply (decoded_char _ "%") in H0. apply (decoded_char _ "P") in H1.
    apply (decoded_char _ "D") in H2. apply (decoded_char _ "F") in H3.
    by rewrite H0, H1, H2, H3.
Qed.

(** The bytes that begin with the ASCII signature pass the test. *)
Lemma signed_bytes_are_valid (buffer : list byte) :
  begins_with_pdf_signature buffer -> PDFUtils.has_pdf_signature buffer = true.
Proof.
  unfold begins_with_pdf_signature, pdf_signature. intros Htake.
  destruct buffer as [|b0 [|b1 [|b2 [|b3 rest]]]]; try discriminate Htake.
  injection Htake as -> -> -> ->.
  apply has_pdf_signature_bytes. by exists x25, x50, x44, x46, rest.
Qed.

(** C5.  The validator reads the first four bytes through
    [toString('ascii')], which clears the highest bit of every byte before
    it compares.  So a readable file that begins with the bytes A5 D0 C4 C6,
    of which none is an ASCII character and which are not [%PDF], is
    accepted: the "only if" of the claim fails.  The world, hence the file,
    is left as it was. *)
Theorem isValidPDF_accepts_high_bit_bytes (filepath : string) (w : World) (rest : list byte) :
  Fs.readFileSync filepath (disk w) = inr (xa5 :: xd0 :: xc4 :: xc6 :: rest) ->
  PDFUtils.isValidPDF filepath w = (true, w)
  /\ ~ begins_with_pdf_signature (xa5 :: xd0 :: xc4 :: xc6 :: rest).
Proof.
  intros Hread. split.
  - unfold PDFUtils.isValidPDF. rewrite Hread. f_equal.
    apply has_pdf_signature_bytes. by exists xa5, xd0, xc4, xc6, rest.
  - unfold begins_with_pdf_signature, pdf_signature. simpl. discriminate.
Qed.

Lemma isValidPDF_accepts_high_bit_bytes_witness :
  Fs.readFileSync "/tmp/science_mcp_downloads/scan.pdf" (disk Sample.world_with_scan)
    = inr Sample.high_bit_bytes
  /\ PDFUtils.isValidPDF "/tmp/science_mcp_downloads/scan.pdf" Sample.world_with_scan
     = (true, Sample.world_with_scan)
  /\ ~ begins_with_pdf_signature Sample.high_bit_bytes.
Proof.
  assert (Hread : Fs.readFileSync "/tmp/science_mcp_downloads/scan.pdf"
                    (disk Sample.world_with_scan) = inr Sample.high_bit_bytes)
    by (vm_compute; reflexivity).
  split; [exact Hread|].
  exact (isValidPDF_accepts_high_bit_bytes "/tmp/science_mcp_downloads/scan.pdf"
           Sample.world_with_scan [x2d; x31; x2e; x37] Hread).
Defined.

(** ** Storage bookkeeping *)

Lemma set_disk_same (w : World) : set_disk (disk w) w = w.
Proof. by destruct w. Qed.

(** C10.  [listDownloadedPDFs] lists exactly the entries of the downloads
    directory whose name ends with [.pdf], each joined to the directory:
    every path it returns ends with [.pdf], lies in the directory, and is
    absolute when [os.tmpdir()] is; the other entries are left out; and when
    the directory cannot be read the answer is the empty list. *)
Theorem listDownloadedPDFs_filtered (E : Env) (d : Fs.Disk) :
  (forall p, p ∈ PDFUtils.listDownloadedPDFs E d <->
     exists file, file ∈ Fs.files_in (PDFUtils.downloadsDir E) d
                  /\ Js.endsWith file ".pdf" = true
                  /\ p = Fs.join (PDFUtils.downloadsDir E) file)
  /\ (forall p, p ∈ PDFUtils.listDownloadedPDFs E d ->
        Js.endsWith p ".pdf" = true
        /\ is_Some (Js.strip_prefix (PDFUtils.downloadsDir E +:+ "/") p)
        /\ (is_Some (Js.strip_prefix "/" (os_tmpdir E)) -> is_Some (Js.strip_prefix "/" p)))
  /\ (forall e, Fs.readdirSync (PDFUtils.downloadsDir E) d = inl e ->
        PDFUtils.listDownloadedPDFs E d = []).
Proof.
  assert (Hiff : forall p, p ∈ PDFUtils.listDownloadedPDFs E d <->
     exists file, file ∈ Fs.files_in (PDFUtils.downloadsDir E) d
                  /\ Js.endsWith file ".pdf" = true
                  /\ p = Fs.join (PDFUtils.downloadsDir E) file).
  { intros p. unfold PDFUtils.listDownloadedPDFs, Fs.files_in.
    destruct (Fs.readdirSync _ d) as [e|files].
    - split; [by intros ?%elem_of_nil|]. by intros (file & ?%elem_of_nil & _).
    - rewrite list_elem_of_fmap. split.
      + intros (file & -> & Hin). apply list_elem_of_In, filter_In in Hin.
        destruct Hin as [Hin Hpdf]. exists file. by rewrite list_elem_of_In.
      + intros (file & Hin & Hpdf & ->). exists file. split; [done|].
        apply list_elem_of_In, filter_In. by rewrite <-list_elem_of_In. }
  split; [exact Hiff|]. split.
  - intros p (file & _ & Hpdf & ->)%Hiff. split; [|split].
    + by apply JsFacts.endsWith_app, JsFacts.endsWith_app.
    + exists file. unfold Fs.join.
      replace (PDFUtils.downloadsDir E +:+ "/" +:+ file)
        with ((PDFUtils.downloadsDir E +:+ "/") +:+ file).
      * apply JsFacts.strip_prefix_app.
      * generalize (PDFUtils.downloadsDir E). intros s.
        induction s as [|c s IH]; [done|].
        change (String c ((s +:+ "/") +:+ file) = String c (s +:+ "/" +:+ file)).
        by rewrite IH.
    + intros [t Ht]. apply JsFacts.strip_prefix_Some in Ht.
      unfold Fs.join, PDFUtils.downloadsDir, Fs.join. rewrite Ht. by eexists.
  - intros e He. unfold PDFUtils.listDownloadedPDFs. by rewrite He.
Qed.

Lemma listDownloadedPDFs_filtered_witness :
  is_Some (Js.strip_prefix "/" (os_tmpdir Sample.env))
  /\ PDFUtils.listDownloadedPDFs Sample.env Sample.disk_with_paper
     = ["/tmp/science_mcp_downloads/short.pdf"; "/tmp/science_mcp_downloads/paper.pdf"]
  /\ Js.endsWith "/tmp/science_mcp_downloads/paper.pdf" ".pdf" = true
  /\ is_Some (Js.strip_prefix "/" "/tmp/science_mcp_downloads/paper.pdf").
Proof.
  split; [by eexists|]. split; [by vm_compute|].
  destruct (listDownloadedPDFs_filtered Sample.env Sample.disk_with_paper)
    as (_ & Hpaths & _).
  destruct (Hpaths "/tmp/science_mcp_downloads/paper.pdf") as (Hpdf & _ & Habs).
  - vm_compute. apply list_elem_of_In. right. by left.
  - split; [exact Hpdf|]. apply Habs. by eexists.
Defined.

(** Unlinking every name of a list of distinct files of the directory
    succeeds and removes exactly those files. *)
Lemma unlink_each_removes (E : Env) (files : list string) :
  forall (entries : Fs.Dir) (d : Fs.Disk),
    d !! PDFUtils.downloadsDir E = Some entries ->
    NoDup files ->
    (forall file, file ∈ files ->
       is_Some (entries !! file) /\ Fs.no_slash file = true
       /\ Fs.is_directory (Fs.join (PDFUtils.downloadsDir E) file) d = false) ->
    exists entries' : Fs.Dir,
      PDFUtils.unlink_each E files d = (None, <[PDFUtils.downloadsDir E := entries']> d)
      /\ forall name, entries' !! name = if decide (name ∈ files) then None else entries !! name.
Proof.
  induction files as [|file rest IH]; intros entries d Hdir Hnd Hall.
  - exists entries. split.
    + simpl. by rewrite insert_id.
    + intros name. case_decide as Hin; [by apply elem_of_nil in Hin | done].
  - apply NoDup_cons in Hnd as [Hfresh Hnd].
    destruct (Hall file) as (Hsome & Hslash & Hfile); [by left|].
    simpl. rewrite (FsFacts.unlinkSync_join _ _ entries d Hslash Hfile Hdir Hsome).
    destruct (IH (delete file entries) (<[PDFUtils.downloadsDir E := delete file entries]> d))
      as (entries' & Hrun & Hlook).
    + by rewrite lookup_insert_eq.
    + done.
    + intros f Hf. destruct (Hall f) as (Hs & Hn & Hd); [by right|].
      split; [|split; [done|]].
      * rewrite lookup_delete_ne; [done|]. intros ->. by apply Hfresh.
      * by rewrite FsFacts.is_directory_insert.
    + exists entries'. split.
      * by rewrite Hrun, insert_insert_eq.
      * intros name. rewrite Hlook.
        destruct (decide (name ∈ rest)) as [Hin|Hout].
        -- rewrite decide_True; [done|]. by right.
        -- destruct (decide (name = file)) as [->|Hne].
           ++ rewrite lookup_delete_eq, decide_True; [done|]. by left.
           ++ rewrite lookup_delete_ne, decide_False; [done| |done].
              by intros [?|?]%elem_of_cons.
Qed.

(** What one [unlinkSync] in the downloads directory can change: it fails
    and changes nothing, or it removes one file of that directory. *)
Lemma unlinkSync_effect dir file (d : Fs.Disk) :
  Fs.no_slash file = true ->
  match Fs.unlinkSync (Fs.join dir file) d with
  | inl _ => True
  | inr d' =>
      exists entries, d !! dir = Some entries /\ d' = <[dir := delete file entries]> d
  end.
Proof.
  intros Hfile. unfold Fs.unlinkSync.
  destruct (Fs.is_directory _ d); [done|].
  rewrite (FsFacts.dirname_join _ _ Hfile), (FsFacts.basename_join _ _ Hfile).
  destruct (d !! dir) as [entries|] eqn:Hdir; [|done].
  destruct (entries !! file); [|done]. by exists entries.
Qed.

(** Whether it stops or not, the loop of [cleanupDownloads] only removes
    files of the downloads directory. *)
Lemma unlink_each_frame (E : Env) (files : list string) :
  forall (d : Fs.Disk),
    (forall file, file ∈ files -> Fs.no_slash file = true) ->
    (forall dir, dir <> PDFUtils.downloadsDir E ->
       snd (PDFUtils.unlink_each E files d) !! dir = d !! dir)
    /\ Fs.entries_of (PDFUtils.downloadsDir E) (snd (PDFUtils.unlink_each E files d))
        ⊆ Fs.entries_of (PDFUtils.downloadsDir E) d
    /\ (is_Some (snd (PDFUtils.unlink_each E files d) !! PDFUtils.downloadsDir E)
        <-> is_Some (d !! PDFUtils.downloadsDir E)).
Proof.
  induction files as [|file rest IH]; intros d Hnames; [done|].
  simpl.
  pose proof (unlinkSync_effect (PDFUtils.downloadsDir E) file d) as Heffect.
  destruct (Fs.unlinkSync _ d) as [e|d'] eqn:Hunlink; [done|].
  destruct Heffect as (entries & Hdir & ->); [apply Hnames; by left|].
  destruct (IH (<[PDFUtils.downloadsDir E := delete file entries]> d))
    as (Hother & Hsub & Hsome); [intros f Hf; apply Hnames; by right|].
  split; [|split].
  - intros dir Hne. rewrite (Hother dir Hne). by rewrite lookup_insert_ne.
  - etrans; [exact Hsub|]. unfold Fs.entries_of at 1 2.
    rewrite lookup_insert_eq, Hdir. simpl. apply delete_subseteq.
  - rewrite Hsome, lookup_insert_eq, Hdir. split; by eexists.
Qed.

(** [cleanupDownloads] returns normally in every world. *)
Lemma cleanupDownloads_never_raises (E : Env) (w : World) :
  fst (PDFUtils.cleanupDownloads E w) = Ret tt.
Proof.
  unfold PDFUtils.cleanupDownloads.
  destruct (Fs.readdirSync _ _) as [e|files]; [done|].
  by destruct (PDFUtils.unlink_each E files (disk w)).
Qed.

(** In a directory of files only, the loop unlinks every file. *)
Lemma cleanupDownloads_of_files (E : Env) (w : World) (entries : Fs.Dir) :
  disk w !! PDFUtils.downloadsDir E = Some entries ->
  Fs.names_wf entries ->
  Fs.subdirectories (PDFUtils.downloadsDir E) (disk w) = [] ->
  PDFUtils.cleanupDownloads E w
  = (Ret tt, set_disk (<[PDFUtils.downloadsDir E := ∅]> (disk w)) w).
Proof.
  intros Hdir Hwf Hnone. unfold PDFUtils.cleanupDownloads.
  rewrite (DirFacts.readdirSync_files _ _ _ Hdir Hnone).
  destruct (unlink_each_removes E (map fst (map_to_list entries)) entries (disk w))
    as (entries' & Hrun & Hlook).
  - done.
  - apply NoDup_fst_map_to_list.
  - intros file [[n data] [-> Hin]]%list_elem_of_fmap.
    apply elem_of_map_to_list in Hin. split; [by eexists|].
    assert (Hn : Fs.no_slash n = true) by by eapply Hwf.
    split; [exact Hn|]. by apply DirFacts.subdirectories_nil.
  - assert (entries' = ∅) as ->.
    { apply map_eq. intros name. rewrite Hlook, lookup_empty.
      case_decide as Hin; [done|].
      destruct (entries !! name) as [data|] eqn:Hname; [|done].
      exfalso. apply Hin. apply list_elem_of_fmap. exists (name, data).
      split; [done|]. by apply elem_of_map_to_list. }
    by rewrite Hrun.
Qed.

(** C9, as stated, fails when the downloads directory holds a subdirectory:
    [unlinkSync] refuses it, the loop stops there, the [catch] block
    swallows the error, and the files that were not yet unlinked remain.
    Here the directory holds [archive] and three files; the call returns
    normally and the world is as it was, [paper.pdf] included. *)
Lemma cleanup_stops_at_a_subdirectory :
  PDFUtils.cleanupDownloads Sample.env Sample.world_with_archive
  = (Ret tt, Sample.world_with_archive)
  /\ Fs.files_in Sample.downloads (disk Sample.world_with_archive)
     = ["archive"; "short.pdf"; "notes.txt"; "paper.pdf"]
  /\ Fs.readFileSync "/tmp/science_mcp_downloads/paper.pdf"
       (disk Sample.world_with_archive) = inr Sample.pdf_bytes
  /\ PDFUtils.listDownloadedPDFs Sample.env (disk Sample.world_with_archive)
     = ["/tmp/science_mcp_downloads/short.pdf"; "/tmp/science_mcp_downloads/paper.pdf"].
Proof. repeat split; vm_compute; reflexivity. Qed.

(** C9, as the code has it.  [cleanupDownloads] never raises, whatever the
    state of the downloads directory (empty, missing, or holding an entry
    that cannot be unlinked).  When the directory holds files only (it has
    no subdirectory, and the names of its files are single path
    components, as the names in a directory are), then after one call the
    directory lists no entry, and a second call raises nothing and changes
    nothing. *)
Theorem cleanupDownloads_idempotent (E : Env) (w : World) :
  fst (PDFUtils.cleanupDownloads E w) = Ret tt
  /\ (Fs.names_wf (Fs.entries_of (PDFUtils.downloadsDir E) (disk w)) ->
      Fs.subdirectories (PDFUtils.downloadsDir E) (disk w) = [] ->
      exists w1,
        PDFUtils.cleanupDownloads E w = (Ret tt, w1)
        /\ Fs.files_in (PDFUtils.downloadsDir E) (disk w1) = []
        /\ PDFUtils.cleanupDownloads E w1 = (Ret tt, w1)).
Proof.
  split; [apply cleanupDownloads_never_raises|].
  intros Hwf Hnone. unfold Fs.entries_of in Hwf.
  destruct (disk w !! PDFUtils.downloadsDir E) as [entries|] eqn:Hdir.
  - exists (set_disk (<[PDFUtils.downloadsDir E := ∅]> (disk w)) w).
    split; [by apply (cleanupDownloads_of_files E w entries)|].
    pose proof (DirFacts.subdirectories_insert_nil _ (∅ : Fs.Dir) _ Hnone) as Hnone'.
    split.
    + unfold Fs.files_in, Fs.readdirSync. simpl.
      by rewrite lookup_insert_eq, Hnone', map_to_list_empty.
    + rewrite (cleanupDownloads_of_files E _ ∅); simpl.
      * by rewrite insert_insert_eq.
      * by rewrite lookup_insert_eq.
      * by intros name data; rewrite lookup_empty.
      * exact Hnone'.
  - exists w. unfold PDFUtils.cleanupDownloads, Fs.files_in, Fs.readdirSync.
    by rewrite Hdir.
Qed.

Lemma cleanupDownloads_idempotent_witness :
  Fs.names_wf (Fs.entries_of (PDFUtils.downloadsDir Sample.env) (disk Sample.world_with_paper))
  /\ Fs.subdirectories (PDFUtils.downloadsDir Sample.env) (disk Sample.world_with_paper) = []
  /\ Fs.files_in (PDFUtils.downloadsDir Sample.env) (disk Sample.world_with_paper)
     = ["short.pdf"; "notes.txt"; "paper.pdf"]
  /\ exists w1,
       PDFUtils.cleanupDownloads Sample.env Sample.world_with_paper = (Ret tt, w1)
       /\ Fs.files_in (PDFUtils.downloadsDir Sample.env) (disk w1) = []
       /\ PDFUtils.cleanupDownloads Sample.env w1 = (Ret tt, w1).
Proof.
  assert (Hwf : Fs.names_wf
            (Fs.entries_of (PDFUtils.downloadsDir Sample.env) (disk Sample.world_with_paper))).
  { intros name data.
    change (Fs.entries_of _ _) with
      (<["paper.pdf" := Sample.pdf_bytes]>
         (<["short.pdf" := [x25; x50; x44; x46]]>
            (<["notes.txt" := Sample.html_bytes]> (∅ : Fs.Dir)))).
    rewrite !lookup_insert, lookup_empty.
    repeat case_decide; subst; by intros. }
  assert (Hnone : Fs.subdirectories (PDFUtils.downloadsDir Sample.env)
                    (disk Sample.world_with_paper) = []) by (vm_compute; reflexivity).
  split; [exact Hwf|]. split; [exact Hnone|]. split; [vm_compute; reflexivity|].
  destruct (cleanupDownloads_idempotent Sample.env Sample.world_with_paper)
    as [_ Hidem].
  exact (Hidem Hwf Hnone).
Defined.

(** The constructor makes the downloads directory readable, keeps what it
    holds, and does nothing the second time. *)
Lemma constructor_creates (E : Env) (d : Fs.Disk) :
  is_Some (PDFUtils.constructor E d !! PDFUtils.downloadsDir E)
  /\ Fs.entries_of (PDFUtils.downloadsDir E) (PDFUtils.constructor E d)
     = Fs.entries_of (PDFUtils.downloadsDir E) d
  /\ PDFUtils.constructor E (PDFUtils.constructor E d) = PDFUtils.constructor E d.
Proof.
  unfold PDFUtils.constructor, Fs.entries_of.
  destruct (d !! PDFUtils.downloadsDir E) as [entries|] eqn:Hdir.
  - by rewrite Hdir.
  - by rewrite !lookup_insert_eq.
Qed.

(** ** The download state machine *)

Module DownloadFacts.
Section WithEnv.
Context (E : Env).

Lemma downloadPDF_S fuel url filename isRetry w :
  PDFUtils.downloadPDF E (S fuel) url filename isRetry w =
  match PDFUtils.download_try E url filename w with
  | (Ret filepath, _, w1) => (Ret filepath, w1)
  | (OutOfFuel, _, w1) => (OutOfFuel, w1)
  | (Throw e, filename1, w1) =>
      let failure : res string := Throw ("Failed to download PDF: " +:+ e) in
      if negb isRetry && PDFUtils.isPaywalledSource url then
        match Js.truthy (PDFUtils.extractTitleFromUrl E url filename1) with
        | Some paperTitle =>
            match PDFUtils.findPaperOnArxiv E paperTitle w1 with
            | (Some arxivPdfUrl, w2) =>
                match PDFUtils.downloadPDF E fuel arxivPdfUrl filename1 true w2 with
                | (Ret filepath, w3) => (Ret filepath, w3)
                | (Throw _, w3) => (failure, w3)
                | (OutOfFuel, w3) => (OutOfFuel, w3)
                end
            | (None, w2) => (failure, w2)
            end
        | None => (failure, w1)
        end
      else (failure, w1)
  end.
Proof. reflexivity. Qed.

Lemma resolveFilename_world url filename w :
  disk (snd (PDFUtils.resolveFilename E url filename w)) = disk w
  /\ pdf_requests (snd (PDFUtils.resolveFilename E url filename w)) = pdf_requests w.
Proof.
  unfold PDFUtils.resolveFilename.
  destruct (Js.truthy filename); [done|].
  destruct (Js.includes _ "arxiv.org"); [done|].
  destruct (Js.includes _ "scholar.google"); [done|].
  by destruct (Js.replace_first _ _ _).
Qed.

Lemma findPaperOnArxiv_world title w :
  disk (snd (PDFUtils.findPaperOnArxiv E title w)) = disk w
  /\ pdf_requests (snd (PDFUtils.findPaperOnArxiv E title w)) = pdf_requests w.
Proof.
  unfold PDFUtils.findPaperOnArxiv.
  destruct (arxiv_api E (tick w) _) as [e|[entries|]]; [done|done|].
  by destruct (arxiv_api E (tick (bump w)) _) as [e|[entries|]].
Qed.

(** The ways in which the [try] block is left after a fetch: the write
    fails (no downloads directory, or a directory at the path of the file),
    the bytes are stored, or they are stored and deleted. *)
Lemma download_try_cases url filename w :
  let w1 := log_request url (bump w) in
  match axios_get E (tick w) url with
  | inl e => PDFUtils.download_try E url filename w = (Throw e, filename, w1)
  | inr data =>
      let name := fst (PDFUtils.resolveFilename E url filename w1) in
      let w2 := snd (PDFUtils.resolveFilename E url filename w1) in
      let filepath := Fs.join (PDFUtils.downloadsDir E) name in
      match disk w !! PDFUtils.downloadsDir E with
      | None =>
          exists e, PDFUtils.download_try E url filename w = (Throw e, Some name, w2)
      | Some entries =>
          if Fs.is_directory filepath (disk w) then
            exists e, PDFUtils.download_try E url filename w = (Throw e, Some name, w2)
          else if PDFUtils.has_pdf_signature data then
            PDFUtils.download_try E url filename w =
              (Ret filepath, Some name,
               set_disk (<[PDFUtils.downloadsDir E := <[name := data]> entries]> (disk w)) w2)
          else
            PDFUtils.download_try E url filename w =
              (Throw "Downloaded file is not a valid PDF", Some name,
               set_disk (<[PDFUtils.downloadsDir E := delete name entries]> (disk w)) w2)
      end
  end.
Proof.
  intros w1. unfold PDFUtils.download_try. fold w1.
  destruct (axios_get E (tick w) url) as [e|data]; [done|].
  pose proof (resolveFilename_safe E url filename w1) as Hsafe.
  destruct (resolveFilename_world url filename w1) as [Hdisk _].
  destruct (PDFUtils.resolveFilename E url filename w1) as [name w2].
  simpl in *. change (disk w1) with (disk w) in Hdisk. rewrite Hdisk.
  destruct (Fs.is_directory (Fs.join (PDFUtils.downloadsDir E) name) (disk w)) eqn:Hfile.
  { rewrite (FsFacts.writeFileSync_directory _ _ _ Hfile).
    destruct (disk w !! PDFUtils.downloadsDir E); by eexists. }
  rewrite (FsFacts.writeFileSync_join _ _ _ _ Hsafe Hfile).
  destruct (disk w !! PDFUtils.downloadsDir E) as [entries|] eqn:Hdir; [|by eexists].
  unfold PDFUtils.isValidPDF. simpl.
  assert (Hfile' : forall entries',
            Fs.is_directory (Fs.join (PDFUtils.downloadsDir E) name)
              (<[PDFUtils.downloadsDir E := entries']> (disk w)) = false).
  { intros entries'. by rewrite FsFacts.is_directory_insert. }
  assert (Hread : Fs.readFileSync (Fs.join (PDFUtils.downloadsDir E) name)
            (<[PDFUtils.downloadsDir E := <[name := data]> entries]> (disk w)) = inr data).
  { apply (FsFacts.readFileSync_join _ _ _ _ Hsafe (Hfile' _)).
    by rewrite FsFacts.entries_of_insert, lookup_insert_eq. }
  rewrite Hread.
  destruct (PDFUtils.has_pdf_signature data); [done|]. simpl.
  erewrite (FsFacts.unlinkSync_join _ _ _ _ Hsafe (Hfile' _)).
  - by rewrite insert_insert_eq, delete_insert_eq.
  - by rewrite lookup_insert_eq.
  - by rewrite lookup_insert_eq.
Qed.

(** What one pass through the [try] block does to the world. *)
Lemma download_try_effect url filename w r filename1 w1 :
  PDFUtils.download_try E url filename w = (r, filename1, w1) ->
  r <> OutOfFuel
  /\ pdf_requests w1 = (pdf_requests w ++ [url])%list
  /\ (storage_valid E w -> storage_valid E w1)
  /\ (forall e, r = Throw e -> storage E w1 ⊆ storage E w).
Proof.
  intros Htry. pose proof (download_try_cases url filename w) as Hcases.
  simpl in Hcases.
  destruct (resolveFilename_world url filename (log_request url (bump w)))
    as [Hdisk Hreq]. simpl in Hreq.
  unfold storage_valid, storage, Fs.entries_of.
  destruct (axios_get E (tick w) url) as [e|data].
  { rewrite Hcases in Htry. injection Htry as <- <- <-. by repeat split. }
  destruct (disk w !! PDFUtils.downloadsDir E) as [entries|] eqn:Hdir.
  2:{ destruct Hcases as [e He]. rewrite He in Htry. injection Htry as <- <- <-.
      rewrite Hdisk. simpl. rewrite Hdir. by repeat split. }
  destruct (Fs.is_directory _ (disk w)).
  { destruct Hcases as [e He]. rewrite He in Htry. injection Htry as <- <- <-.
    rewrite Hdisk. simpl. rewrite Hdir. by repeat split. }
  destruct (PDFUtils.has_pdf_signature data) eqn:Hsig;
    rewrite Hcases in Htry; injection Htry as <- <- <-; simpl;
    rewrite lookup_insert_eq; simpl.
  - repeat split; [done|done| |done].
    intros Hvalid name data' Hlook.
    destruct (decide (name = fst (PDFUtils.resolveFilename E url filename
                                    (log_request url (bump w))))) as [->|Hne].
    + rewrite lookup_insert_eq in Hlook. by injection Hlook as <-.
    + rewrite lookup_insert_ne in Hlook by done. by eapply Hvalid.
  - repeat split; [done|done| |].
    + intros Hvalid name data' Hlook. apply lookup_delete_Some in Hlook as [_ Hlook].
      by eapply Hvalid.
    + intros _ _. apply delete_subseteq.
Qed.

(** The [try] block stores under names that are single path components. *)
Lemma download_try_names_wf url filename w r filename1 w1 :
  PDFUtils.download_try E url filename w = (r, filename1, w1) ->
  Fs.names_wf (storage E w) -> Fs.names_wf (storage E w1).
Proof.
  intros Htry. pose proof (download_try_cases url filename w) as Hcases.
  simpl in Hcases.
  destruct (resolveFilename_world url filename (log_request url (bump w)))
    as [Hdisk _].
  pose proof (resolveFilename_safe E url filename (log_request url (bump w))) as Hsafe.
  unfold Fs.names_wf, storage, Fs.entries_of.
  destruct (axios_get E (tick w) url) as [e|data].
  { rewrite Hcases in Htry. by injection Htry as <- <- <-. }
  destruct (disk w !! PDFUtils.downloadsDir E) as [entries|] eqn:Hdir.
  2:{ destruct Hcases as [e He]. rewrite He in Htry. injection Htry as <- <- <-.
      rewrite Hdisk. simpl. by rewrite Hdir. }
  destruct (Fs.is_directory _ (disk w)).
  { destruct Hcases as [e He]. rewrite He in Htry. injection Htry as <- <- <-.
    rewrite Hdisk. simpl. by rewrite Hdir. }
  destruct (PDFUtils.has_pdf_signature data);
    rewrite Hcases in Htry; injection Htry as <- <- <-; simpl;
    rewrite lookup_insert_eq; simpl; intros Hwf name data' Hlook.
  - apply lookup_insert_Some in Hlook as [[<- _]|[_ Hlook]]; [done|by eapply Hwf].
  - apply lookup_delete_Some in Hlook as [_ Hlook]. by eapply Hwf.
Qed.

(** So does [downloadPDF]: the assumption on names that the clean-up needs
    is kept by every download. *)
Lemma downloadPDF_names_wf fuel :
  forall url filename isRetry w r w',
    PDFUtils.downloadPDF E fuel url filename isRetry w = (r, w') ->
    Fs.names_wf (storage E w) -> Fs.names_wf (storage E w').
Proof.
  induction fuel as [|fuel IH]; intros url filename isRetry w r w'.
  { by intros [= <- <-]. }
  rewrite downloadPDF_S.
  destruct (PDFUtils.download_try E url filename w) as [[r1 filename1] w1] eqn:Htry.
  pose proof (download_try_names_wf _ _ _ _ _ _ Htry) as Hkeep. clear Htry.
  rename Hkeep into Htry.
  destruct r1 as [filepath|e1|]; [by intros [= <- <-]| |by intros [= <- <-]].
  cbn [negb andb].
  destruct (negb isRetry && PDFUtils.isPaywalledSource url); [|by intros [= <- <-]].
  destruct (Js.truthy _) as [paperTitle|]; [|by intros [= <- <-]].
  assert (Hstay : storage E (snd (PDFUtils.findPaperOnArxiv E paperTitle w1)) = storage E w1).
  { unfold storage. by destruct (findPaperOnArxiv_world paperTitle w1) as [-> _]. }
  destruct (PDFUtils.findPaperOnArxiv E paperTitle w1) as [[hop|] w2]; simpl in Hstay.
  2:{ intros [= <- <-]. by rewrite Hstay. }
  destruct (PDFUtils.downloadPDF E fuel hop filename1 true w2) as [r3 w3] eqn:Hretry.
  specialize (IH _ _ _ _ _ _ Hretry). rewrite Hstay in IH.
  destruct r3 as [filepath|e3|]; intros [= <- <-] Hwf; apply IH, Htry; exact Hwf.
Qed.

(** A call with [isRetry = true] does not call [downloadPDF] again. *)
Lemma retry_does_not_recurse n url filename w :
  PDFUtils.downloadPDF E (S n) url filename true w
  = PDFUtils.downloadPDF E 1 url filename true w
  /\ fst (PDFUtils.downloadPDF E 1 url filename true w) <> OutOfFuel
  /\ pdf_requests (snd (PDFUtils.downloadPDF E 1 url filename true w))
     = (pdf_requests w ++ [url])%list.
Proof.
  rewrite !downloadPDF_S.
  destruct (PDFUtils.download_try E url filename w) as [[r filename1] w1] eqn:Htry.
  apply download_try_effect in Htry as (Hr & Hreq & _).
  destruct r; simpl; done.
Qed.

End WithEnv.
End DownloadFacts.

Ltac settle :=
  repeat split; try done; try (simpl; lia); try (intros; discriminate).

(** C3.  Whatever the URL, the hint and the answers of the network, a call
    of [downloadPDF] with fuel for two nested calls returns (it does not run
    out of fuel) and more fuel changes nothing: the recursion is at most two
    deep.  It requests the URL it was given and at most one further URL, the
    fallback; a call with [isRetry = true] requests only its own URL and
    needs no nested call at all; and when there is a fallback hop, the
    outcome of the whole call is decided by a call with [isRetry = true]. *)
Theorem downloadPDF_at_most_one_fallback (E : Env) (fuel : nat)
    (url : string) (filename : option string) (isRetry : bool) (w : World) :
  (2 <= fuel)%nat ->
  exists r w' hops,
    PDFUtils.downloadPDF E fuel url filename isRetry w = (r, w')
    /\ r <> OutOfFuel
    /\ PDFUtils.downloadPDF E 2 url filename isRetry w = (r, w')
    /\ pdf_requests w' = (pdf_requests w ++ url :: hops)%list
    /\ (length hops <= 1)%nat
    /\ (isRetry = true ->
          hops = [] /\ PDFUtils.downloadPDF E 1 url filename true w = (r, w'))
    /\ (forall hop, hops = [hop] ->
          exists filename1 w2,
            pdf_requests w2 = (pdf_requests w ++ [url])%list
            /\ snd (PDFUtils.downloadPDF E 1 hop filename1 true w2) = w').
Proof.
  intros Hfuel. destruct fuel as [|[|n]]; [lia|lia|]. clear Hfuel.
  rewrite (DownloadFacts.downloadPDF_S E (S n)), (DownloadFacts.downloadPDF_S E 1).
  destruct isRetry.
  - (* a retry: the fallback is not considered *)
    rewrite (DownloadFacts.downloadPDF_S E 0).
    destruct (PDFUtils.download_try E url filename w) as [[r filename1] w1] eqn:Htry.
    apply DownloadFacts.download_try_effect in Htry as (Hr & Hreq & _).
    destruct r as [filepath|e|]; [| |done]; simpl.
    + exists (Ret filepath), w1, []. settle.
    + exists (Throw ("Failed to download PDF: " +:+ e)), w1, []. settle.
  - destruct (PDFUtils.download_try E url filename w) as [[r filename1] w1] eqn:Htry.
    apply DownloadFacts.download_try_effect in Htry as (Hr & Hreq & _).
    destruct r as [filepath|e|]; [| |done]; cbn [negb andb].
    { exists (Ret filepath), w1, []. settle. }
    destruct (PDFUtils.isPaywalledSource url).
    2:{ exists (Throw ("Failed to download PDF: " +:+ e)), w1, []. settle. }
    destruct (Js.truthy (PDFUtils.extractTitleFromUrl E url filename1)) as [paperTitle|].
    2:{ exists (Throw ("Failed to download PDF: " +:+ e)), w1, []. settle. }
    destruct (DownloadFacts.findPaperOnArxiv_world E paperTitle w1) as [_ Hreq2].
    destruct (PDFUtils.findPaperOnArxiv E paperTitle w1) as [[hop|] w2]; simpl in Hreq2.
    2:{ exists (Throw ("Failed to download PDF: " +:+ e)), w2, [].
        rewrite Hreq2. settle. }
    destruct (DownloadFacts.retry_does_not_recurse E n hop filename1 w2)
      as (Hsame & Hr3 & Hreq3).
    rewrite Hsame.
    destruct (PDFUtils.downloadPDF E 1 hop filename1 true w2) as [r3 w3] eqn:Hretry.
    simpl in Hr3, Hreq3.
    assert (Hlog : pdf_requests w3 = (pdf_requests w ++ [url; hop])%list).
    { rewrite Hreq3, Hreq2, Hreq, <-app_assoc. reflexivity. }
    assert (Hhop : forall hop', [hop] = [hop'] ->
              exists filename1' w2',
                pdf_requests w2' = (pdf_requests w ++ [url])%list
                /\ snd (PDFUtils.downloadPDF E 1 hop' filename1' true w2') = w3).
    { intros hop' [= <-]. exists filename1, w2. rewrite Hretry, Hreq2. by split. }
    destruct r3 as [filepath|e3|]; [| |done].
    + exists (Ret filepath), w3, [hop]. settle.
    + exists (Throw ("Failed to download PDF: " +:+ e)), w3, [hop]. settle.
Qed.

Lemma downloadPDF_at_most_one_fallback_witness :
  (2 <= 5)%nat
  /\ exists r w' hops,
    PDFUtils.downloadPDF Sample.env 5 "https://sciencedirect.com/paper123.pdf"
      (Some "Attention Is All You Need") false Sample.empty_world = (r, w')
    /\ r <> OutOfFuel
    /\ PDFUtils.downloadPDF Sample.env 2 "https://sciencedirect.com/paper123.pdf"
         (Some "Attention Is All You Need") false Sample.empty_world = (r, w')
    /\ pdf_requests w'
       = (pdf_requests Sample.empty_world
            ++ "https://sciencedirect.com/paper123.pdf" :: hops)%list
    /\ (length hops <= 1)%nat
    /\ (false = true ->
          hops = []
          /\ PDFUtils.downloadPDF Sample.env 1 "https://sciencedirect.com/paper123.pdf"
               (Some "Attention Is All You Need") true Sample.empty_world = (r, w'))
    /\ (forall hop, hops = [hop] ->
          exists filename1 w2,
            pdf_requests w2
            = (pdf_requests Sample.empty_world
                 ++ ["https://sciencedirect.com/paper123.pdf"])%list
            /\ snd (PDFUtils.downloadPDF Sample.env 1 hop filename1 true w2) = w').
Proof.
  split; [lia|].
  apply (downloadPDF_at_most_one_fallback Sample.env 5
           "https://sciencedirect.com/paper123.pdf" (Some "Attention Is All You Need")
           false Sample.empty_world).
  lia.
Defined.

(** The scenario of the specification: a paywalled source answers 403, the
    title comes from the hint, arXiv has the paper, and the retried download
    is the one that is stored. *)
Example paywall_fallback_scenario :
  let r := PDFUtils.downloadPDF Sample.env 2 "https://sciencedirect.com/paper123.pdf"
             (Some "Attention Is All You Need") false Sample.empty_world in
  fst r = Ret "/tmp/science_mcp_downloads/Attention_Is_All_You_Need.pdf"
  /\ pdf_requests (snd r)
     = ["https://sciencedirect.com/paper123.pdf"; "http://arxiv.org/pdf/1706.03762v7"]
  /\ Fs.files_in Sample.downloads (disk (snd r)) = ["Attention_Is_All_You_Need.pdf"].
Proof. vm_compute. done. Qed.

(** X21.  What the write-validate-delete sequence does guarantee.  A
    download whose bytes [isValidPDF] rejects (the downloads directory
    exists and the path of the file is not a directory) leaves the [try]
    block with the error [Downloaded file is not a valid PDF] in a world
    where nothing exists at the path just written; a call of [downloadPDF]
    that fails leaves in the downloads directory no file that was not there
    before, with unchanged contents; and if every file of the directory was
    one that [isValidPDF] accepts before a call (its first four bytes, the
    highest bit of each left aside, are [%PDF]), every file is one after,
    whatever the outcome. *)
Theorem invalid_download_is_deleted (E : Env) :
  (forall url filename w data,
     axios_get E (tick w) url = inr data ->
     PDFUtils.has_pdf_signature data = false ->
     is_Some (disk w !! PDFUtils.downloadsDir E) ->
     Fs.is_directory
       (Fs.join (PDFUtils.downloadsDir E)
          (fst (PDFUtils.resolveFilename E url filename (log_request url (bump w)))))
       (disk w) = false ->
     exists name w1,
       PDFUtils.download_try E url filename w
       = (Throw "Downloaded file is not a valid PDF", Some name, w1)
       /\ Fs.existsSync (Fs.join (PDFUtils.downloadsDir E) name) (disk w1) = false)
  /\ (forall fuel url filename isRetry w e w',
        PDFUtils.downloadPDF E fuel url filename isRetry w = (Throw e, w') ->
        storage E w' ⊆ storage E w)
  /\ (forall fuel url filename isRetry w r w',
        PDFUtils.downloadPDF E fuel url filename isRetry w = (r, w') ->
        storage_valid E w -> storage_valid E w').
Proof.
  split; [|split].
  - intros url filename w data Hget Hsig [entries Hdir] Hfile.
    pose proof (DownloadFacts.download_try_cases E url filename w) as Hcases.
    simpl in Hcases. rewrite Hget, Hdir, Hfile, Hsig in Hcases.
    eexists _, _. split; [exact Hcases|].
    unfold Fs.existsSync. simpl. rewrite FsFacts.is_directory_insert, Hfile. simpl.
    destruct (Fs.readFileSync _ _) as [e|found] eqn:Hread; [done|].
    apply FsFacts.readFileSync_join in Hread;
      [|apply resolveFilename_safe|by rewrite FsFacts.is_directory_insert].
    rewrite FsFacts.entries_of_insert in Hread.
    by rewrite lookup_delete_eq in Hread.
  - assert (Hstay : forall title w, storage E (snd (PDFUtils.findPaperOnArxiv E title w))
                                    = storage E w).
    { intros title w. unfold storage.
      by destruct (DownloadFacts.findPaperOnArxiv_world E title w) as [-> _]. }
    induction fuel as [|fuel IH]; intros url filename isRetry w e w'; [done|].
    rewrite DownloadFacts.downloadPDF_S.
    destruct (PDFUtils.download_try E url filename w) as [[r filename1] w1] eqn:Htry.
    apply DownloadFacts.download_try_effect in Htry as (_ & _ & _ & Hsub).
    destruct r as [filepath|e1|]; [done| |done]. specialize (Hsub e1 eq_refl). simpl.
    destruct (negb isRetry && PDFUtils.isPaywalledSource url);
      [|by intros [= <- <-]].
    destruct (Js.truthy _) as [paperTitle|]; [|by intros [= <- <-]].
    specialize (Hstay paperTitle w1).
    destruct (PDFUtils.findPaperOnArxiv E paperTitle w1) as [[hop|] w2]; simpl in Hstay.
    2:{ intros [= <- <-]. by rewrite Hstay. }
    destruct (PDFUtils.downloadPDF E fuel hop filename1 true w2) as [r3 w3] eqn:Hretry.
    destruct r3 as [filepath|e3|]; [done| |done]. intros [= <- <-].
    apply IH in Hretry. rewrite Hstay in Hretry. by etrans.
  - assert (Hstay : forall title w, storage_valid E w ->
                      storage_valid E (snd (PDFUtils.findPaperOnArxiv E title w))).
    { intros title w. unfold storage_valid, storage.
      by destruct (DownloadFacts.findPaperOnArxiv_world E title w) as [-> _]. }
    induction fuel as [|fuel IH]; intros url filename isRetry w r w'.
    { by intros [= <- <-]. }
    rewrite DownloadFacts.downloadPDF_S.
    destruct (PDFUtils.download_try E url filename w) as [[r1 filename1] w1] eqn:Htry.
    apply DownloadFacts.download_try_effect in Htry as (_ & _ & Hvalid & _).
    destruct r1 as [filepath|e1|]; cbn [negb andb].
    { intros [= <- <-]. exact Hvalid. }
    2:{ intros [= <- <-]. exact Hvalid. }
    destruct (negb isRetry && PDFUtils.isPaywalledSource url).
    2:{ intros [= <- <-]. exact Hvalid. }
    destruct (Js.truthy _) as [paperTitle|].
    2:{ intros [= <- <-]. exact Hvalid. }
    specialize (Hstay paperTitle w1).
    destruct (PDFUtils.findPaperOnArxiv E paperTitle w1) as [[hop|] w2]; simpl in Hstay.
    2:{ intros [= <- <-]. auto. }
    destruct (PDFUtils.downloadPDF E fuel hop filename1 true w2) as [r3 w3] eqn:Hretry.
    specialize (IH _ _ _ _ _ _ Hretry).
    destruct r3 as [filepath|e3|]; intros [= <- <-]; auto.
Qed.

Lemma invalid_download_is_deleted_witness :
  axios_get Sample.env (tick Sample.empty_world) "https://example.org/page.html"
    = inr Sample.html_bytes
  /\ PDFUtils.has_pdf_signature Sample.html_bytes = false
  /\ is_Some (disk Sample.empty_world !! PDFUtils.downloadsDir Sample.env)
  /\ Fs.is_directory "/tmp/science_mcp_downloads/page.html.pdf" (disk Sample.empty_world)
     = false
  /\ exists name w1,
       PDFUtils.download_try Sample.env "https://example.org/page.html" None
         Sample.empty_world
       = (Throw "Downloaded file is not a valid PDF", Some name, w1)
       /\ Fs.existsSync (Fs.join (PDFUtils.downloadsDir Sample.env) name) (disk w1) = false.
Proof.
  assert (Hdir : is_Some (disk Sample.empty_world !! PDFUtils.downloadsDir Sample.env)).
  { exists ∅. vm_compute. reflexivity. }
  split; [reflexivity|]. split; [reflexivity|]. split; [exact Hdir|].
  split; [vm_compute; reflexivity|].
  destruct (invalid_download_is_deleted Sample.env) as [Hdeleted _].
  apply (Hdeleted "https://example.org/page.html" None Sample.empty_world
           Sample.html_bytes); [reflexivity|reflexivity|exact Hdir|vm_compute; reflexivity].
Defined.

(** C4.  The files that stay are those that [isValidPDF] accepts, and it
    accepts bytes that are not the ASCII signature (see C5).  When the
    server answers with bytes that begin A5 D0 C4 C6, the downloads
    directory exists and the path of the file is free, [downloadPDF]
    succeeds, nothing is deleted, and the directory then holds a file that
    does not begin with [%PDF]. *)
Theorem high_bit_download_is_kept (E : Env) (fuel : nat) (url : string)
    (filename : option string) (isRetry : bool) (w : World) (rest : list byte) :
  let data := xa5 :: xd0 :: xc4 :: xc6 :: rest in
  let name := fst (PDFUtils.resolveFilename E url filename (log_request url (bump w))) in
  axios_get E (tick w) url = inr data ->
  is_Some (disk w !! PDFUtils.downloadsDir E) ->
  Fs.is_directory (Fs.join (PDFUtils.downloadsDir E) name) (disk w) = false ->
  exists w',
    PDFUtils.downloadPDF E (S fuel) url filename isRetry w
    = (Ret (Fs.join (PDFUtils.downloadsDir E) name), w')
    /\ Fs.readFileSync (Fs.join (PDFUtils.downloadsDir E) name) (disk w') = inr data
    /\ storage E w' !! name = Some data
    /\ ~ begins_with_pdf_signature data
    /\ ~ storage_signed E w'.
Proof.
  intros data name Hget [entries Hdir] Hfile.
  pose proof (DownloadFacts.download_try_cases E url filename w) as Hcases.
  simpl in Hcases. fold name in Hcases.
  assert (Hsig : PDFUtils.has_pdf_signature data = true).
  { apply has_pdf_signature_bytes. by exists xa5, xd0, xc4, xc6, rest. }
  rewrite Hget, Hdir, Hfile, Hsig in Hcases.
  assert (Hunsigned : ~ begins_with_pdf_signature data).
  { unfold begins_with_pdf_signature, pdf_signature, data. simpl. discriminate. }
  assert (Hstored : forall w2,
            storage E (set_disk (<[PDFUtils.downloadsDir E := <[name := data]> entries]>
                                   (disk w)) w2) !! name = Some data).
  { intros w2. unfold storage. simpl.
    by rewrite FsFacts.entries_of_insert, lookup_insert_eq. }
  eexists. split; [|split; [|split; [|split]]].
  - rewrite DownloadFacts.downloadPDF_S, Hcases. reflexivity.
  - apply FsFacts.readFileSync_join.
    + apply resolveFilename_safe.
    + simpl. by rewrite FsFacts.is_directory_insert.
    + apply Hstored.
  - apply Hstored.
  - exact Hunsigned.
  - intros Hsigned. apply Hunsigned. eapply Hsigned. apply Hstored.
Qed.

Lemma high_bit_download_is_kept_witness :
  axios_get Sample.env_high_bit (tick Sample.empty_world) "https://example.org/scan.pdf"
    = inr Sample.high_bit_bytes
  /\ is_Some (disk Sample.empty_world !! PDFUtils.downloadsDir Sample.env_high_bit)
  /\ Fs.is_directory "/tmp/science_mcp_downloads/scan.pdf" (disk Sample.empty_world) = false
  /\ exists w',
       PDFUtils.downloadPDF Sample.env_high_bit 2 "https://example.org/scan.pdf" None false
         Sample.empty_world
       = (Ret "/tmp/science_mcp_downloads/scan.pdf", w')
       /\ Fs.readFileSync "/tmp/science_mcp_downloads/scan.pdf" (disk w')
          = inr Sample.high_bit_bytes
       /\ ~ begins_with_pdf_signature Sample.high_bit_bytes
       /\ ~ storage_signed Sample.env_high_bit w'.
Proof.
  assert (Hdir : is_Some (disk Sample.empty_world
                            !! PDFUtils.downloadsDir Sample.env_high_bit)).
  { exists ∅. vm_compute. reflexivity. }
  assert (Hfile : Fs.is_directory "/tmp/science_mcp_downloads/scan.pdf"
                    (disk Sample.empty_world) = false) by (vm_compute; reflexivity).
  split; [reflexivity|]. split; [exact Hdir|]. split; [exact Hfile|].
  destruct (high_bit_download_is_kept Sample.env_high_bit 1 "https://example.org/scan.pdf"
              None false Sample.empty_world [x2d; x31; x2e; x37] eq_refl Hdir Hfile)
    as (w' & Hrun & Hread & _ & Hunsigned & Hstorage).
  exists w'. split; [exact Hrun|]. split; [exact Hread|]. split; [exact Hunsigned|].
  exact Hstorage.
Defined.

(** ** Page extraction *)

Module ExtractFacts.
Section WithEnv.
Context (E : Env).

Lemma load_readable filepath (d : Fs.Disk) data doc :
  Fs.readFileSync filepath d = inr data ->
  getDocument E data = inr doc ->
  PDFUtils.load E filepath d = Ret doc.
Proof.
  intros Hread Hdoc. unfold PDFUtils.load.
  by rewrite (FsFacts.existsSync_read _ _ _ Hread), Hread, Hdoc.
Qed.

Lemma load_missing filepath (d : Fs.Disk) :
  Fs.existsSync filepath d = false ->
  PDFUtils.load E filepath d = Throw ("PDF file not found: " +:+ filepath).
Proof. intros H. unfold PDFUtils.load. by rewrite H. Qed.

Lemma page_range_empty first last : last < first -> PDFUtils.page_range first last = [].
Proof.
  intros H. unfold PDFUtils.page_range, seqZ.
  replace (Z.to_nat (last - first + 1)) with 0%nat by lia. done.
Qed.

Lemma page_range_cons first last :
  first <= last ->
  PDFUtils.page_range first last = first :: PDFUtils.page_range (first + 1) last.
Proof.
  intros H. unfold PDFUtils.page_range.
  rewrite seqZ_cons by lia.
  replace (Z.succ first) with (first + 1) by lia.
  by replace (Z.pred (last - first + 1)) with (last - (first + 1) + 1) by lia.
Qed.

Lemma page_range_app first mid last :
  first <= mid + 1 -> mid <= last ->
  (PDFUtils.page_range first mid ++ PDFUtils.page_range (mid + 1) last)%list
  = PDFUtils.page_range first last.
Proof.
  intros H1 H2. unfold PDFUtils.page_range.
  replace (last - first + 1) with ((mid - first + 1) + (last - (mid + 1) + 1)) by lia.
  rewrite (seqZ_app first (mid - first + 1) (last - (mid + 1) + 1)) by lia.
  by replace (first + (mid - first + 1)) with (mid + 1) by lia.
Qed.

Lemma elem_of_page_range k first last :
  k ∈ PDFUtils.page_range first last -> first <= k <= last.
Proof. unfold PDFUtils.page_range. rewrite elem_of_seqZ. lia. Qed.

Lemma getPage_valid doc k :
  1 <= k <= numPages doc ->
  PDFUtils.getPage doc k = Ret (default [] (pages doc !! Z.to_nat (k - 1))).
Proof.
  intros Hk. unfold PDFUtils.getPage, numPages in *.
  replace ((1 <=? k) && (k <=? Z.of_nat (length (pages doc)))) with true
    by (symmetry; apply andb_true_iff; split; apply Z.leb_le; lia).
  destruct (lookup_lt_is_Some_2 (pages doc) (Z.to_nat (k - 1))) as [items Hitems]; [lia|].
  by rewrite Hitems.
Qed.

Lemma extract_pages_valid doc nums :
  (forall k, k ∈ nums -> 1 <= k <= numPages doc) ->
  PDFUtils.extract_pages doc nums = Ret (map (page_text_of doc) nums).
Proof.
  induction nums as [|k nums IH]; intros Hall; [done|].
  cbn [PDFUtils.extract_pages map].
  rewrite getPage_valid by (apply Hall; by left).
  rewrite IH; [done|]. intros k' Hk'. apply Hall. by right.
Qed.

(** Reading a range that lies within the document. *)
Lemma readPDFText_within filepath (d : Fs.Disk) data doc first last :
  Fs.readFileSync filepath d = inr data ->
  getDocument E data = inr doc ->
  1 <= first -> 1 <= last <= numPages doc ->
  PDFUtils.readPDFText E filepath (Some first) (Some last) d
  = Ret (range_text doc first last).
Proof.
  intros Hread Hdoc Hfirst Hlast. unfold PDFUtils.readPDFText.
  rewrite (load_readable _ _ _ _ Hread Hdoc).
  assert (or_number (Some first) 1 = first) as -> by (by destruct first).
  assert (or_number (Some last) (numPages doc) = last) as -> by (destruct last; simpl; lia).
  rewrite Z.min_l by lia.
  rewrite extract_pages_valid; [done|].
  intros k Hk%elem_of_page_range. lia.
Qed.

End WithEnv.
End ExtractFacts.

(** C8, as the code has it.  On a file that exists and parses, a call with
    [startPage > endPage] and [endPage] other than zero returns the empty
    string, the same for every such call, and does not fail.  An [endPage]
    of zero counts as omitted: the call then reads as one without
    [endPage], up to the last page. *)
Theorem inverted_range_is_empty (E : Env) (d : Fs.Disk) (filepath : string)
    (data : list byte) (doc : PDFDocument) (startPage endPage : Z) :
  Fs.readFileSync filepath d = inr data ->
  getDocument E data = inr doc ->
  endPage < startPage ->
  (endPage <> 0 ->
     PDFUtils.readPDFText E filepath (Some startPage) (Some endPage) d = Ret "")
  /\ (endPage = 0 ->
        PDFUtils.readPDFText E filepath (Some startPage) (Some endPage) d
        = PDFUtils.readPDFText E filepath (Some startPage) None d).
Proof.
  intros Hread Hdoc Hinv. split.
  - intros Hnz. unfold PDFUtils.readPDFText.
    rewrite (ExtractFacts.load_readable E _ _ _ _ Hread Hdoc).
    assert (or_number (Some endPage) (numPages doc) = endPage) as ->
      by (by destruct endPage).
    assert (endPage < or_number (Some startPage) 1) as Hstart
      by (destruct startPage; simpl; lia).
    rewrite ExtractFacts.page_range_empty; [done|].
    pose proof (Z.le_min_l endPage (numPages doc)). lia.
  - by intros ->.
Qed.

Lemma inverted_range_is_empty_witness :
  Fs.readFileSync "/tmp/science_mcp_downloads/paper.pdf" Sample.disk_with_paper
    = inr Sample.pdf_bytes
  /\ getDocument Sample.env Sample.pdf_bytes = inr Sample.three_pages
  /\ 3 < 5
  /\ PDFUtils.readPDFText Sample.env "/tmp/science_mcp_downloads/paper.pdf"
       (Some 5) (Some 3) Sample.disk_with_paper = Ret "".
Proof.
  assert (Hread : Fs.readFileSync "/tmp/science_mcp_downloads/paper.pdf"
                    Sample.disk_with_paper = inr Sample.pdf_bytes)
    by (vm_compute; reflexivity).
  split; [exact Hread|]. split; [reflexivity|]. split; [lia|].
  assert (Hinv : 3 < 5) by lia.
  destruct (inverted_range_is_empty Sample.env Sample.disk_with_paper
              "/tmp/science_mcp_downloads/paper.pdf" Sample.pdf_bytes Sample.three_pages
              5 3 Hread eq_refl Hinv) as [Hempty _].
  apply Hempty. lia.
Defined.

(** C8, as stated, fails for [startPage = 1], [endPage = 0]: the range is
    inverted, and the call returns the text of the whole one-page
    document. *)
Lemma inverted_range_counterexample :
  0 < 1
  /\ PDFUtils.readPDFText Sample.env "/tmp/science_mcp_downloads/short.pdf"
       (Some 1) (Some 0) Sample.disk_with_paper
     = Ret ("--- Page 1 ---" +:+ Js.nl +:+ "Hello")
  /\ ~ ((exists e, PDFUtils.readPDFText Sample.env "/tmp/science_mcp_downloads/short.pdf"
                     (Some 1) (Some 0) Sample.disk_with_paper = Throw e)
        \/ PDFUtils.readPDFText Sample.env "/tmp/science_mcp_downloads/short.pdf"
             (Some 1) (Some 0) Sample.disk_with_paper = Ret "").
Proof.
  assert (Hrun : PDFUtils.readPDFText Sample.env "/tmp/science_mcp_downloads/short.pdf"
                   (Some 1) (Some 0) Sample.disk_with_paper
                 = Ret ("--- Page 1 ---" +:+ Js.nl +:+ "Hello"))
    by (vm_compute; reflexivity).
  split; [lia|]. split; [exact Hrun|].
  rewrite Hrun. intros [[e He]|He]; [discriminate He|].
  vm_compute in He. discriminate He.
Qed.

(** ** Chunking *)

Module ChunkFacts.
Section WithEnv.
Context (E : Env).

(** The number of chunks of [totalPages] pages cut every [chunkSize] pages. *)
Lemma chunk_count_spec totalPages chunkSize j :
  1 <= chunkSize -> 0 <= j ->
  j < (totalPages + chunkSize - 1) / chunkSize <-> j * chunkSize + 1 <= totalPages.
Proof.
  intros Hcs Hj.
  pose proof (Z.div_mod (totalPages + chunkSize - 1) chunkSize) as Hdm.
  pose proof (Z.mod_pos_bound (totalPages + chunkSize - 1) chunkSize) as Hmod.
  set (q := (totalPages + chunkSize - 1) / chunkSize) in *.
  set (r := (totalPages + chunkSize - 1) mod chunkSize) in *.
  split; intros H; nia.
Qed.

(** The loop of [readPDFTextChunked], entered at the first page of chunk
    [j], produces the chunks [j], [j+1], ... of the document. *)
Lemma read_chunks_from filepath (d : Fs.Disk) data doc chunkSize :
  Fs.readFileSync filepath d = inr data ->
  getDocument E data = inr doc ->
  1 <= chunkSize ->
  forall fuel j,
    0 <= j <= (numPages doc + chunkSize - 1) / chunkSize ->
    (Z.to_nat (numPages doc - (j * chunkSize + 1) + 1) < fuel)%nat ->
    PDFUtils.read_chunks E fuel filepath chunkSize (numPages doc) (j * chunkSize + 1) d
    = Ret (map (fun i => range_text doc (i * chunkSize + 1)
                           (Z.min ((i + 1) * chunkSize) (numPages doc)))
             (seqZ j ((numPages doc + chunkSize - 1) / chunkSize - j))).
Proof.
  intros Hread Hdoc Hcs. set (total := numPages doc).
  set (n := (total + chunkSize - 1) / chunkSize).
  induction fuel as [|fuel IH]; intros j Hj Hfuel; [lia|].
  cbn [PDFUtils.read_chunks].
  destruct (Z.leb_spec (j * chunkSize + 1) total) as [Hin|Hout].
  - assert (j < n) as Hlt by (apply (chunk_count_spec total chunkSize j); lia).
    replace (j * chunkSize + 1 + chunkSize - 1) with ((j + 1) * chunkSize) by lia.
    rewrite (ExtractFacts.readPDFText_within E _ _ _ _ _ _ Hread Hdoc); [|nia|fold total; nia].
    replace (j * chunkSize + 1 + chunkSize) with ((j + 1) * chunkSize + 1) by lia.
    rewrite IH; [|lia|nia].
    rewrite (seqZ_cons j) by lia. cbn [map].
    replace (Z.succ j) with (j + 1) by lia.
    by replace (Z.pred (n - j)) with (n - (j + 1)) by lia.
  - assert (~ j < n) as Hge
      by (intros Hc; apply (chunk_count_spec total chunkSize j) in Hc; lia).
    replace (n - j) with 0 by lia. done.
Qed.

(** The chunk ranges, put end to end from chunk [j] on, are the pages from
    the first page of chunk [j] to the last page. *)
Lemma chunk_ranges_concat totalPages chunkSize :
  1 <= chunkSize -> 1 <= totalPages ->
  forall k j,
    0 <= j -> j + Z.of_nat k = (totalPages + chunkSize - 1) / chunkSize ->
    concat (map (fun i => PDFUtils.page_range (i * chunkSize + 1)
                            (Z.min ((i + 1) * chunkSize) totalPages))
              (seqZ j (Z.of_nat k)))
    = PDFUtils.page_range (j * chunkSize + 1) totalPages.
Proof.
  intros Hcs Htotal. induction k as [|k IH]; intros j Hj Hn.
  - assert (~ j < (totalPages + chunkSize - 1) / chunkSize) as Hge by lia.
    rewrite chunk_count_spec in Hge by lia.
    rewrite ExtractFacts.page_range_empty by lia. done.
  - assert (j < (totalPages + chunkSize - 1) / chunkSize) as Hlt by lia.
    rewrite chunk_count_spec in Hlt by lia.
    rewrite (seqZ_cons j) by lia. cbn [map concat].
    replace (Z.succ j) with (j + 1) by lia.
    replace (Z.pred (Z.of_nat (S k))) with (Z.of_nat k) by lia.
    rewrite IH by lia.
    destruct (Z.le_ge_cases ((j + 1) * chunkSize) totalPages) as [Hfull|Hlast].
    + rewrite Z.min_l by lia. apply ExtractFacts.page_range_app; nia.
    + rewrite Z.min_r by lia.
      rewrite (ExtractFacts.page_range_empty ((j + 1) * chunkSize + 1)) by lia.
      by rewrite app_nil_r.
Qed.

End WithEnv.
End ChunkFacts.

(** The page numbers counted on the natural numbers are those that the
    loops of the code visit. *)
Lemma pages_from_to_page_range (first last : Z) :
  0 <= first -> pages_from_to first last = PDFUtils.page_range first last.
Proof.
  intros Hfirst. unfold pages_from_to, PDFUtils.page_range, seqZ.
  rewrite <-(Nat.add_0_r (Z.to_nat first)) at 1.
  rewrite <-fmap_add_seq, <-list_fmap_compose.
  apply list_fmap_ext. intros _ i _. simpl. lia.
Qed.

Lemma elem_of_pages_from_to (first last k : Z) :
  0 <= first -> k ∈ pages_from_to first last <-> first <= k <= last.
Proof.
  intros Hfirst. unfold pages_from_to. rewrite list_elem_of_fmap. split.
  - intros (i & -> & Hi%elem_of_seq). lia.
  - intros Hk. exists (Z.to_nat k). split; [lia|]. apply elem_of_seq. lia.
Qed.

Lemma pages_text_range_text (doc : PDFDocument) (first last : Z) :
  0 <= first -> pages_text doc first last = range_text doc first last.
Proof.
  intros Hfirst. unfold pages_text, range_text.
  by rewrite (pages_from_to_page_range _ _ Hfirst).
Qed.

(** C6.  For a file that exists and parses to a document of at least one
    page, and a chunk size of at least one, [readPDFTextChunked] (given fuel
    for its loop) returns the page count and [n] chunks, [n] being the page
    count divided by the chunk size and rounded up.  Chunk [i] is the text
    of the pages [i*chunkSize+1 .. min((i+1)*chunkSize, totalPages)]: the
    block of each of these pages under its heading, and of no other page.
    The response that the handler builds from the chunks has one object per
    chunk, and the object of chunk [i] gives these two bounds as
    [startPage] and [endPage] next to that text.  The first range starts at
    page 1, the last ends at the last page, each range is non-empty and
    spans at most [chunkSize] pages, every range but the last spans exactly
    [chunkSize] pages and is followed by the next without gap or overlap,
    every page from 1 to the last lies in exactly one range, and the ranges
    put end to end are the pages [1 .. totalPages]. *)
Theorem chunks_partition_pages (E : Env) (d : Fs.Disk) (filepath : string)
    (data : list byte) (doc : PDFDocument) (chunkSize : Z) (fuel : nat) :
  Fs.readFileSync filepath d = inr data ->
  getDocument E data = inr doc ->
  1 <= numPages doc ->
  1 <= chunkSize ->
  (Z.to_nat (numPages doc) < fuel)%nat ->
  let totalPages := numPages doc in
  let n := (totalPages + chunkSize - 1) / chunkSize in
  let first i := i * chunkSize + 1 in
  let last i := Z.min ((i + 1) * chunkSize) totalPages in
  exists chunks,
    PDFUtils.readPDFTextChunked E fuel filepath chunkSize d = Ret (chunks, totalPages)
    /\ Z.of_nat (length chunks) = n
    /\ (forall i, 0 <= i < n ->
          chunks !! Z.to_nat i = Some (pages_text doc (first i) (last i)))
    /\ (exists items,
          Server.chunked_response filepath chunkSize totalPages chunks
          = JObject [ ("action", JString "read_pdf_text");
                      ("filepath", JString filepath);
                      ("chunked", JBool true);
                      ("totalPages", JNumber totalPages);
                      ("chunkSize", JNumber chunkSize);
                      ("chunks", JArray items) ]
          /\ Z.of_nat (length items) = n
          /\ forall i, 0 <= i < n ->
               items !! Z.to_nat i
               = Some (JObject [ ("chunkIndex", JNumber i);
                                 ("startPage", JNumber (first i));
                                 ("endPage", JNumber (last i));
                                 ("text", JString (pages_text doc (first i) (last i))) ]))
    /\ first 0 = 1
    /\ last (n - 1) = totalPages
    /\ (forall i, 0 <= i < n -> first i <= last i /\ last i - first i + 1 <= chunkSize)
    /\ (forall i, 0 <= i < n - 1 ->
          last i - first i + 1 = chunkSize /\ first (i + 1) = last i + 1)
    /\ (forall k, 1 <= k <= totalPages ->
          exists i, 0 <= i < n /\ first i <= k <= last i
                    /\ forall j, 0 <= j < n -> first j <= k <= last j -> j = i)
    /\ concat (map (fun i => pages_from_to (first i) (last i)) (seqZ 0 n))
       = pages_from_to 1 totalPages.
Proof.
  intros Hread Hdoc Htotal Hcs Hfuel totalPages n first last.
  assert (Hn : forall j, 0 <= j -> j < n <-> j * chunkSize + 1 <= totalPages)
    by (intros j Hj; by apply ChunkFacts.chunk_count_spec).
  assert (Hpos : 1 <= n).
  { destruct (Hn 0) as [_ H0]; [lia|]. lia. }
  assert (Hlast : (n - 1) * chunkSize + 1 <= totalPages /\ totalPages <= n * chunkSize).
  { split; [apply Hn; lia|]. destruct (Z.le_gt_cases totalPages (n * chunkSize)) as [|Hgt];
      [done|]. assert (n < n) by (apply Hn; lia). lia. }
  set (chunks := map (fun i => pages_text doc (first i) (last i)) (seqZ 0 n)).
  assert (Hlen : Z.of_nat (length chunks) = n).
  { unfold chunks. rewrite length_map, length_seqZ. lia. }
  assert (Hchunk : forall i, 0 <= i < n ->
            chunks !! Z.to_nat i = Some (pages_text doc (first i) (last i))).
  { intros i Hi. unfold chunks. rewrite list_lookup_fmap.
    rewrite (proj2 (lookup_seqZ 0 n (Z.to_nat i) i)); [done|]. lia. }
  exists chunks.
  split; [|split; [exact Hlen|split; [exact Hchunk|split;
    [|split; [|split; [|split; [|split; [|split]]]]]]]].
  - unfold PDFUtils.readPDFTextChunked.
    rewrite (ExtractFacts.load_readable E _ _ _ _ Hread Hdoc).
    destruct (Z.eqb_spec (numPages doc) 0) as [H0|_]; [lia|].
    pose proof (ChunkFacts.read_chunks_from E filepath d data doc chunkSize
                  Hread Hdoc Hcs fuel 0) as Hloop.
    change (0 * chunkSize + 1) with 1 in Hloop.
    rewrite Hloop; [|fold totalPages n; lia|lia].
    fold totalPages n. replace (n - 0) with n by lia.
    do 2 f_equal. unfold chunks. apply map_ext_in.
    intros i Hi%list_elem_of_In%elem_of_seqZ.
    symmetry. apply pages_text_range_text. unfold first. nia.
  - unfold Server.chunked_response. eexists. split; [reflexivity|].
    split; [by rewrite length_imap|].
    intros i Hi. rewrite list_lookup_imap, (Hchunk i Hi). simpl.
    by rewrite Z2Nat.id by lia.
  - done.
  - unfold last. replace (n - 1 + 1) with n by lia. lia.
  - intros i Hi. unfold first, last. assert (i * chunkSize + 1 <= totalPages) by (apply Hn; lia).
    lia.
  - intros i Hi. unfold first, last.
    assert ((i + 1) * chunkSize + 1 <= totalPages) by (apply Hn; lia). lia.
  - intros k Hk. exists ((k - 1) / chunkSize).
    pose proof (Z.div_mod (k - 1) chunkSize) as Hdm.
    pose proof (Z.mod_pos_bound (k - 1) chunkSize) as Hmod.
    assert (Hq : 0 <= (k - 1) / chunkSize) by (apply Z.div_pos; lia).
    set (q := (k - 1) / chunkSize) in *.
    assert (Hqk : q * chunkSize + 1 <= k <= (q + 1) * chunkSize) by nia.
    split; [split; [done|apply Hn; lia]|].
    split; [unfold first, last; lia|].
    intros j Hj Hjk. unfold first, last in Hjk.
    destruct (Z.lt_trichotomy j q) as [Hlt|[->|Hgt]]; [nia|done|nia].
  - pose proof (ChunkFacts.chunk_ranges_concat totalPages chunkSize Hcs Htotal
                  (Z.to_nat n) 0) as Hcat.
    rewrite Z2Nat.id in Hcat by lia.
    specialize (Hcat ltac:(lia) ltac:(lia)). change (0 * chunkSize + 1) with 1 in Hcat.
    rewrite (pages_from_to_page_range 1 totalPages) by lia.
    rewrite <-Hcat. f_equal. apply map_ext_in.
    intros i Hi%list_elem_of_In%elem_of_seqZ.
    apply pages_from_to_page_range. unfold first. nia.
Qed.

Lemma chunks_partition_pages_witness :
  exists chunks,
    PDFUtils.readPDFTextChunked Sample.env 4 "/tmp/science_mcp_downloads/paper.pdf" 2
      Sample.disk_with_paper = Ret (chunks, 3)
    /\ chunks
       = [ "--- Page 1 ---" +:+ Js.nl +:+ "Attention" +:+ Js.nl +:+ Js.nl
           +:+ "--- Page 2 ---" +:+ Js.nl +:+ "Is All " +:+ Js.nl +:+ " You Need";
           "--- Page 3 ---" +:+ Js.nl +:+ "References" ]
    /\ exists first_chunk second_chunk,
         Server.chunked_response "/tmp/science_mcp_downloads/paper.pdf" 2 3 chunks
         = JObject [ ("action", JString "read_pdf_text");
                     ("filepath", JString "/tmp/science_mcp_downloads/paper.pdf");
                     ("chunked", JBool true);
                     ("totalPages", JNumber 3);
                     ("chunkSize", JNumber 2);
                     ("chunks", JArray [first_chunk; second_chunk]) ]
         /\ first_chunk
            = JObject [ ("chunkIndex", JNumber 0); ("startPage", JNumber 1);
                        ("endPage", JNumber 2);
                        ("text", JString (pages_text Sample.three_pages 1 2)) ]
         /\ second_chunk
            = JObject [ ("chunkIndex", JNumber 1); ("startPage", JNumber 3);
                        ("endPage", JNumber 3);
                        ("text", JString (pages_text Sample.three_pages 3 3)) ].
Proof.
  assert (Hread : Fs.readFileSync "/tmp/science_mcp_downloads/paper.pdf"
                    Sample.disk_with_paper = inr Sample.pdf_bytes)
    by (vm_compute; reflexivity).
  assert (Hdoc : getDocument Sample.env Sample.pdf_bytes = inr Sample.three_pages)
    by reflexivity.
  assert (Htotal : 1 <= numPages Sample.three_pages) by (vm_compute; discriminate).
  assert (Hcs : 1 <= 2) by lia.
  assert (Hfuel : (Z.to_nat (numPages Sample.three_pages) < 4)%nat) by (vm_compute; lia).
  destruct (chunks_partition_pages Sample.env Sample.disk_with_paper
              "/tmp/science_mcp_downloads/paper.pdf" Sample.pdf_bytes Sample.three_pages
              2 4 Hread Hdoc Htotal Hcs Hfuel)
    as (chunks & Hrun & Hlen & Hchunk & (items & Hresponse & Hitems & Hitem) & _).
  assert (H0 : 0 <= 0 < (numPages Sample.three_pages + 2 - 1) / 2)
    by (vm_compute; split; [discriminate|reflexivity]).
  assert (H1 : 0 <= 1 < (numPages Sample.three_pages + 2 - 1) / 2)
    by (vm_compute; split; [discriminate|reflexivity]).
  pose proof (Hchunk 0 H0) as Hc0. pose proof (Hchunk 1 H1) as Hc1.
  pose proof (Hitem 0 H0) as Hi0. pose proof (Hitem 1 H1) as Hi1.
  change ((numPages Sample.three_pages + 2 - 1) / 2) with 2 in Hlen, Hitems.
  destruct chunks as [|c0 [|c1 [|c2 chunks]]]; try (simpl in Hlen; lia).
  destruct items as [|i0 [|i1 [|i2 items]]]; try (simpl in Hitems; lia).
  simpl in Hc0, Hc1, Hi0, Hi1.
  injection Hc0 as ->. injection Hc1 as ->. injection Hi0 as ->. injection Hi1 as ->.
  eexists. split; [exact Hrun|]. split; [vm_compute; reflexivity|].
  eexists _, _. split; [exact Hresponse|]. split; reflexivity.
Defined.

(** ** The size-fitting loop of the chunked branch *)

Module FitFacts.
Section WithEnv.
Context (E : Env).

Lemma shrink_positive currentChunkSize : 0 < Server.shrink currentChunkSize.
Proof. unfold Server.shrink. lia. Qed.

(** From the sizes 2 and 1 the next size is 1: the loop never reaches 0. *)
Example shrink_2 : Server.shrink 2 = 1.
Proof. reflexivity. Qed.

Example shrink_1 : Server.shrink 1 = 1.
Proof. reflexivity. Qed.

Lemma readPDFTextChunked_missing fuel filepath chunkSize (d : Fs.Disk) :
  Fs.existsSync filepath d = false ->
  PDFUtils.readPDFTextChunked E fuel filepath chunkSize d
  = Throw ("Failed to read PDF in chunks: " +:+ "PDF file not found: " +:+ filepath).
Proof.
  intros H. unfold PDFUtils.readPDFTextChunked.
  by rewrite (ExtractFacts.load_missing E _ _ H).
Qed.

(** Entered with a positive size, the loop is never left through its
    condition: the code after the loop is not reached. *)
Lemma fit_chunks_never_leaves fuel filepath (d : Fs.Disk) :
  forall currentChunkSize,
    0 < currentChunkSize ->
    Server.fit_chunks E fuel filepath currentChunkSize d <> Ret None.
Proof.
  induction fuel as [|fuel IH]; intros cs Hcs; [done|].
  cbn [Server.fit_chunks].
  destruct (Z.ltb_spec 0 cs) as [_|]; [|lia].
  pose proof (IH _ (shrink_positive cs)) as Hnext.
  destruct (PDFUtils.readPDFTextChunked E fuel filepath cs d) as [[chunks total]|e|];
    [|done|done].
  by destruct (Qle_bool _ _).
Qed.

(** On a file that does not exist every iteration fails and is retried. *)
Lemma fit_chunks_missing_file fuel filepath (d : Fs.Disk) :
  Fs.existsSync filepath d = false ->
  forall currentChunkSize,
    0 < currentChunkSize ->
    Server.fit_chunks E fuel filepath currentChunkSize d = OutOfFuel.
Proof.
  intros Hmissing. induction fuel as [|fuel IH]; intros cs Hcs; [done|].
  cbn [Server.fit_chunks].
  destruct (Z.ltb_spec 0 cs) as [_|]; [|lia].
  rewrite (readPDFTextChunked_missing _ _ _ _ Hmissing).
  apply IH, shrink_positive.
Qed.

(** On a file whose chunked response is over the budget at every size the
    loop tries, every iteration shrinks and retries. *)
Lemma fit_chunks_over_budget fuel filepath (d : Fs.Disk) :
  (forall fuel' cs chunks totalPages,
     PDFUtils.readPDFTextChunked E fuel' filepath cs d = Ret (chunks, totalPages) ->
     Qle_bool
       (inject_Z (Z.of_nat (String.length
          (JSON_stringify E (Server.chunked_response filepath cs totalPages chunks)))) / 4)
       Server.maxTokens = false) ->
  forall currentChunkSize,
    0 < currentChunkSize ->
    Server.fit_chunks E fuel filepath currentChunkSize d = OutOfFuel.
Proof.
  intros Hover. induction fuel as [|fuel IH]; intros cs Hcs; [done|].
  cbn [Server.fit_chunks].
  destruct (Z.ltb_spec 0 cs) as [_|]; [|lia].
  destruct (PDFUtils.readPDFTextChunked E fuel filepath cs d)
    as [[chunks total]|e|] eqn:Hread; [| |done].
  - rewrite (Hover _ _ _ _ Hread). apply IH, shrink_positive.
  - apply IH, shrink_positive.
Qed.

(** The code after the loop runs only for a requested size below one. *)
Lemma read_chunked_fallback fuel filepath chunkSize (d : Fs.Disk) text :
  chunkSize <= 0 ->
  PDFUtils.readPDFText E filepath (Some 1) (Some 1) d = Ret text ->
  exists payload,
    Server.read_chunked E (S fuel) filepath chunkSize d
    = Ret (JSON_stringify E (JObject payload))
    /\ (payload !! 4%nat) = Some ("text", JString (String.substring 0 80000 text))
    /\ (payload !! 5%nat)
       = Some ("truncated", JBool (80000 <? Z.of_nat (String.length text))).
Proof.
  intros Hcs Hread. unfold Server.read_chunked. cbn [Server.fit_chunks].
  destruct (Z.ltb_spec 0 (Z.min chunkSize 2)) as [|_]; [lia|].
  rewrite Hread. eexists. split; [reflexivity|]. by split.
Qed.

End WithEnv.
End FitFacts.

(** C1.  A chunked read of a path at which there is no file gets no answer,
    whatever the fuel: [readPDFTextChunked] fails at every size, the loop
    catches the failure and retries, and the next size after 2 and after 1
    is 1, never 0.  The loop does not end; the code below it, which would
    return the truncated first page, is not reached. *)
Theorem chunked_read_of_missing_file_never_answers (E : Env) (fuel : nat) :
  Server.read_chunked E fuel "/tmp/science_mcp_downloads/missing.pdf" 10
    Sample.disk_with_paper
  = OutOfFuel.
Proof.
  unfold Server.read_chunked.
  rewrite FitFacts.fit_chunks_missing_file; [done| |done].
  vm_compute. reflexivity.
Qed.

(** The same loop on a file that exists: one page whose response is over
    the budget at size 1 gets no answer either. *)
Example chunked_read_over_budget_never_answers (fuel : nat) :
  let E :=
    {| os_tmpdir := "/tmp";
       axios_get := axios_get Sample.env;
       Date_now := Date_now Sample.env;
       arxiv_api := arxiv_api Sample.env;
       url_title_param := url_title_param Sample.env;
       getDocument := getDocument Sample.env;
       JSON_stringify := fun _ => String.concat "" (repeat "0123456789" 6001);
       arxiv_searchPapers := arxiv_searchPapers Sample.env;
       scholar_api := scholar_api Sample.env |} in
  Server.read_chunked E fuel "/tmp/science_mcp_downloads/short.pdf" 10
    Sample.disk_with_paper
  = OutOfFuel.
Proof.
  intros E. unfold Server.read_chunked.
  rewrite FitFacts.fit_chunks_over_budget; [done| |done].
  intros fuel' cs chunks totalPages _. vm_compute. reflexivity.
Qed.

(** ** The tool-call boundary *)

Module HandlerFacts.
Section WithEnv.
Context (E : Env).

Lemma load_answers filepath (d : Fs.Disk) : PDFUtils.load E filepath d <> OutOfFuel.
Proof.
  unfold PDFUtils.load. destruct (Fs.existsSync filepath d); simpl; [|done].
  destruct (Fs.readFileSync filepath d) as [e|data]; [done|].
  by destruct (getDocument E data).
Qed.

Lemma extract_pages_answers doc nums : PDFUtils.extract_pages doc nums <> OutOfFuel.
Proof.
  induction nums as [|k nums IH]; [done|]. cbn [PDFUtils.extract_pages].
  destruct (PDFUtils.getPage doc k) eqn:Hpage; [|done|].
  - by destruct (PDFUtils.extract_pages doc nums).
  - unfold PDFUtils.getPage in Hpage.
    destruct (_ && _); [|done]. by destruct (pages doc !! _).
Qed.

Lemma readPDFText_answers filepath startPage endPage (d : Fs.Disk) :
  PDFUtils.readPDFText E filepath startPage endPage d <> OutOfFuel.
Proof.
  unfold PDFUtils.readPDFText.
  pose proof (load_answers filepath d) as Hload.
  destruct (PDFUtils.load E filepath d) as [doc|e|]; [|done|done].
  pose proof (extract_pages_answers doc
                (PDFUtils.page_range (or_number startPage 1)
                   (Z.min (or_number endPage (numPages doc)) (numPages doc)))) as Hpages.
  by destruct (PDFUtils.extract_pages doc _).
Qed.

Lemma getPDFPageCount_answers filepath (d : Fs.Disk) :
  PDFUtils.getPDFPageCount E filepath d <> OutOfFuel.
Proof.
  unfold PDFUtils.getPDFPageCount.
  pose proof (load_answers filepath d) as Hload.
  by destruct (PDFUtils.load E filepath d).
Qed.

(** With fuel for two nested calls, [downloadPDF] returns. *)
Lemma downloadPDF_answers fuel url filename isRetry w :
  (2 <= fuel)%nat ->
  fst (PDFUtils.downloadPDF E fuel url filename isRetry w) <> OutOfFuel.
Proof.
  destruct fuel as [|[|n]]; [lia|lia|]. intros _.
  rewrite DownloadFacts.downloadPDF_S.
  destruct (PDFUtils.download_try E url filename w) as [[r filename1] w1] eqn:Htry.
  apply DownloadFacts.download_try_effect in Htry as (Hr & _).
  destruct r as [filepath|e|]; [done| |done]. cbn [negb andb].
  destruct (negb isRetry && PDFUtils.isPaywalledSource url); [|done].
  destruct (Js.truthy _) as [paperTitle|]; [|done].
  destruct (PDFUtils.findPaperOnArxiv E paperTitle w1) as [[hop|] w2]; [|done].
  destruct (DownloadFacts.retry_does_not_recurse E n hop filename1 w2) as (-> & Hr3 & _).
  destruct (PDFUtils.downloadPDF E 1 hop filename1 true w2) as [[filepath|e3|] w3]; done.
Qed.

Lemma read_range_answers filepath startPage endPage (d : Fs.Disk) :
  Server.read_range E filepath startPage endPage d <> OutOfFuel.
Proof.
  unfold Server.read_range.
  pose proof (getPDFPageCount_answers filepath d) as Hcount.
  destruct (PDFUtils.getPDFPageCount E filepath d) as [totalPages|e|]; [|done|done].
  match goal with
  | |- context [PDFUtils.readPDFText E filepath ?a ?b d] =>
      pose proof (readPDFText_answers filepath a b d) as Hread;
      by destruct (PDFUtils.readPDFText E filepath a b d)
  end.
Qed.

Lemma download_and_read_answers fuel args w :
  (2 <= fuel)%nat ->
  fst (Server.download_and_read E fuel args w) <> OutOfFuel.
Proof.
  intros Hfuel. unfold Server.download_and_read.
  pose proof (downloadPDF_answers fuel (Server.pdfUrl args) (Server.filename args)
                false w Hfuel) as Hdl.
  destruct (PDFUtils.downloadPDF E fuel _ _ false w) as [[filepath|e|] w1];
    [|done|done].
  pose proof (getPDFPageCount_answers filepath (disk w1)) as Hcount.
  destruct (PDFUtils.getPDFPageCount E filepath (disk w1)) as [totalPages|e|];
    [|done|done].
  match goal with
  | |- context [PDFUtils.readPDFText E filepath ?a ?b ?d] =>
      pose proof (readPDFText_answers filepath a b d) as Hread;
      by destruct (PDFUtils.readPDFText E filepath a b d)
  end.
Qed.

(** The handler has no way to raise: its [catch] turns every exception of
    the [switch] into an error marker. *)
Lemma handler_never_throws fuel name args w e :
  fst (Server.handler E fuel name args w) <> Throw e.
Proof.
  unfold Server.handler.
  by destruct (Server.call_tool E fuel name args w) as [[t|e'|] w1].
Qed.

(** What the handler answers is the text of the [switch] on success, and
    an error marker with the message of the exception otherwise. *)
Lemma handler_answer fuel name args w result :
  fst (Server.handler E fuel name args w) = Ret result ->
  (exists t, fst (Server.call_tool E fuel name args w) = Ret t
             /\ result = {| Server.text := t; Server.isError := false |})
  \/ (exists e, fst (Server.call_tool E fuel name args w) = Throw e
                /\ result = {| Server.text := "Error: " +:+ e; Server.isError := true |}).
Proof.
  unfold Server.handler.
  destruct (Server.call_tool E fuel name args w) as [[t|e|] w1]; simpl; [| |done].
  - intros [= <-]. left. by exists t.
  - intros [= <-]. right. by exists e.
Qed.

(** Every tool call other than a chunked read is answered. *)
Lemma handler_answers_unless_chunked fuel name args w :
  (2 <= fuel)%nat ->
  (name = "read_pdf_text" -> default false (Server.chunked args) = false) ->
  exists result, fst (Server.handler E fuel name args w) = Ret result.
Proof.
  intros Hfuel Hchunked.
  assert (Hcall : fst (Server.call_tool E fuel name args w) <> OutOfFuel).
  { unfold Server.call_tool.
    destruct (String.eqb name "search_arxiv_by_category").
    { unfold Server.search_arxiv_with. by destruct (arxiv_searchPapers E _ _ _ _). }
    destruct (String.eqb name "search_arxiv").
    { unfold Server.search_arxiv_with. by destruct (arxiv_searchPapers E _ _ _ _). }
    destruct (String.eqb name "search_google_scholar").
    { by destruct (GoogleScholarClient.searchPapers E _ _ _ w). }
    destruct (String.eqb name "search_both_sources").
    { unfold Server.search_both.
      destruct (GoogleScholarClient.searchPapers E _ _ _ (bump w)).
      by destruct (arxiv_searchPapers E _ _ _ _). }
    destruct (String.eqb name "download_pdf").
    { pose proof (downloadPDF_answers fuel (Server.pdfUrl args) (Server.filename args)
                    false w Hfuel) as Hdl.
      by destruct (PDFUtils.downloadPDF E fuel _ _ false w) as [[filepath|e|] w1]. }
    destruct (String.eqb_spec name "read_pdf_text") as [Hname|_].
    { rewrite (Hchunked Hname). simpl. apply read_range_answers. }
    destruct (String.eqb name "download_and_read_pdf").
    { by apply download_and_read_answers. }
    destruct (String.eqb name "list_downloaded_pdfs"); [done|].
    destruct (String.eqb name "cleanup_downloads"); [|done].
    unfold PDFUtils.cleanupDownloads.
    destruct (Fs.readdirSync _ _) as [e|files]; [done|].
    by destruct (PDFUtils.unlink_each E files (disk w)). }
  unfold Server.handler.
  destruct (Server.call_tool E fuel name args w) as [[t|e|] w1]; simpl in *;
    [by eexists|by eexists|done].
Qed.

End WithEnv.
End HandlerFacts.

(** C7.  The call [read_pdf_text] with [chunked = true] on a path at which
    there is no file gets no response from the handler, whatever the fuel:
    neither the error marker nor a content payload.  The failure [PDF file
    not found] is caught inside the size-fitting loop, which retries for
    ever, and never reaches the [catch] block that would turn it into an
    error marker. *)
Theorem handler_gives_no_response_to_chunked_read_of_missing_file
    (E : Env) (fuel : nat) :
  Server.handler E fuel "read_pdf_text" Sample.read_missing_chunked
    Sample.world_with_paper
  = (OutOfFuel, Sample.world_with_paper).
Proof.
  unfold Server.handler, Server.call_tool.
  change (String.eqb "read_pdf_text" "search_arxiv_by_category") with false.
  change (String.eqb "read_pdf_text" "search_arxiv") with false.
  change (String.eqb "read_pdf_text" "search_google_scholar") with false.
  change (String.eqb "read_pdf_text" "search_both_sources") with false.
  change (String.eqb "read_pdf_text" "download_pdf") with false.
  change (String.eqb "read_pdf_text" "read_pdf_text") with true.
  cbv beta iota.
  change (default false (Server.chunked Sample.read_missing_chunked)) with true.
  cbv beta iota. unfold Server.read_chunked.
  rewrite FitFacts.fit_chunks_missing_file; [done| |done].
  vm_compute. reflexivity.
Qed.

(** The same call without [chunked] is answered with the error marker. *)
Example plain_read_of_missing_file_is_an_error :
  fst (Server.handler Sample.env 2 "read_pdf_text"
         {| Server.category := ""; Server.query := ""; Server.pdfUrl := "";
            Server.filepath := "/tmp/science_mcp_downloads/missing.pdf";
            Server.filename := None; Server.maxResults := None; Server.sortBy := None;
            Server.startPage := None; Server.endPage := None;
            Server.chunked := None; Server.chunkSize := None |}
         Sample.world_with_paper)
  = Ret {| Server.text :=
             "Error: Failed to get PDF page count: PDF file not found: "
             +:+ "/tmp/science_mcp_downloads/missing.pdf";
           Server.isError := true |}.
Proof. vm_compute. reflexivity. Qed.

(** A name that is not a tool is answered with the error marker. *)
Example unknown_tool_is_an_error :
  fst (Server.handler Sample.env 2 "no_such_tool" Sample.read_missing_chunked
         Sample.world_with_paper)
  = Ret {| Server.text := "Error: Unknown tool: no_such_tool"; Server.isError := true |}.
Proof. vm_compute. reflexivity. Qed.

(** * Further properties of the code *)

(** ** More on the resolved filename *)

Module NameFacts.

Abbreviation sanitize := (Js.replace_chars (fun c => negb (Js.is_filename_char c)) "_").

Lemma append_cons c s t : String c s +:+ t = String c (s +:+ t).
Proof. reflexivity. Qed.

Lemma replace_chars_app in_class c s t :
  Js.replace_chars in_class c (s +:+ t)
  = Js.replace_chars in_class c s +:+ Js.replace_chars in_class c t.
Proof.
  induction s as [|a s IH]; [done|].
  rewrite append_cons. cbn [Js.replace_chars]. by rewrite IH, append_cons.
Qed.

Lemma endsWith_inv s suf : Js.endsWith s suf = true -> exists pre, s = pre +:+ suf.
Proof.
  induction s as [|c s IH]; cbn [Js.endsWith].
  - destruct (String.eqb_spec "" suf) as [<-|]; [|done]. by exists "".
  - destruct (String.eqb_spec (String c s) suf) as [<-|].
    + by exists "".
    + intros [pre ->]%IH. by exists (String c pre).
Qed.

Lemma sanitize_chars s : string_forall Js.is_filename_char (sanitize s) = true.
Proof.
  induction s as [|a s IH]; [done|]. cbn [Js.replace_chars string_forall].
  rewrite IH, andb_true_r. by destruct (Js.is_filename_char a) eqn:Ha.
Qed.

Lemma sanitize_fixed s : string_forall Js.is_filename_char s = true -> sanitize s = s.
Proof.
  induction s as [|a s IH]; [done|]. cbn [Js.replace_chars string_forall].
  intros [Ha Hs]%andb_true_iff. by rewrite Ha, (IH Hs).
Qed.

Lemma sanitize_endsWith s : Js.endsWith s ".pdf" = true -> Js.endsWith (sanitize s) ".pdf" = true.
Proof.
  intros [pre ->]%endsWith_inv. rewrite replace_chars_app.
  by apply JsFacts.endsWith_app.
Qed.

Lemma with_ext_endsWith named :
  Js.endsWith (if Js.endsWith named ".pdf" then named else named +:+ ".pdf") ".pdf" = true.
Proof.
  destruct (Js.endsWith named ".pdf") eqn:H; [done|]. by apply JsFacts.endsWith_app.
Qed.

Lemma resolveFilename_resolved (E : Env) url hint w :
  resolved_name (fst (PDFUtils.resolveFilename E url hint w)).
Proof.
  unfold PDFUtils.resolveFilename.
  destruct (match Js.truthy hint with Some f => _ | None => _ end) as [named w1].
  split; [apply sanitize_endsWith, with_ext_endsWith | apply sanitize_chars].
Qed.

(** A hint that is already a resolved name is taken as it is. *)
Lemma resolveFilename_of_resolved (E : Env) url name w :
  resolved_name name -> PDFUtils.resolveFilename E url (Some name) w = (name, w).
Proof.
  intros [Hpdf Hchars]. unfold PDFUtils.resolveFilename.
  destruct name as [|c name]; [done|]. cbn [Js.truthy].
  by rewrite Hpdf, (sanitize_fixed _ Hchars).
Qed.

End NameFacts.

(** X1.  Whatever the URL and the hint, the name that [resolveFilename]
    answers ends with [.pdf], holds only characters of [[a-zA-Z0-9._-]],
    and so has no slash: joined to the downloads directory it names an
    entry of that directory itself. *)
Theorem resolveFilename_shape (E : Env) (url : string) (hint : option string) (w : World) :
  let name := fst (PDFUtils.resolveFilename E url hint w) in
  Js.endsWith name ".pdf" = true
  /\ string_forall Js.is_filename_char name = true
  /\ Fs.no_slash name = true
  /\ Fs.dirname (Fs.join (PDFUtils.downloadsDir E) name) = PDFUtils.downloadsDir E
  /\ Fs.basename (Fs.join (PDFUtils.downloadsDir E) name) = name.
Proof.
  intros name. destruct (NameFacts.resolveFilename_resolved E url hint w) as [Hpdf Hchars].
  pose proof (resolveFilename_safe E url hint w) as Hsafe.
  split; [exact Hpdf|]. split; [exact Hchars|]. split; [exact Hsafe|].
  split; [by apply FsFacts.dirname_join | by apply FsFacts.basename_join].
Qed.

(** X2.  Resolving is idempotent: a name that [resolveFilename] answered,
    given back as the hint with any URL, is answered unchanged and the clock
    is not read.  This is what the fallback relies on when it passes the
    name of the first attempt to the retry. *)
Theorem resolveFilename_idempotent (E : Env) (url url' : string) (hint : option string)
    (w w' : World) :
  PDFUtils.resolveFilename E url'
    (Some (fst (PDFUtils.resolveFilename E url hint w))) w'
  = (fst (PDFUtils.resolveFilename E url hint w), w').
Proof.
  apply NameFacts.resolveFilename_of_resolved, NameFacts.resolveFilename_resolved.
Qed.

(** ** More on the download state machine *)

Module DownloadMore.
Section WithEnv.
Context (E : Env).

Lemma only_touches_same name w w' : disk w' = disk w -> only_touches E name w w'.
Proof. intros H. unfold only_touches, storage. rewrite H. by repeat split. Qed.

Lemma only_touches_trans name w1 w2 w3 :
  only_touches E name w1 w2 -> only_touches E name w2 w3 -> only_touches E name w1 w3.
Proof.
  intros (Ha & Hb & Hc) (Ha' & Hb' & Hc'). split; [|split].
  - intros dir Hdir. by rewrite Ha', Ha.
  - by rewrite Hb', Hb.
  - intros other Hother. by rewrite Hc', Hc.
Qed.

Lemma only_touches_disk name w1 w2 w1' w2' :
  disk w1' = disk w1 -> disk w2' = disk w2 ->
  only_touches E name w1 w2 -> only_touches E name w1' w2'.
Proof. unfold only_touches, storage. by intros -> ->. Qed.

Lemma only_touches_entry name entries entries' w w' :
  disk w !! PDFUtils.downloadsDir E = Some entries ->
  disk w' = <[PDFUtils.downloadsDir E := entries']> (disk w) ->
  (forall other, other <> name -> entries' !! other = entries !! other) ->
  only_touches E name w w'.
Proof.
  intros Hdir Hdisk Hsame. unfold only_touches, storage, Fs.entries_of.
  rewrite Hdisk, Hdir, lookup_insert_eq. split; [|split].
  - intros dir Hne. by rewrite lookup_insert_ne.
  - split; by eexists.
  - exact Hsame.
Qed.

(** The [try] block either leaves the disk alone and fails, or stores the
    fetched bytes under the resolved name and then keeps or deletes them. *)
Lemma try_outcome url filename w r filename1 w1 :
  PDFUtils.download_try E url filename w = (r, filename1, w1) ->
  let name := fst (PDFUtils.resolveFilename E url filename (log_request url (bump w))) in
  (disk w1 = disk w /\ (exists e, r = Throw e))
  \/ (exists entries data,
        disk w !! PDFUtils.downloadsDir E = Some entries
        /\ axios_get E (tick w) url = inr data
        /\ filename1 = Some name
        /\ ((r = Ret (Fs.join (PDFUtils.downloadsDir E) name)
             /\ PDFUtils.has_pdf_signature data = true
             /\ disk w1 = <[PDFUtils.downloadsDir E := <[name := data]> entries]> (disk w))
            \/ (r = Throw "Downloaded file is not a valid PDF"
                /\ PDFUtils.has_pdf_signature data = false
                /\ disk w1 = <[PDFUtils.downloadsDir E := delete name entries]> (disk w)))).
Proof.
  intros Htry name. pose proof (DownloadFacts.download_try_cases E url filename w) as Hcases.
  simpl in Hcases. fold name in Hcases.
  destruct (DownloadFacts.resolveFilename_world E url filename (log_request url (bump w)))
    as [Hdisk _].
  destruct (axios_get E (tick w) url) as [e|data].
  { rewrite Hcases in Htry. injection Htry as <- <- <-. left. split; [done|by eexists]. }
  destruct (disk w !! PDFUtils.downloadsDir E) as [entries|] eqn:Hdir.
  2:{ destruct Hcases as [e He]. rewrite He in Htry. injection Htry as <- <- <-.
      left. split; [by rewrite Hdisk|by eexists]. }
  destruct (Fs.is_directory _ (disk w)).
  { destruct Hcases as [e He]. rewrite He in Htry. injection Htry as <- <- <-.
    left. split; [by rewrite Hdisk|by eexists]. }
  right. exists entries, data. split; [done|]. split; [done|].
  destruct (PDFUtils.has_pdf_signature data);
    rewrite Hcases in Htry; injection Htry as <- <- <-; (split; [done|]).
  - left. by repeat split.
  - right. by repeat split.
Qed.

Lemma try_touches url filename w r filename1 w1 :
  PDFUtils.download_try E url filename w = (r, filename1, w1) ->
  only_touches E
    (fst (PDFUtils.resolveFilename E url filename (log_request url (bump w)))) w w1.
Proof.
  intros Htry. destruct (try_outcome _ _ _ _ _ _ Htry)
    as [[Hdisk _]|(entries & data & Hdir & _ & _ & [(_ & _ & Hdisk)|(_ & _ & Hdisk)])].
  - by apply only_touches_same.
  - apply (only_touches_entry _ _ _ _ _ Hdir Hdisk).
    intros other Hne. by rewrite lookup_insert_ne.
  - apply (only_touches_entry _ _ _ _ _ Hdir Hdisk).
    intros other Hne. by rewrite lookup_delete_ne.
Qed.

(** A call with [isRetry = true] is one pass through the [try] block. *)
Lemma retry_is_try n url filename w :
  PDFUtils.downloadPDF E (S n) url filename true w =
  match PDFUtils.download_try E url filename w with
  | (Ret filepath, _, w1) => (Ret filepath, w1)
  | (Throw e, _, w1) => (Throw ("Failed to download PDF: " +:+ e), w1)
  | (OutOfFuel, _, w1) => (OutOfFuel, w1)
  end.
Proof.
  rewrite DownloadFacts.downloadPDF_S.
  by destruct (PDFUtils.download_try E url filename w) as [[[filepath|e|] filename1] w1].
Qed.

(** A successful call ends with a successful pass through the [try] block. *)
Lemma success_is_a_try fuel :
  forall url filename isRetry w filepath w',
    PDFUtils.downloadPDF E fuel url filename isRetry w = (Ret filepath, w') ->
    exists url0 filename0 w0 filename1,
      PDFUtils.download_try E url0 filename0 w0 = (Ret filepath, filename1, w').
Proof.
  induction fuel as [|fuel IH]; intros url filename isRetry w filepath w'; [done|].
  rewrite DownloadFacts.downloadPDF_S.
  destruct (PDFUtils.download_try E url filename w) as [[r1 filename1] w1] eqn:Htry.
  destruct r1 as [filepath1|e1|]; [|cbn [negb andb]|done].
  { intros [= <- <-]. by eexists _, _, _, _. }
  destruct (negb isRetry && PDFUtils.isPaywalledSource url); [|done].
  destruct (Js.truthy _) as [paperTitle|]; [|done].
  destruct (PDFUtils.findPaperOnArxiv E paperTitle w1) as [[hop|] w2]; [|done].
  destruct (PDFUtils.downloadPDF E fuel hop filename1 true w2) as [r3 w3] eqn:Hretry.
  destruct r3 as [filepath3|e3|]; [|done|done].
  intros [= <- <-]. by eapply IH.
Qed.

(** Whatever the outcome, at most one entry of the downloads directory is
    changed. *)
Lemma downloadPDF_touches fuel url filename isRetry w r w' :
  PDFUtils.downloadPDF E fuel url filename isRetry w = (r, w') ->
  exists name, only_touches E name w w'.
Proof.
  destruct fuel as [|fuel].
  { intros [= <- <-]. exists "". by apply only_touches_same. }
  rewrite DownloadFacts.downloadPDF_S.
  destruct (PDFUtils.download_try E url filename w) as [[r1 filename1] w1] eqn:Htry.
  pose proof (try_touches _ _ _ _ _ _ Htry) as Htouch.
  pose proof (try_outcome _ _ _ _ _ _ Htry) as Hout. cbv zeta in Hout.
  set (name := fst (PDFUtils.resolveFilename E url filename (log_request url (bump w)))) in *.
  destruct r1 as [filepath1|e1|]; [|cbn [negb andb]|].
  { intros [= <- <-]. by exists name. }
  2:{ intros [= <- <-]. by exists name. }
  destruct (negb isRetry && PDFUtils.isPaywalledSource url);
    [|intros [= <- <-]; by exists name].
  destruct (Js.truthy _) as [paperTitle|]; [|intros [= <- <-]; by exists name].
  destruct (DownloadFacts.findPaperOnArxiv_world E paperTitle w1) as [Hdisk2 _].
  destruct (PDFUtils.findPaperOnArxiv E paperTitle w1) as [[hop|] w2]; simpl in Hdisk2.
  2:{ intros [= <- <-]. exists name.
      by apply (only_touches_disk name w w1 w w2). }
  assert (Hstep : forall w3 name3,
            only_touches E name3 w2 w3 ->
            (name3 = name \/ disk w1 = disk w) ->
            exists name', only_touches E name' w w3).
  { intros w3 name3 Htouch3 [->|Hsame].
    - exists name. apply (only_touches_trans name w w1 w3); [done|].
      by apply (only_touches_disk name w2 w3 w1 w3).
    - exists name3. apply (only_touches_disk name3 w2 w3 w w3); [|done|done].
      by rewrite Hdisk2. }
  destruct fuel as [|n].
  { cbn [PDFUtils.downloadPDF]. intros [= <- <-]. exists name.
    by apply (only_touches_disk name w w1 w w2). }
  rewrite retry_is_try.
  destruct (PDFUtils.download_try E hop filename1 w2) as [[r3 filename3] w3] eqn:Htry3.
  pose proof (try_touches _ _ _ _ _ _ Htry3) as Htouch3.
  assert (Hname : fst (PDFUtils.resolveFilename E hop filename1 (log_request hop (bump w2)))
                  = name \/ disk w1 = disk w).
  { destruct Hout as [[Hsame _]|(entries & data & _ & _ & -> & _)]; [by right|left].
    fold name. rewrite NameFacts.resolveFilename_of_resolved; [done|].
    apply NameFacts.resolveFilename_resolved. }
  destruct r3 as [filepath3|e3|]; intros [= <- <-]; by eapply Hstep.
Qed.

(** Without the downloads directory nothing is stored and no call
    succeeds. *)
Lemma downloadPDF_without_directory fuel :
  forall url filename isRetry w r w',
    disk w !! PDFUtils.downloadsDir E = None ->
    PDFUtils.downloadPDF E fuel url filename isRetry w = (r, w') ->
    disk w' = disk w /\ forall filepath, r <> Ret filepath.
Proof.
  induction fuel as [|fuel IH]; intros url filename isRetry w r w' Hnone.
  { by intros [= <- <-]. }
  rewrite DownloadFacts.downloadPDF_S.
  destruct (PDFUtils.download_try E url filename w) as [[r1 filename1] w1] eqn:Htry.
  destruct (try_outcome _ _ _ _ _ _ Htry) as [[Hsame [e ->]]|(entries & ? & Hdir & _)];
    [|by rewrite Hnone in Hdir].
  cbn [negb andb].
  destruct (negb isRetry && PDFUtils.isPaywalledSource url); [|by intros [= <- <-]].
  destruct (Js.truthy _) as [paperTitle|]; [|by intros [= <- <-]].
  destruct (DownloadFacts.findPaperOnArxiv_world E paperTitle w1) as [Hdisk2 _].
  destruct (PDFUtils.findPaperOnArxiv E paperTitle w1) as [[hop|] w2]; simpl in Hdisk2.
  2:{ intros [= <- <-]. by rewrite Hdisk2, Hsame. }
  destruct (PDFUtils.downloadPDF E fuel hop filename1 true w2) as [r3 w3] eqn:Hretry.
  apply IH in Hretry as [Hdisk3 Hfail]; [|by rewrite Hdisk2, Hsame].
  destruct r3 as [filepath3|e3|]; [by destruct (Hfail filepath3)| |];
    intros [= <- <-]; by rewrite Hdisk3, Hdisk2, Hsame.
Qed.

End WithEnv.
End DownloadMore.

(** The path that a successful pass through the [try] block returns is the
    path of a file. *)
Lemma try_success_file (E : Env) url filename w filepath filename1 w1 :
  PDFUtils.download_try E url filename w = (Ret filepath, filename1, w1) ->
  Fs.is_directory filepath (disk w1) = false.
Proof.
  intros Htry. pose proof (DownloadFacts.download_try_cases E url filename w) as Hcases.
  simpl in Hcases.
  destruct (axios_get E (tick w) url) as [e|data]; [by rewrite Hcases in Htry|].
  destruct (disk w !! PDFUtils.downloadsDir E) as [entries|] eqn:Hdir;
    [|destruct Hcases as [e He]; by rewrite He in Htry].
  destruct (Fs.is_directory _ (disk w)) eqn:Hfile;
    [destruct Hcases as [e He]; by rewrite He in Htry|].
  destruct (PDFUtils.has_pdf_signature data); rewrite Hcases in Htry; [|done].
  injection Htry as <- <- <-. simpl. by rewrite FsFacts.is_directory_insert.
Qed.

Lemma success_is_a_file (E : Env) fuel url filename isRetry w filepath w' :
  PDFUtils.downloadPDF E fuel url filename isRetry w = (Ret filepath, w') ->
  Fs.is_directory filepath (disk w') = false.
Proof.
  intros (url0 & filename0 & w0 & filename1 & Htry)%DownloadMore.success_is_a_try.
  by eapply try_success_file.
Qed.

(** What a successful call leaves on disk. *)
Lemma success_stored (E : Env) fuel url filename isRetry w filepath w' :
  PDFUtils.downloadPDF E fuel url filename isRetry w = (Ret filepath, w') ->
  exists name data entries,
    filepath = Fs.join (PDFUtils.downloadsDir E) name
    /\ resolved_name name
    /\ Fs.no_slash name = true
    /\ disk w' !! PDFUtils.downloadsDir E = Some entries
    /\ entries !! name = Some data
    /\ PDFUtils.has_pdf_signature data = true
    /\ exists t u, axios_get E t u = inr data.
Proof.
  intros (url0 & filename0 & w0 & filename1 & Htry)%DownloadMore.success_is_a_try.
  destruct (DownloadMore.try_outcome E _ _ _ _ _ _ Htry)
    as [[_ [e He]]|(entries & data & Hdir & Hget & _
                    & [(Hret & Hsig & Hdisk)|(Hthrow & _)])]; [done| |done].
  injection Hret as ->.
  exists (fst (PDFUtils.resolveFilename E url0 filename0 (log_request url0 (bump w0)))),
         data, (<[fst (PDFUtils.resolveFilename E url0 filename0
                        (log_request url0 (bump w0))) := data]> entries).
  split; [done|]. split; [apply NameFacts.resolveFilename_resolved|].
  split; [apply resolveFilename_safe|].
  rewrite Hdisk, !lookup_insert_eq. repeat split; [done|by eexists _, _].
Qed.

(** X3.  When [downloadPDF] succeeds, the path it returns is the downloads
    directory joined with a name ending in [.pdf]; the file at that path
    exists, holds bytes that some request fetched, passes [isValidPDF], and
    is among the paths that [listDownloadedPDFs] returns. *)
Theorem download_success_stores_valid_pdf (E : Env) (fuel : nat) (url : string)
    (filename : option string) (isRetry : bool) (w : World) (filepath : string) (w' : World) :
  PDFUtils.downloadPDF E fuel url filename isRetry w = (Ret filepath, w') ->
  exists name data,
    filepath = Fs.join (PDFUtils.downloadsDir E) name
    /\ Js.endsWith name ".pdf" = true
    /\ Fs.readFileSync filepath (disk w') = inr data
    /\ (exists t u, axios_get E t u = inr data)
    /\ PDFUtils.isValidPDF filepath w' = (true, w')
    /\ filepath ∈ PDFUtils.listDownloadedPDFs E (disk w').
Proof.
  intros Hrun. pose proof (success_is_a_file _ _ _ _ _ _ _ _ Hrun) as Hfile.
  destruct (success_stored _ _ _ _ _ _ _ _ Hrun)
    as (name & data & entries & -> & [Hpdf _] & Hsafe & Hdir & Hname & Hsig & Hget).
  assert (Hread : Fs.readFileSync (Fs.join (PDFUtils.downloadsDir E) name) (disk w')
                  = inr data).
  { apply (FsFacts.readFileSync_join _ _ _ _ Hsafe Hfile). unfold Fs.entries_of.
    by rewrite Hdir. }
  exists name, data. split; [done|]. split; [done|]. split; [done|]. split; [done|].
  split.
  - unfold PDFUtils.isValidPDF. by rewrite Hread, Hsig.
  - unfold PDFUtils.listDownloadedPDFs, Fs.readdirSync. rewrite Hdir.
    apply list_elem_of_fmap. exists name. split; [done|].
    apply list_elem_of_In, filter_In. split; [|done].
    apply list_elem_of_In, elem_of_app. right.
    apply list_elem_of_fmap. exists (name, data).
    split; [done|]. by apply elem_of_map_to_list.
Qed.

Lemma download_success_stores_valid_pdf_witness :
  exists w',
    PDFUtils.downloadPDF Sample.env 2 "https://example.org/paper.pdf" None false
      Sample.empty_world = (Ret "/tmp/science_mcp_downloads/paper.pdf", w')
    /\ exists name data,
         "/tmp/science_mcp_downloads/paper.pdf"
         = Fs.join (PDFUtils.downloadsDir Sample.env) name
         /\ Js.endsWith name ".pdf" = true
         /\ Fs.readFileSync "/tmp/science_mcp_downloads/paper.pdf" (disk w') = inr data
         /\ (exists t u, axios_get Sample.env t u = inr data)
         /\ PDFUtils.isValidPDF "/tmp/science_mcp_downloads/paper.pdf" w' = (true, w')
         /\ "/tmp/science_mcp_downloads/paper.pdf"
            ∈ PDFUtils.listDownloadedPDFs Sample.env (disk w').
Proof.
  destruct (PDFUtils.downloadPDF Sample.env 2 "https://example.org/paper.pdf" None false
              Sample.empty_world) as [r w'] eqn:Hrun.
  assert (Hr : r = Ret "/tmp/science_mcp_downloads/paper.pdf").
  { vm_compute in Hrun. by injection Hrun as <- _. }
  subst r. exists w'. split; [reflexivity|].
  exact (download_success_stores_valid_pdf Sample.env 2 "https://example.org/paper.pdf"
           None false Sample.empty_world _ w' Hrun).
Defined.

(** X4.  Whatever its outcome, and also when the fallback runs, a call of
    [downloadPDF] changes at most one entry of the downloads directory:
    every other directory is as before, the downloads directory is neither
    created nor removed, and every entry under another name is as before. *)
Theorem download_changes_at_most_one_entry (E : Env) (fuel : nat) (url : string)
    (filename : option string) (isRetry : bool) (w : World) (r : res string) (w' : World) :
  PDFUtils.downloadPDF E fuel url filename isRetry w = (r, w') ->
  exists name, only_touches E name w w'.
Proof. apply DownloadMore.downloadPDF_touches. Qed.

Lemma download_changes_at_most_one_entry_witness :
  exists r w' name,
    PDFUtils.downloadPDF Sample.env 2 "https://sciencedirect.com/paper123.pdf"
      (Some "Attention Is All You Need") false Sample.world_with_paper = (r, w')
    /\ only_touches Sample.env name Sample.world_with_paper w'.
Proof.
  destruct (PDFUtils.downloadPDF Sample.env 2 "https://sciencedirect.com/paper123.pdf"
              (Some "Attention Is All You Need") false Sample.world_with_paper)
    as [r w'] eqn:Hrun.
  destruct (download_changes_at_most_one_entry Sample.env 2
              "https://sciencedirect.com/paper123.pdf" (Some "Attention Is All You Need")
              false Sample.world_with_paper r w' Hrun) as [name Hname].
  exists r, w', name. split; [reflexivity|exact Hname].
Defined.

(** X5.  When the downloads directory does not exist, every call of
    [downloadPDF] fails with an error and leaves the disk as it was: the
    directory is created by the constructor only, never by a download. *)
Theorem download_needs_the_directory (E : Env) (fuel : nat) (url : string)
    (filename : option string) (isRetry : bool) (w : World) :
  (2 <= fuel)%nat ->
  disk w !! PDFUtils.downloadsDir E = None ->
  exists e w',
    PDFUtils.downloadPDF E fuel url filename isRetry w = (Throw e, w')
    /\ disk w' = disk w.
Proof.
  intros Hfuel Hnone.
  pose proof (HandlerFacts.downloadPDF_answers E fuel url filename isRetry w Hfuel) as Hans.
  destruct (PDFUtils.downloadPDF E fuel url filename isRetry w) as [r w'] eqn:Hrun.
  destruct (DownloadMore.downloadPDF_without_directory E _ _ _ _ _ _ _ Hnone Hrun)
    as [Hdisk Hfail].
  destruct r as [filepath|e|]; [by destruct (Hfail filepath)| |done].
  by exists e, w'.
Qed.

Lemma download_needs_the_directory_witness :
  (2 <= 2)%nat
  /\ disk Sample.bare_world !! PDFUtils.downloadsDir Sample.env = None
  /\ exists e w',
       PDFUtils.downloadPDF Sample.env 2 "https://example.org/paper.pdf" None false
         Sample.bare_world = (Throw e, w')
       /\ disk w' = disk Sample.bare_world.
Proof.
  assert (Hfuel : (2 <= 2)%nat) by lia.
  assert (Hnone : disk Sample.bare_world !! PDFUtils.downloadsDir Sample.env = None)
    by (vm_compute; reflexivity).
  split; [exact Hfuel|]. split; [exact Hnone|].
  exact (download_needs_the_directory Sample.env 2 "https://example.org/paper.pdf" None
           false Sample.bare_world Hfuel Hnone).
Defined.

(** X6.  The error of a failed [downloadPDF] is [Failed to download PDF: ]
    followed by the message of the failure of its own [try] block: when a
    fallback was tried and failed too, the failure of the fallback is not
    what is reported.  For a retry, or a URL that is not paywalled, the
    world it leaves is the one the [try] block left. *)
Theorem download_error_names_first_failure (E : Env) (fuel : nat) (url : string)
    (filename : option string) (isRetry : bool) (w : World) (msg : string) (w' : World) :
  PDFUtils.downloadPDF E fuel url filename isRetry w = (Throw msg, w') ->
  exists e filename1 w1,
    PDFUtils.download_try E url filename w = (Throw e, filename1, w1)
    /\ msg = "Failed to download PDF: " +:+ e
    /\ (isRetry = true \/ PDFUtils.isPaywalledSource url = false -> w' = w1).
Proof.
  destruct fuel as [|fuel]; [done|]. rewrite DownloadFacts.downloadPDF_S.
  destruct (PDFUtils.download_try E url filename w) as [[r1 filename1] w1] eqn:Htry.
  destruct r1 as [filepath1|e1|]; [done|cbn [negb andb]|done].
  intros Hrun. exists e1, filename1, w1. split; [done|].
  destruct (negb isRetry && PDFUtils.isPaywalledSource url) eqn:Hcond.
  - assert (Hno : ~ (isRetry = true \/ PDFUtils.isPaywalledSource url = false)).
    { apply andb_true_iff in Hcond as [Hretry Hpay]. intros [->| Hpay']; [done|].
      by rewrite Hpay' in Hpay. }
    destruct (Js.truthy _) as [paperTitle|]; [|by injection Hrun as <- <-].
    destruct (PDFUtils.findPaperOnArxiv E paperTitle w1) as [[hop|] w2];
      [|by injection Hrun as <- <-].
    destruct (PDFUtils.downloadPDF E fuel hop filename1 true w2) as [[filepath3|e3|] w3];
      [done| |done].
    by injection Hrun as <- <-.
  - by injection Hrun as <- <-.
Qed.

Lemma download_error_names_first_failure_witness :
  exists w' e filename1 w1,
    PDFUtils.downloadPDF Sample.env 2 "https://example.org/page.html" None false
      Sample.empty_world
    = (Throw "Failed to download PDF: Downloaded file is not a valid PDF", w')
    /\ PDFUtils.download_try Sample.env "https://example.org/page.html" None
         Sample.empty_world = (Throw e, filename1, w1)
    /\ "Failed to download PDF: Downloaded file is not a valid PDF"
       = "Failed to download PDF: " +:+ e.
Proof.
  destruct (PDFUtils.downloadPDF Sample.env 2 "https://example.org/page.html" None false
              Sample.empty_world) as [r w'] eqn:Hrun.
  assert (Hr : r = Throw "Failed to download PDF: Downloaded file is not a valid PDF").
  { vm_compute in Hrun. by injection Hrun as <- _. }
  subst r.
  destruct (download_error_names_first_failure Sample.env 2 "https://example.org/page.html"
              None false Sample.empty_world _ w' Hrun) as (e & filename1 & w1 & Htry & Hmsg & _).
  exists w', e, filename1, w1.
  split; [reflexivity|]. split; [exact Htry|exact Hmsg].
Defined.

(** ** More on page extraction *)

Module TextFacts.

Lemma append_assoc s t u : (s +:+ t) +:+ u = s +:+ t +:+ u.
Proof.
  induction s as [|c s IH]; [done|].
  by rewrite !NameFacts.append_cons, IH.
Qed.

Lemma append_nil_r s : s +:+ "" = s.
Proof. induction s as [|c s IH]; [done|]. by rewrite NameFacts.append_cons, IH. Qed.

Lemma concat_cons sep x l :
  l <> [] -> String.concat sep (x :: l) = x +:+ sep +:+ String.concat sep l.
Proof. by destruct l. Qed.

Lemma concat_app sep l1 l2 :
  l1 <> [] -> l2 <> [] ->
  String.concat sep (l1 ++ l2)%list
  = String.concat sep l1 +:+ sep +:+ String.concat sep l2.
Proof.
  intros H1 H2. induction l1 as [|x l1 IH]; [done|].
  destruct l1 as [|y l1].
  - by apply concat_cons.
  - change ((x :: y :: l1) ++ l2)%list with (x :: ((y :: l1) ++ l2))%list.
    rewrite concat_cons by done. rewrite IH by done.
    rewrite (concat_cons sep x (y :: l1)) by done.
    by rewrite !append_assoc.
Qed.

(** Joining the joined parts is joining all of it. *)
Lemma concat_concat {A} sep (f : A -> string) (rs : list (list A)) :
  Forall (fun r => r <> []) rs ->
  String.concat sep (map (fun r => String.concat sep (map f r)) rs)
  = String.concat sep (map f (concat rs)).
Proof.
  induction 1 as [|r rs Hr Hrs IH]; [done|].
  destruct rs as [|r' rs].
  - cbn [map concat String.concat]. by rewrite app_nil_r.
  - assert (concat (r' :: rs) <> []) as Hne.
    { apply Forall_cons in Hrs as [Hr' _]. destruct r'; [done|]. done. }
    change (map (fun r0 => String.concat sep (map f r0)) (r :: r' :: rs))
      with (String.concat sep (map f r)
              :: map (fun r0 => String.concat sep (map f r0)) (r' :: rs)).
    rewrite concat_cons by done. rewrite IH.
    change (concat (r :: r' :: rs)) with (r ++ concat (r' :: rs))%list.
    rewrite map_app, concat_app; [done| |].
    + by destruct r.
    + by destruct (concat (r' :: rs)).
Qed.

Lemma page_range_nonempty first last : first <= last -> PDFUtils.page_range first last <> [].
Proof. intros H. by rewrite ExtractFacts.page_range_cons. Qed.

(** The text of a range is the text of its two halves with a blank line
    between them. *)
Lemma range_text_split doc first mid last :
  first <= mid -> mid < last ->
  range_text doc first last
  = range_text doc first mid +:+ (Js.nl +:+ Js.nl) +:+ range_text doc (mid + 1) last.
Proof.
  intros H1 H2. unfold range_text.
  rewrite <-(ExtractFacts.page_range_app first mid last) by lia.
  rewrite map_app. apply concat_app.
  - rewrite ExtractFacts.page_range_cons by lia. done.
  - rewrite ExtractFacts.page_range_cons by lia. done.
Qed.

Section WithEnv.
Context (E : Env).

(** Reading without bounds reads every page. *)
Lemma readPDFText_whole filepath (d : Fs.Disk) data doc :
  Fs.readFileSync filepath d = inr data ->
  getDocument E data = inr doc ->
  PDFUtils.readPDFText E filepath None None d = Ret (range_text doc 1 (numPages doc)).
Proof.
  intros Hread Hdoc. unfold PDFUtils.readPDFText.
  rewrite (ExtractFacts.load_readable E _ _ _ _ Hread Hdoc).
  cbn [or_number]. rewrite Z.min_id.
  rewrite ExtractFacts.extract_pages_valid; [done|].
  intros k Hk%ExtractFacts.elem_of_page_range. lia.
Qed.


(** The chunks that [readPDFTextChunked] returns. *)
Lemma readPDFTextChunked_chunks filepath (d : Fs.Disk) data doc chunkSize fuel :
  Fs.readFileSync filepath d = inr data ->
  getDocument E data = inr doc ->
  1 <= numPages doc -> 1 <= chunkSize ->
  (Z.to_nat (numPages doc) < fuel)%nat ->
  PDFUtils.readPDFTextChunked E fuel filepath chunkSize d
  = Ret (map (fun i => range_text doc (i * chunkSize + 1)
                         (Z.min ((i + 1) * chunkSize) (numPages doc)))
           (seqZ 0 ((numPages doc + chunkSize - 1) / chunkSize)),
         numPages doc).
Proof.
  intros Hread Hdoc Htotal Hcs Hfuel. unfold PDFUtils.readPDFTextChunked.
  rewrite (ExtractFacts.load_readable E _ _ _ _ Hread Hdoc).
  destruct (Z.eqb_spec (numPages doc) 0) as [H0|_]; [lia|].
  pose proof (ChunkFacts.read_chunks_from E filepath d data doc chunkSize
                Hread Hdoc Hcs fuel 0) as Hloop.
  change (0 * chunkSize + 1) with 1 in Hloop.
  assert (0 <= (numPages doc + chunkSize - 1) / chunkSize) by (apply Z.div_pos; lia).
  rewrite Hloop by lia.
  by replace ((numPages doc + chunkSize - 1) / chunkSize - 0)
    with ((numPages doc + chunkSize - 1) / chunkSize) by lia.
Qed.

End WithEnv.
End TextFacts.



(** ** The fallback resolver and the constructor *)

Lemma first_pdf_link_Some (entries : list FeedEntry) u :
  PDFUtils.first_pdf_link entries = Some u ->
  u <> "" /\ exists links rest,
               entries = links :: rest /\ ("application/pdf", u) ∈ links.
Proof.
  destruct entries as [|links rest]; [done|]. cbn [PDFUtils.first_pdf_link].
  destruct (List.find _ links) as [[ty href]|] eqn:Hfind; [|done].
  apply find_some in Hfind as [Hin Hty]. apply String.eqb_eq in Hty. simpl in Hty.
  subst ty. cbn. destruct href as [|c href]; [done|]. intros [= <-].
  split; [done|]. exists links, rest. split; [done|]. by apply list_elem_of_In.
Qed.

(** X8.  [findPaperOnArxiv] is best effort: it never fails and never
    touches the disk; it queries the arXiv API once, and a second time only
    when the first answer has no entry; a failing API gives no result; and a
    result is never the empty string but the [href] of a link of type
    [application/pdf] of the first entry of an answer. *)
Theorem findPaperOnArxiv_best_effort (E : Env) (title : string) (w : World) :
  let found := fst (PDFUtils.findPaperOnArxiv E title w) in
  let w' := snd (PDFUtils.findPaperOnArxiv E title w) in
  let quoted := "ti:" +:+ PDFUtils.dquote +:+ title +:+ PDFUtils.dquote in
  disk w' = disk w
  /\ (tick w' = S (tick w)
      \/ (tick w' = S (S (tick w)) /\ arxiv_api E (tick w) quoted = inr None))
  /\ (forall e, arxiv_api E (tick w) quoted = inl e -> found = None)
  /\ (forall u, found = Some u ->
        u <> ""
        /\ exists t q links rest,
             arxiv_api E t q = inr (Some (links :: rest))
             /\ ("application/pdf", u) ∈ links).
Proof.
  intros found w' quoted. subst found w'. unfold PDFUtils.findPaperOnArxiv. fold quoted.
  destruct (arxiv_api E (tick w) quoted) as [e|[entries|]] eqn:Hfirst.
  - split; [done|]. split; [by left|]. by split.
  - split; [done|]. split; [by left|]. split; [done|].
    intros u [Hu (links & rest & -> & Hin)]%first_pdf_link_Some.
    split; [done|]. by eexists _, _, _, _.
  - destruct (arxiv_api E (tick (bump w)) _) as [e|[entries|]] eqn:Hsecond.
    + split; [done|]. split; [by right|]. by split.
    + split; [done|]. split; [by right|]. split; [done|].
      intros u [Hu (links & rest & -> & Hin)]%first_pdf_link_Some.
      split; [done|]. by eexists _, _, _, _.
    + split; [done|]. split; [by right|]. by split.
Qed.

Lemma findPaperOnArxiv_best_effort_witness :
  fst (PDFUtils.findPaperOnArxiv Sample.env "Attention Is All You Need" Sample.empty_world)
    = Some "http://arxiv.org/pdf/1706.03762v7"
  /\ "http://arxiv.org/pdf/1706.03762v7" <> ""
  /\ exists t q links rest,
       arxiv_api Sample.env t q = inr (Some (links :: rest))
       /\ ("application/pdf", "http://arxiv.org/pdf/1706.03762v7") ∈ links.
Proof.
  assert (Hrun : fst (PDFUtils.findPaperOnArxiv Sample.env "Attention Is All You Need"
                        Sample.empty_world) = Some "http://arxiv.org/pdf/1706.03762v7")
    by reflexivity.
  split; [exact Hrun|].
  destruct (findPaperOnArxiv_best_effort Sample.env "Attention Is All You Need"
              Sample.empty_world) as (_ & _ & _ & Hfound).
  exact (Hfound _ Hrun).
Defined.



(** ** Page ranges *)

(** X10.  An [endPage] at or beyond the last page is clamped to it: the
    call returns what the call without [endPage] returns. *)
Theorem readPDFText_clamps_endPage (E : Env) (d : Fs.Disk) (filepath : string)
    (data : list byte) (doc : PDFDocument) (startPage : option Z) (endPage : Z) :
  Fs.readFileSync filepath d = inr data ->
  getDocument E data = inr doc ->
  numPages doc <= endPage ->
  PDFUtils.readPDFText E filepath startPage (Some endPage) d
  = PDFUtils.readPDFText E filepath startPage None d.
Proof.
  intros Hread Hdoc Hend. unfold PDFUtils.readPDFText.
  rewrite (ExtractFacts.load_readable E _ _ _ _ Hread Hdoc).
  assert (numPages doc >= 0) by (unfold numPages; lia).
  replace (Z.min (or_number (Some endPage) (numPages doc)) (numPages doc))
    with (numPages doc) by (destruct endPage; simpl; lia).
  by replace (Z.min (or_number None (numPages doc)) (numPages doc))
    with (numPages doc) by (simpl; lia).
Qed.

Lemma readPDFText_clamps_endPage_witness :
  Fs.readFileSync "/tmp/science_mcp_downloads/paper.pdf" Sample.disk_with_paper
    = inr Sample.pdf_bytes
  /\ getDocument Sample.env Sample.pdf_bytes = inr Sample.three_pages
  /\ numPages Sample.three_pages <= 10
  /\ PDFUtils.readPDFText Sample.env "/tmp/science_mcp_downloads/paper.pdf" (Some 2) (Some 10)
       Sample.disk_with_paper
     = PDFUtils.readPDFText Sample.env "/tmp/science_mcp_downloads/paper.pdf" (Some 2) None
         Sample.disk_with_paper.
Proof.
  assert (Hread : Fs.readFileSync "/tmp/science_mcp_downloads/paper.pdf"
                    Sample.disk_with_paper = inr Sample.pdf_bytes)
    by (vm_compute; reflexivity).
  assert (Hend : numPages Sample.three_pages <= 10) by (vm_compute; discriminate).
  split; [exact Hread|]. split; [reflexivity|]. split; [exact Hend|].
  exact (readPDFText_clamps_endPage Sample.env Sample.disk_with_paper
           "/tmp/science_mcp_downloads/paper.pdf" Sample.pdf_bytes Sample.three_pages
           (Some 2) 10 Hread eq_refl Hend).
Defined.

(** X11.  A negative [startPage] is not defaulted (only zero is): when the
    range it opens is not empty, the first page requested does not exist
    and the read fails with [Invalid page request.] *)
Theorem readPDFText_negative_startPage_fails (E : Env) (d : Fs.Disk) (filepath : string)
    (data : list byte) (doc : PDFDocument) (startPage : Z) (endPage : option Z) :
  Fs.readFileSync filepath d = inr data ->
  getDocument E data = inr doc ->
  startPage < 0 ->
  (forall e, endPage = Some e -> startPage <= e) ->
  PDFUtils.readPDFText E filepath (Some startPage) endPage d
  = Throw "Failed to read PDF: Invalid page request.".
Proof.
  intros Hread Hdoc Hneg Hend. unfold PDFUtils.readPDFText.
  rewrite (ExtractFacts.load_readable E _ _ _ _ Hread Hdoc).
  assert (numPages doc >= 0) by (unfold numPages; lia).
  assert (or_number (Some startPage) 1 = startPage) as -> by (by destruct startPage).
  assert (startPage <= Z.min (or_number endPage (numPages doc)) (numPages doc)) as Hrange.
  { destruct endPage as [e|]; [|simpl; lia].
    specialize (Hend e eq_refl). destruct e; simpl; lia. }
  rewrite ExtractFacts.page_range_cons by done. cbn [PDFUtils.extract_pages].
  unfold PDFUtils.getPage.
  by replace (1 <=? startPage) with false by (symmetry; apply Z.leb_gt; lia).
Qed.

Lemma readPDFText_negative_startPage_fails_witness :
  Fs.readFileSync "/tmp/science_mcp_downloads/paper.pdf" Sample.disk_with_paper
    = inr Sample.pdf_bytes
  /\ -1 < 0
  /\ PDFUtils.readPDFText Sample.env "/tmp/science_mcp_downloads/paper.pdf" (Some (-1))
       (Some 2) Sample.disk_with_paper
     = Throw "Failed to read PDF: Invalid page request.".
Proof.
  assert (Hread : Fs.readFileSync "/tmp/science_mcp_downloads/paper.pdf"
                    Sample.disk_with_paper = inr Sample.pdf_bytes)
    by (vm_compute; reflexivity).
  assert (Hneg : -1 < 0) by lia.
  split; [exact Hread|]. split; [exact Hneg|].
  apply (readPDFText_negative_startPage_fails Sample.env Sample.disk_with_paper
           "/tmp/science_mcp_downloads/paper.pdf" Sample.pdf_bytes Sample.three_pages
           (-1) (Some 2) Hread eq_refl Hneg).
  intros e [= <-]. lia.
Defined.

(** X12.  Reading page by page loses nothing: for consecutive ranges within
    the document, the text of the first, a blank line, and the text of the
    second is the text of the two ranges read in one call. *)
Theorem readPDFText_consecutive_ranges (E : Env) (d : Fs.Disk) (filepath : string)
    (data : list byte) (doc : PDFDocument) (first mid last : Z) :
  Fs.readFileSync filepath d = inr data ->
  getDocument E data = inr doc ->
  1 <= first <= mid ->
  mid < last <= numPages doc ->
  exists t1 t2,
    PDFUtils.readPDFText E filepath (Some first) (Some mid) d = Ret t1
    /\ PDFUtils.readPDFText E filepath (Some (mid + 1)) (Some last) d = Ret t2
    /\ PDFUtils.readPDFText E filepath (Some first) (Some last) d
       = Ret (t1 +:+ (Js.nl +:+ Js.nl) +:+ t2).
Proof.
  intros Hread Hdoc H1 H2.
  exists (range_text doc first mid), (range_text doc (mid + 1) last).
  rewrite !(ExtractFacts.readPDFText_within E _ _ _ _ _ _ Hread Hdoc) by lia.
  by rewrite <-TextFacts.range_text_split by lia.
Qed.

Lemma readPDFText_consecutive_ranges_witness :
  exists t1 t2,
    PDFUtils.readPDFText Sample.env "/tmp/science_mcp_downloads/paper.pdf" (Some 1) (Some 2)
      Sample.disk_with_paper = Ret t1
    /\ PDFUtils.readPDFText Sample.env "/tmp/science_mcp_downloads/paper.pdf" (Some (2 + 1))
         (Some 3) Sample.disk_with_paper = Ret t2
    /\ PDFUtils.readPDFText Sample.env "/tmp/science_mcp_downloads/paper.pdf" (Some 1) (Some 3)
         Sample.disk_with_paper = Ret (t1 +:+ (Js.nl +:+ Js.nl) +:+ t2).
Proof.
  assert (Hread : Fs.readFileSync "/tmp/science_mcp_downloads/paper.pdf"
                    Sample.disk_with_paper = inr Sample.pdf_bytes)
    by (vm_compute; reflexivity).
  assert (H1 : 1 <= 1 <= 2) by lia.
  assert (H2 : 2 < 3 <= numPages Sample.three_pages) by (vm_compute; split; [reflexivity|discriminate]).
  exact (readPDFText_consecutive_ranges Sample.env Sample.disk_with_paper
           "/tmp/science_mcp_downloads/paper.pdf" Sample.pdf_bytes Sample.three_pages
           1 2 3 Hread eq_refl H1 H2).
Defined.

(** X13.  Chunking loses nothing either: the chunks that
    [readPDFTextChunked] returns, joined with blank lines, are the text that
    [readPDFText] returns for the whole document. *)
Theorem chunks_join_to_the_whole_text (E : Env) (d : Fs.Disk) (filepath : string)
    (data : list byte) (doc : PDFDocument) (chunkSize : Z) (fuel : nat) :
  Fs.readFileSync filepath d = inr data ->
  getDocument E data = inr doc ->
  1 <= numPages doc ->
  1 <= chunkSize ->
  (Z.to_nat (numPages doc) < fuel)%nat ->
  exists chunks whole,
    PDFUtils.readPDFTextChunked E fuel filepath chunkSize d = Ret (chunks, numPages doc)
    /\ PDFUtils.readPDFText E filepath None None d = Ret whole
    /\ String.concat (Js.nl +:+ Js.nl) chunks = whole.
Proof.
  intros Hread Hdoc Htotal Hcs Hfuel.
  eexists _, _.
  split; [by apply (TextFacts.readPDFTextChunked_chunks E _ _ data doc)|].
  split; [by apply (TextFacts.readPDFText_whole E _ _ data doc)|].
  set (n := (numPages doc + chunkSize - 1) / chunkSize).
  assert (0 <= n) by (apply Z.div_pos; lia).
  transitivity
    (String.concat (Js.nl +:+ Js.nl)
       (map (fun r => String.concat (Js.nl +:+ Js.nl) (map (page_text_of doc) r))
          (map (fun i => PDFUtils.page_range (i * chunkSize + 1)
                           (Z.min ((i + 1) * chunkSize) (numPages doc)))
             (seqZ 0 n)))).
  { by rewrite map_map. }
  rewrite TextFacts.concat_concat.
  - pose proof (ChunkFacts.chunk_ranges_concat (numPages doc) chunkSize Hcs Htotal
                  (Z.to_nat n) 0) as Hcat.
    rewrite Z2Nat.id in Hcat by lia.
    change (0 * chunkSize + 1) with 1 in Hcat. rewrite Hcat by (fold n; lia). done.
  - apply Forall_forall. intros r Hr. apply list_elem_of_In, in_map_iff in Hr.
    destruct Hr as (i & <- & Hi). apply list_elem_of_In, elem_of_seqZ in Hi.
    apply TextFacts.page_range_nonempty.
    assert (i * chunkSize + 1 <= numPages doc)
      by (apply (ChunkFacts.chunk_count_spec (numPages doc) chunkSize i); fold n; lia).
    lia.
Qed.

Lemma chunks_join_to_the_whole_text_witness :
  exists chunks whole,
    PDFUtils.readPDFTextChunked Sample.env 4 "/tmp/science_mcp_downloads/paper.pdf" 2
      Sample.disk_with_paper = Ret (chunks, numPages Sample.three_pages)
    /\ PDFUtils.readPDFText Sample.env "/tmp/science_mcp_downloads/paper.pdf" None None
         Sample.disk_with_paper = Ret whole
    /\ String.concat (Js.nl +:+ Js.nl) chunks = whole.
Proof.
  assert (Hread : Fs.readFileSync "/tmp/science_mcp_downloads/paper.pdf"
                    Sample.disk_with_paper = inr Sample.pdf_bytes)
    by (vm_compute; reflexivity).
  assert (Htotal : 1 <= numPages Sample.three_pages) by (vm_compute; discriminate).
  assert (Hcs : 1 <= 2) by lia.
  assert (Hfuel : (Z.to_nat (numPages Sample.three_pages) < 4)%nat) by (vm_compute; lia).
  exact (chunks_join_to_the_whole_text Sample.env Sample.disk_with_paper
           "/tmp/science_mcp_downloads/paper.pdf" Sample.pdf_bytes Sample.three_pages
           2 4 Hread eq_refl Htotal Hcs Hfuel).
Defined.

(** ** The text of a page *)




(** ** More on the size-fitting loop *)

Module BudgetFacts.
Section WithEnv.
Context (E : Env).

Lemma within_budget (len : nat) :
  Qle_bool (inject_Z (Z.of_nat len) / 4) Server.maxTokens = true
  <-> Z.of_nat len <= 60000.
Proof.
  rewrite Qle_bool_iff. unfold Qle, Server.maxTokens, Qdiv, Qmult, Qinv, inject_Z.
  simpl. lia.
Qed.

(** What the loop returns, when it returns a text. *)
Lemma fit_chunks_result fuel filepath (d : Fs.Disk) t :
  forall currentChunkSize,
    currentChunkSize = 1 \/ currentChunkSize = 2 ->
    Server.fit_chunks E fuel filepath currentChunkSize d = Ret (Some t) ->
    Z.of_nat (String.length t) <= 60000
    /\ exists size fuel' chunks totalPages,
         (size = 1 \/ size = 2)
         /\ size <= currentChunkSize
         /\ PDFUtils.readPDFTextChunked E fuel' filepath size d = Ret (chunks, totalPages)
         /\ t = JSON_stringify E (Server.chunked_response filepath size totalPages chunks).
Proof.
  induction fuel as [|fuel IH]; intros cs Hcs; [done|].
  cbn [Server.fit_chunks].
  destruct (Z.ltb_spec 0 cs) as [_|]; [|lia].
  assert (Hnext : Server.fit_chunks E fuel filepath (Server.shrink cs) d = Ret (Some t) ->
            Z.of_nat (String.length t) <= 60000
            /\ exists size fuel' chunks totalPages,
                 (size = 1 \/ size = 2) /\ size <= cs
                 /\ PDFUtils.readPDFTextChunked E fuel' filepath size d
                    = Ret (chunks, totalPages)
                 /\ t = JSON_stringify E
                          (Server.chunked_response filepath size totalPages chunks)).
  { intros Hrun. assert (Server.shrink cs = 1) as Hs by (by destruct Hcs as [-> | ->]).
    rewrite Hs in Hrun. apply IH in Hrun; [|by left].
    destruct Hrun as (Hlen & size & fuel' & chunks & total & Hsize & Hle & Hread & Ht).
    split; [done|]. exists size, fuel', chunks, total. repeat split; first [done|lia]. }
  destruct (PDFUtils.readPDFTextChunked E fuel filepath cs d)
    as [[chunks total]|e|] eqn:Hread; [|done|done].
  destruct (Qle_bool _ _) eqn:Hfit; [|done].
  intros [= <-]. split; [by apply within_budget|].
  exists cs, fuel, chunks, total. repeat split; first [done|lia].
Qed.

(** One iteration of the loop on a document whose response fits. *)
Lemma fit_chunks_fits fuel filepath (d : Fs.Disk) size chunks totalPages :
  0 < size ->
  PDFUtils.readPDFTextChunked E fuel filepath size d = Ret (chunks, totalPages) ->
  Z.of_nat (String.length
    (JSON_stringify E (Server.chunked_response filepath size totalPages chunks))) <= 60000 ->
  Server.fit_chunks E (S fuel) filepath size d
  = Ret (Some (JSON_stringify E (Server.chunked_response filepath size totalPages chunks))).
Proof.
  intros Hsize Hread Hfit. cbn [Server.fit_chunks].
  destruct (Z.ltb_spec 0 size) as [_|]; [|lia]. rewrite Hread.
  apply within_budget in Hfit. by rewrite Hfit.
Qed.

(** One iteration of the loop on a document whose response does not fit. *)
Lemma fit_chunks_shrinks fuel filepath (d : Fs.Disk) size chunks totalPages :
  0 < size ->
  PDFUtils.readPDFTextChunked E fuel filepath size d = Ret (chunks, totalPages) ->
  60000 < Z.of_nat (String.length
    (JSON_stringify E (Server.chunked_response filepath size totalPages chunks))) ->
  Server.fit_chunks E (S fuel) filepath size d
  = Server.fit_chunks E fuel filepath (Server.shrink size) d.
Proof.
  intros Hsize Hread Hover. cbn [Server.fit_chunks].
  destruct (Z.ltb_spec 0 size) as [_|]; [|lia]. rewrite Hread.
  destruct (Qle_bool _ _) eqn:Hfit; [|done].
  apply within_budget in Hfit. lia.
Qed.

End WithEnv.
End BudgetFacts.

(** X15.  A chunked read that returns, for a requested chunk size of at
    least 1, returns a text of at most 60000 characters (an estimate of at
    most 15000 tokens): it is the serialized chunk set of the file read at a
    chunk size of 1 or 2, and never more than requested.  A larger
    requested size is not honoured. *)
Theorem chunked_read_respects_budget (E : Env) (fuel : nat) (filepath : string)
    (chunkSize : Z) (d : Fs.Disk) (t : string) :
  1 <= chunkSize ->
  Server.read_chunked E fuel filepath chunkSize d = Ret t ->
  Z.of_nat (String.length t) <= 60000
  /\ exists size fuel' chunks totalPages,
       (size = 1 \/ size = 2)
       /\ size <= chunkSize
       /\ PDFUtils.readPDFTextChunked E fuel' filepath size d = Ret (chunks, totalPages)
       /\ t = JSON_stringify E (Server.chunked_response filepath size totalPages chunks).
Proof.
  intros Hcs. unfold Server.read_chunked.
  pose proof (FitFacts.fit_chunks_never_leaves E fuel filepath d (Z.min chunkSize 2)) as Hloop.
  destruct (Server.fit_chunks E fuel filepath (Z.min chunkSize 2) d)
    as [[t'|]|e|] eqn:Hfit; [| |done|done].
  - intros [= <-].
    destruct (BudgetFacts.fit_chunks_result E fuel filepath d t' (Z.min chunkSize 2))
      as (Hlen & size & fuel' & chunks & total & Hsize & Hle & Hread & Ht); [lia|done|].
    split; [done|]. exists size, fuel', chunks, total. repeat split; first [done|lia].
  - destruct Hloop; [lia|done].
Qed.

Lemma chunked_read_respects_budget_witness :
  1 <= 10
  /\ Server.read_chunked Sample.env 10 "/tmp/science_mcp_downloads/paper.pdf" 10
       Sample.disk_with_paper = Ret "{}"
  /\ Z.of_nat (String.length "{}") <= 60000.
Proof.
  assert (Hcs : 1 <= 10) by lia.
  assert (Hrun : Server.read_chunked Sample.env 10 "/tmp/science_mcp_downloads/paper.pdf" 10
                   Sample.disk_with_paper = Ret "{}") by (vm_compute; reflexivity).
  split; [exact Hcs|]. split; [exact Hrun|].
  destruct (chunked_read_respects_budget Sample.env 10
              "/tmp/science_mcp_downloads/paper.pdf" 10 Sample.disk_with_paper "{}"
              Hcs Hrun) as [Hlen _].
  exact Hlen.
Defined.

(** X16.  When the loop does end.  For a file that parses to at least one
    page and a requested size of at least 1, with fuel for the reads: if
    the chunk set at the starting size, the smaller of the requested size
    and 2, serializes to at most 60000 characters, the chunked read returns
    that text; and if it does not, the starting size is 2, and the chunk set
    at size 1 does, the chunked read returns the text at size 1. *)
Theorem chunked_read_returns_first_fit (E : Env) (fuel : nat) (filepath : string)
    (chunkSize : Z) (d : Fs.Disk) (data : list byte) (doc : PDFDocument) :
  Fs.readFileSync filepath d = inr data ->
  getDocument E data = inr doc ->
  1 <= numPages doc ->
  1 <= chunkSize ->
  (Z.to_nat (numPages doc) + 2 < fuel)%nat ->
  let chunks size :=
    map (fun i => range_text doc (i * size + 1) (Z.min ((i + 1) * size) (numPages doc)))
      (seqZ 0 ((numPages doc + size - 1) / size)) in
  let text size :=
    JSON_stringify E (Server.chunked_response filepath size (numPages doc) (chunks size)) in
  let start := Z.min chunkSize 2 in
  (Z.of_nat (String.length (text start)) <= 60000 ->
     Server.read_chunked E fuel filepath chunkSize d = Ret (text start))
  /\ (60000 < Z.of_nat (String.length (text start)) ->
      start = 2 ->
      Z.of_nat (String.length (text 1)) <= 60000 ->
      Server.read_chunked E fuel filepath chunkSize d = Ret (text 1)).
Proof.
  intros Hread Hdoc Htotal Hcs Hfuel chunks text start.
  destruct fuel as [|[|fuel]]; [lia|lia|].
  assert (Hchunks : forall size fuel', 1 <= size ->
            (Z.to_nat (numPages doc) < fuel')%nat ->
            PDFUtils.readPDFTextChunked E fuel' filepath size d
            = Ret (chunks size, numPages doc)).
  { intros size fuel' Hsize Hfuel'.
    by apply (TextFacts.readPDFTextChunked_chunks E _ _ data doc). }
  unfold Server.read_chunked. fold start. split.
  - intros Hfit.
    rewrite (BudgetFacts.fit_chunks_fits E (S fuel) filepath d start (chunks start)
               (numPages doc)); [done|lia| |done].
    apply Hchunks; lia.
  - intros Hover Hstart Hfit.
    rewrite (BudgetFacts.fit_chunks_shrinks E (S fuel) filepath d start (chunks start)
               (numPages doc)); [|lia| |done].
    2:{ apply Hchunks; lia. }
    rewrite Hstart. change (Server.shrink 2) with 1.
    rewrite (BudgetFacts.fit_chunks_fits E fuel filepath d 1 (chunks 1) (numPages doc));
      [done|lia| |done].
    apply Hchunks; lia.
Qed.

Lemma chunked_read_returns_first_fit_witness :
  Server.read_chunked Sample.env 6 "/tmp/science_mcp_downloads/paper.pdf" 10
    Sample.disk_with_paper
  = Ret (JSON_stringify Sample.env
           (Server.chunked_response "/tmp/science_mcp_downloads/paper.pdf" 2 3
              [range_text Sample.three_pages 1 2; range_text Sample.three_pages 3 3])).
Proof.
  assert (Hread : Fs.readFileSync "/tmp/science_mcp_downloads/paper.pdf"
                    Sample.disk_with_paper = inr Sample.pdf_bytes)
    by (vm_compute; reflexivity).
  assert (Htotal : 1 <= numPages Sample.three_pages) by (vm_compute; discriminate).
  assert (Hcs : 1 <= 10) by lia.
  assert (Hfuel : (Z.to_nat (numPages Sample.three_pages) + 2 < 6)%nat) by (vm_compute; lia).
  destruct (chunked_read_returns_first_fit Sample.env 6
              "/tmp/science_mcp_downloads/paper.pdf" 10 Sample.disk_with_paper
              Sample.pdf_bytes Sample.three_pages Hread eq_refl Htotal Hcs Hfuel)
    as [Hfirst _].
  apply Hfirst. vm_compute. discriminate.
Defined.

(** ** More on storage bookkeeping *)

(** X17.  [cleanupDownloads] only removes files of the downloads
    directory.  Whether the loop runs to its end or stops at an entry that
    cannot be unlinked, every file left in the directory was there before
    with the same contents, the directory itself stays, every other
    directory is as before, and the clock and the request log are not
    used.  When the directory has no subdirectory, every file is removed,
    whatever its name or contents, and [listDownloadedPDFs] then returns
    the empty list.  The names of the files are single path components. *)
Theorem cleanupDownloads_frame (E : Env) (w : World) :
  Fs.names_wf (storage E w) ->
  exists w',
    PDFUtils.cleanupDownloads E w = (Ret tt, w')
    /\ storage E w' ⊆ storage E w
    /\ (is_Some (disk w' !! PDFUtils.downloadsDir E)
        <-> is_Some (disk w !! PDFUtils.downloadsDir E))
    /\ (forall dir, dir <> PDFUtils.downloadsDir E -> disk w' !! dir = disk w !! dir)
    /\ tick w' = tick w
    /\ pdf_requests w' = pdf_requests w
    /\ (Fs.subdirectories (PDFUtils.downloadsDir E) (disk w) = [] ->
          storage E w' = ∅ /\ PDFUtils.listDownloadedPDFs E (disk w') = []).
Proof.
  intros Hwf. exists (snd (PDFUtils.cleanupDownloads E w)).
  split.
  { rewrite <-(cleanupDownloads_never_raises E w). by destruct (PDFUtils.cleanupDownloads E w). }
  assert (Hframe : storage E (snd (PDFUtils.cleanupDownloads E w)) ⊆ storage E w
            /\ (is_Some (disk (snd (PDFUtils.cleanupDownloads E w)) !! PDFUtils.downloadsDir E)
                <-> is_Some (disk w !! PDFUtils.downloadsDir E))
            /\ (forall dir, dir <> PDFUtils.downloadsDir E ->
                  disk (snd (PDFUtils.cleanupDownloads E w)) !! dir = disk w !! dir)
            /\ tick (snd (PDFUtils.cleanupDownloads E w)) = tick w
            /\ pdf_requests (snd (PDFUtils.cleanupDownloads E w)) = pdf_requests w).
  { unfold PDFUtils.cleanupDownloads.
    destruct (Fs.readdirSync _ _) as [e|files] eqn:Hlist; [done|].
    destruct (unlink_each_frame E files (disk w)) as (Hother & Hsub & Hsome).
    - intros file Hfile. apply (DirFacts.listing_no_slash _ _ _ Hwf).
      unfold Fs.files_in. by rewrite Hlist.
    - destruct (PDFUtils.unlink_each E files (disk w)) as [stopped d']. simpl in *.
      split; [exact Hsub|]. split; [exact Hsome|]. split; [exact Hother|]. done. }
  destruct Hframe as (Hsub & Hsome & Hother & Htick & Hlog).
  repeat (split; [done|]).
  intros Hnone. unfold storage, Fs.entries_of in *.
  destruct (disk w !! PDFUtils.downloadsDir E) as [entries|] eqn:Hdir.
  - rewrite (cleanupDownloads_of_files E w entries Hdir Hwf Hnone). simpl.
    unfold PDFUtils.listDownloadedPDFs, Fs.readdirSync.
    rewrite lookup_insert_eq, (DirFacts.subdirectories_insert_nil _ _ _ Hnone).
    by rewrite map_to_list_empty.
  - unfold PDFUtils.cleanupDownloads, PDFUtils.listDownloadedPDFs, Fs.readdirSync.
    rewrite Hdir. simpl. by rewrite Hdir.
Qed.

Lemma cleanupDownloads_frame_witness :
  Fs.names_wf (storage Sample.env Sample.world_with_paper)
  /\ Fs.subdirectories (PDFUtils.downloadsDir Sample.env) (disk Sample.world_with_paper) = []
  /\ exists w',
       PDFUtils.cleanupDownloads Sample.env Sample.world_with_paper = (Ret tt, w')
       /\ storage Sample.env w' = ∅
       /\ PDFUtils.listDownloadedPDFs Sample.env (disk w') = [].
Proof.
  assert (Hwf : Fs.names_wf (storage Sample.env Sample.world_with_paper)).
  { intros name data. unfold storage.
    change (Fs.entries_of _ _) with
      (<["paper.pdf" := Sample.pdf_bytes]>
         (<["short.pdf" := [x25; x50; x44; x46]]>
            (<["notes.txt" := Sample.html_bytes]> (∅ : Fs.Dir)))).
    rewrite !lookup_insert, lookup_empty.
    repeat case_decide; subst; by intros. }
  assert (Hnone : Fs.subdirectories (PDFUtils.downloadsDir Sample.env)
                    (disk Sample.world_with_paper) = []) by (vm_compute; reflexivity).
  split; [exact Hwf|]. split; [exact Hnone|].
  destruct (cleanupDownloads_frame Sample.env Sample.world_with_paper Hwf)
    as (w' & Hrun & _ & _ & _ & _ & _ & Hall).
  destruct (Hall Hnone) as [Hempty Hlist].
  exists w'. split; [exact Hrun|]. split; [exact Hempty|exact Hlist].
Defined.

(** ** The search client *)

#[local] Instance newer_first_total : Total GoogleScholarClient.newer_first.
Proof. intros a b. unfold GoogleScholarClient.newer_first. lia. Qed.

#[local] Instance newer_first_transitive : Transitive GoogleScholarClient.newer_first.
Proof. intros a b c. unfold GoogleScholarClient.newer_first. lia. Qed.

Lemma insert_paper_Permutation (a : ScholarPaper) (sorted : list ScholarPaper) :
  GoogleScholarClient.insert_paper a sorted ≡ₚ a :: sorted.
Proof.
  induction sorted as [|b rest IH]; simpl; [done|].
  case_decide; [done|]. rewrite IH. apply Permutation_swap.
Qed.

Lemma sort_by_date_Permutation (papers : list ScholarPaper) :
  GoogleScholarClient.sort_by_date papers ≡ₚ papers.
Proof.
  induction papers as [|a papers IH]; simpl; [done|].
  rewrite insert_paper_Permutation. by rewrite IH.
Qed.

Lemma insert_paper_sorted (a : ScholarPaper) (sorted : list ScholarPaper) :
  StronglySorted GoogleScholarClient.newer_first sorted ->
  StronglySorted GoogleScholarClient.newer_first (GoogleScholarClient.insert_paper a sorted).
Proof.
  induction 1 as [|b rest Hsorted IH Hb]; simpl.
  - repeat constructor.
  - case_decide as Hab.
    + constructor; [by constructor|].
      constructor; [exact Hab|].
      eapply Forall_impl; [exact Hb|]. intros c Hbc. by etrans.
    + constructor; [exact IH|].
      rewrite insert_paper_Permutation. constructor; [|exact Hb].
      destruct (total GoogleScholarClient.newer_first a b); [done|assumption].
Qed.

Lemma sort_by_date_sorted (papers : list ScholarPaper) :
  StronglySorted GoogleScholarClient.newer_first (GoogleScholarClient.sort_by_date papers).
Proof.
  induction papers as [|a papers IH]; simpl; [constructor|].
  by apply insert_paper_sorted.
Qed.


(** X18.  The Semantic Scholar client never fails: when the API fails it
    returns the empty list.  When the API answers, [getLatestPapers]
    returns the papers of the answer, all of them and no other, ordered so
    that no paper comes before a paper of a later year (a paper without a
    year counting as year 0), and [searchByTopic] returns them in the order
    of the answer.  Each search asks the API once. *)
Theorem scholar_search_results (E : Env) (topic : string) (maxResults : Z) (w : World) :
  (forall e, scholar_api E (tick w) topic maxResults = inl e ->
     fst (GoogleScholarClient.getLatestPapers E topic maxResults w) = []
     /\ fst (GoogleScholarClient.searchByTopic E topic maxResults w) = [])
  /\ (forall papers, scholar_api E (tick w) topic maxResults = inr papers ->
        fst (GoogleScholarClient.getLatestPapers E topic maxResults w) ≡ₚ papers
        /\ StronglySorted GoogleScholarClient.newer_first
             (fst (GoogleScholarClient.getLatestPapers E topic maxResults w))
        /\ fst (GoogleScholarClient.searchByTopic E topic maxResults w) = papers)
  /\ snd (GoogleScholarClient.getLatestPapers E topic maxResults w) = bump w
  /\ snd (GoogleScholarClient.searchByTopic E topic maxResults w) = bump w.
Proof.
  unfold GoogleScholarClient.getLatestPapers, GoogleScholarClient.searchByTopic,
    GoogleScholarClient.searchPapers.
  destruct (scholar_api E (tick w) topic maxResults) as [e|papers]; simpl.
  - by repeat split.
  - split; [done|]. split; [|done]. intros ? [= <-].
    split; [apply sort_by_date_Permutation|].
    split; [|done]. apply sort_by_date_sorted.
Qed.

Lemma scholar_search_results_witness :
  scholar_api Sample.env_with_papers 0 "transformers" 10
    = inr [Sample.paper_2017; Sample.paper_undated; Sample.paper_2020]
  /\ fst (GoogleScholarClient.getLatestPapers Sample.env_with_papers "transformers" 10
            Sample.empty_world)
     = [Sample.paper_2020; Sample.paper_2017; Sample.paper_undated]
  /\ StronglySorted GoogleScholarClient.newer_first
       (fst (GoogleScholarClient.getLatestPapers Sample.env_with_papers "transformers" 10
               Sample.empty_world)).
Proof.
  assert (Hapi : scholar_api Sample.env_with_papers (tick Sample.empty_world)
                   "transformers" 10
                 = inr [Sample.paper_2017; Sample.paper_undated; Sample.paper_2020])
    by reflexivity.
  split; [exact Hapi|]. split; [vm_compute; reflexivity|].
  destruct (scholar_search_results Sample.env_with_papers "transformers" 10
              Sample.empty_world) as (_ & Hanswer & _).
  destruct (Hanswer _ Hapi) as (_ & Hsorted & _).
  exact Hsorted.
Defined.

(** Inserting a paper changes nothing to the order of the papers of one
    year: the papers it is put behind are strictly newer than it. *)
Lemma filter_insert_paper (year : Z) (a : ScholarPaper) (sorted : list ScholarPaper) :
  List.filter (fun p => default 0 (s_year p) =? year)
    (GoogleScholarClient.insert_paper a sorted)
  = List.filter (fun p => default 0 (s_year p) =? year) (a :: sorted).
Proof.
  induction sorted as [|b rest IH]; [done|].
  cbn [GoogleScholarClient.insert_paper]. case_decide as Hab; [done|].
  unfold GoogleScholarClient.newer_first in Hab.
  cbn [List.filter] in *. rewrite IH.
  destruct (Z.eqb_spec (default 0 (s_year a)) year) as [Ha|Ha];
    destruct (Z.eqb_spec (default 0 (s_year b)) year) as [Hb|Hb]; try done.
  lia.
Qed.

(** X22.  The sort by date is stable, as the sort of an array is: among
    the papers that [getLatestPapers] returns, those of one year (a paper
    without a year counting as year 0) come in the order in which the API
    returned them. *)
Theorem getLatestPapers_keeps_order_within_a_year (E : Env) (topic : string)
    (maxResults : Z) (w : World) (papers : list ScholarPaper) (year : Z) :
  scholar_api E (tick w) topic maxResults = inr papers ->
  List.filter (fun p => default 0 (s_year p) =? year)
    (fst (GoogleScholarClient.getLatestPapers E topic maxResults w))
  = List.filter (fun p => default 0 (s_year p) =? year) papers.
Proof.
  intros Hapi.
  unfold GoogleScholarClient.getLatestPapers, GoogleScholarClient.searchPapers.
  rewrite Hapi. cbn [String.eqb fst]. simpl. clear Hapi.
  induction papers as [|a papers IH]; [done|].
  cbn [GoogleScholarClient.sort_by_date foldr].
  rewrite filter_insert_paper. cbn [List.filter].
  unfold GoogleScholarClient.sort_by_date in IH. by rewrite IH.
Qed.

Lemma getLatestPapers_keeps_order_within_a_year_witness :
  scholar_api Sample.env_same_year 0 "transformers" 10
    = inr [Sample.paper_2017; Sample.paper_2020; Sample.paper_2017_bis;
           Sample.paper_2017_ter]
  /\ fst (GoogleScholarClient.getLatestPapers Sample.env_same_year "transformers" 10
            Sample.empty_world)
     = [Sample.paper_2020; Sample.paper_2017; Sample.paper_2017_bis; Sample.paper_2017_ter]
  /\ List.filter (fun p => default 0 (s_year p) =? 2017)
       (fst (GoogleScholarClient.getLatestPapers Sample.env_same_year "transformers" 10
               Sample.empty_world))
     = [Sample.paper_2017; Sample.paper_2017_bis; Sample.paper_2017_ter].
Proof.
  assert (Hapi : scholar_api Sample.env_same_year (tick Sample.empty_world)
                   "transformers" 10
                 = inr [Sample.paper_2017; Sample.paper_2020; Sample.paper_2017_bis;
                        Sample.paper_2017_ter]) by reflexivity.
  split; [exact Hapi|]. split; [vm_compute; reflexivity|].
  rewrite (getLatestPapers_keeps_order_within_a_year Sample.env_same_year "transformers"
             10 Sample.empty_world _ 2017 Hapi).
  reflexivity.
Defined.

(** ** Unknown tools *)

(** X19.  A call whose name is not in the [tools] array is answered, with
    any fuel and any arguments, by the error marker [Error: Unknown tool: ]
    followed by the name, and the world is left as it was. *)
Theorem unknown_tool_is_rejected (E : Env) (fuel : nat) (name : string)
    (args : Server.ToolArgs) (w : World) :
  name ∉ Server.tool_names ->
  Server.handler E fuel name args w
  = (Ret {| Server.text := "Error: " +:+ "Unknown tool: " +:+ name;
            Server.isError := true |}, w).
Proof.
  intros Hname. unfold Server.handler, Server.call_tool.
  repeat match goal with
  | |- context [String.eqb name ?tool] =>
      destruct (String.eqb_spec name tool) as [->|_];
      [exfalso; apply Hname; unfold Server.tool_names;
       repeat first [by left | right] |]
  end.
  reflexivity.
Qed.

Lemma unknown_tool_is_rejected_witness :
  ("no_such_tool" ∉ Server.tool_names)
  /\ Server.handler Sample.env 0 "no_such_tool" Sample.read_missing_chunked
       Sample.world_with_paper
     = (Ret {| Server.text := "Error: " +:+ "Unknown tool: " +:+ "no_such_tool";
               Server.isError := true |}, Sample.world_with_paper).
Proof.
  assert (Hname : "no_such_tool" ∉ Server.tool_names).
  { unfold Server.tool_names. intros Hin.
    repeat (apply elem_of_cons in Hin as [Hin|Hin]; [discriminate Hin|]).
    by apply elem_of_nil in Hin. }
  split; [exact Hname|].
  exact (unknown_tool_is_rejected Sample.env 0 "no_such_tool" Sample.read_missing_chunked
           Sample.world_with_paper Hname).
Defined.

(** ** From the hint to the title and back *)

Module TitleFacts.

Lemma title_char_round_trip c :
  is_title_char c = true ->
  (if PDFUtils.is_underscore_or_hyphen
        (if negb (Js.is_filename_char c) then "_"%char else c)
   then " "%char
   else if negb (Js.is_filename_char c) then "_"%char else c) = c.
Proof. destruct c as [[] [] [] [] [] [] [] []]; vm_compute; congruence. Qed.

Lemma title_char_not_dot c : is_title_char c = true -> Ascii.eqb c "." = false.
Proof. destruct c as [[] [] [] [] [] [] [] []]; vm_compute; congruence. Qed.

Lemma title_round_trip hint :
  string_forall is_title_char hint = true ->
  Js.replace_chars PDFUtils.is_underscore_or_hyphen " " (NameFacts.sanitize hint) = hint.
Proof.
  induction hint as [|c hint IH]; [done|]. cbn [string_forall Js.replace_chars].
  intros [Hc Hhint]%andb_true_iff. by rewrite (title_char_round_trip c Hc), (IH Hhint).
Qed.

Lemma sanitize_no_dot hint :
  string_forall is_title_char hint = true ->
  string_forall (fun c => negb (Ascii.eqb c ".")) (NameFacts.sanitize hint) = true.
Proof.
  induction hint as [|c hint IH]; [done|]. cbn [string_forall Js.replace_chars].
  intros [Hc Hhint]%andb_true_iff. rewrite (IH Hhint), andb_true_r.
  pose proof (title_char_not_dot c Hc) as Hdot.
  destruct (Js.is_filename_char c); simpl; [by rewrite Hdot|done].
Qed.

Lemma strip_suffix_pdf s :
  string_forall (fun c => negb (Ascii.eqb c ".")) s = true ->
  Js.strip_suffix ".pdf" (s +:+ ".pdf") = s.
Proof.
  induction s as [|c s IH]; [done|]. cbn [string_forall].
  intros [Hc Hs]%andb_true_iff. rewrite NameFacts.append_cons. cbn [Js.strip_suffix].
  replace (String.eqb (String c (s +:+ ".pdf")) ".pdf") with false.
  - by rewrite (IH Hs).
  - cbn [String.eqb]. by destruct (Ascii.eqb c ".").
Qed.

Lemma title_not_pdf hint :
  string_forall is_title_char hint = true -> Js.endsWith hint ".pdf" = false.
Proof.
  intros Hhint. destruct (Js.endsWith hint ".pdf") eqn:Hends; [|done].
  apply NameFacts.endsWith_inv in Hends as [pre ->]. exfalso.
  induction pre as [|c pre IH]; [done|].
  rewrite NameFacts.append_cons in Hhint. cbn [string_forall] in Hhint.
  apply andb_true_iff in Hhint as [_ Hhint]. by apply IH.
Qed.

Lemma replace_chars_length in_class c s :
  String.length (Js.replace_chars in_class c s) = String.length s.
Proof. induction s as [|a s IH]; [done|]. cbn [Js.replace_chars String.length]. by rewrite IH. Qed.

End TitleFacts.

(** X20.  From the hint to the stored name and back.  A hint of more than
    10 letters, digits and spaces is stored under the name made of the hint
    with every space turned into an underscore, followed by [.pdf]; and the
    title that the fallback derives from that stored name, for any URL, is
    the hint again. *)
Theorem title_of_stored_name_is_the_hint (E : Env) (url url' : string) (hint : string)
    (w : World) :
  string_forall is_title_char hint = true ->
  10 < Z.of_nat (String.length hint) ->
  fst (PDFUtils.resolveFilename E url (Some hint) w)
  = Js.replace_chars (fun c => Ascii.eqb c " ") "_" hint +:+ ".pdf"
  /\ PDFUtils.extractTitleFromUrl E url'
       (Some (fst (PDFUtils.resolveFilename E url (Some hint) w)))
     = Some hint.
Proof.
  intros Hchars Hlen.
  assert (Hname : fst (PDFUtils.resolveFilename E url (Some hint) w)
                  = NameFacts.sanitize hint +:+ ".pdf").
  { unfold PDFUtils.resolveFilename.
    destruct hint as [|c hint]; [simpl in Hlen; lia|]. cbn [Js.truthy].
    rewrite (TitleFacts.title_not_pdf _ Hchars). cbn [fst].
    by rewrite NameFacts.replace_chars_app. }
  split.
  - rewrite Hname. f_equal. clear Hname Hlen.
    induction hint as [|c hint IH]; [done|]. cbn [string_forall] in Hchars.
    apply andb_true_iff in Hchars as [Hc Hhint]. cbn [Js.replace_chars].
    rewrite (IH Hhint). f_equal. clear IH Hhint.
    destruct c as [[] [] [] [] [] [] [] []]; vm_compute in Hc |- *; congruence.
  - rewrite Hname. unfold PDFUtils.extractTitleFromUrl.
    assert (Js.truthy (Some (NameFacts.sanitize hint +:+ ".pdf"))
            = Some (NameFacts.sanitize hint +:+ ".pdf")) as ->.
    { destruct hint as [|c hint]; [simpl in Hlen; lia|]. reflexivity. }
    rewrite (TitleFacts.strip_suffix_pdf _ (TitleFacts.sanitize_no_dot _ Hchars)).
    rewrite (TitleFacts.title_round_trip _ Hchars).
    by replace (10 <? Z.of_nat (String.length hint)) with true
      by (symmetry; apply Z.ltb_lt; lia).
Qed.

Lemma title_of_stored_name_is_the_hint_witness :
  string_forall is_title_char "Attention Is All You Need" = true
  /\ 10 < Z.of_nat (String.length "Attention Is All You Need")
  /\ fst (PDFUtils.resolveFilename Sample.env "https://sciencedirect.com/paper123.pdf"
            (Some "Attention Is All You Need") Sample.empty_world)
     = "Attention_Is_All_You_Need.pdf"
  /\ PDFUtils.extractTitleFromUrl Sample.env "https://sciencedirect.com/paper123.pdf"
       (Some "Attention_Is_All_You_Need.pdf")
     = Some "Attention Is All You Need".
Proof.
  assert (Hchars : string_forall is_title_char "Attention Is All You Need" = true)
    by reflexivity.
  assert (Hlen : 10 < Z.of_nat (String.length "Attention Is All You Need"))
    by reflexivity.
  split; [exact Hchars|]. split; [exact Hlen|].
  exact (title_of_stored_name_is_the_hint Sample.env
           "https://sciencedirect.com/paper123.pdf" "https://sciencedirect.com/paper123.pdf"
           "Attention Is All You Need" Sample.empty_world Hchars Hlen).
Defined.
